(** * Screener scraper: a shallow embedding of [scraperv1.py] and [scraper.py]

    The development follows the two scraper scripts of the repository:

    - [Py]: the operations of Python's [str], [re], [os.path],
      [urllib.parse] and [pathlib] that the scripts call, on ASCII text;
    - [Bs4]: the part of BeautifulSoup's tree interface the scripts use;
    - [ScraperV1]: the functions of [scraperv1.py];
    - [Scraper]: the functions of [scraper.py] that differ from [ScraperV1].

    Python strings are Rocq strings of 8-bit characters.  Case folding,
    white space and digits are the ASCII ones, which is what [str.lower],
    [str.strip], [\s] and [\d] do on ASCII text. *)

From Stdlib Require Import String Ascii List Bool Arith Lia.
From stdpp Require Import base option list gmap strings pretty.

Local Open Scope string_scope.
Local Open Scope list_scope.

(* ===================================================================== *)
(** * Python string, path and URL primitives *)
(* ===================================================================== *)

Module Py.

Definition code (c : ascii) : nat := nat_of_ascii c.

(** [c.isspace()]: TAB, LF, VT, FF, CR, FS, GS, RS, US and SPACE. *)
Definition isspace (c : ascii) : bool :=
  let n := code c in
  (Nat.leb 9 n && Nat.leb n 13) || (Nat.leb 28 n && Nat.leb n 32).

(** [c.isdigit()] / [\d]. *)
Definition isdigit (c : ascii) : bool :=
  let n := code c in Nat.leb 48 n && Nat.leb n 57.

Definition lower_char (c : ascii) : ascii :=
  let n := code c in
  if Nat.leb 65 n && Nat.leb n 90 then ascii_of_nat (n + 32) else c.

(** [s.lower()] *)
Fixpoint lower (s : string) : string :=
  match s with
  | EmptyString => EmptyString
  | String c s' => String (lower_char c) (lower s')
  end.

(** [s.startswith(p)] *)
Fixpoint startswith (s p : string) : bool :=
  match p, s with
  | EmptyString, _ => true
  | String _ _, EmptyString => false
  | String a p', String b s' => if ascii_dec a b then startswith s' p' else false
  end.

(** [sub in s] *)
Fixpoint contains (sub s : string) : bool :=
  startswith s sub ||
  match s with
  | EmptyString => false
  | String _ s' => contains sub s'
  end.

(** [any(k in s for k in ks)] *)
Definition any_in (ks : list string) (s : string) : bool :=
  existsb (fun k => contains k s) ks.

(** [s in ks] for a list of strings. *)
Definition mem (s : string) (ks : list string) : bool :=
  existsb (String.eqb s) ks.

(** [not s]: the empty string is the only false one. *)
Definition is_empty (s : string) : bool :=
  match s with EmptyString => true | _ => false end.

Fixpoint lstrip (s : string) : string :=
  match s with
  | String c s' => if isspace c then lstrip s' else s
  | EmptyString => EmptyString
  end.

Fixpoint rstrip (s : string) : string :=
  match s with
  | EmptyString => EmptyString
  | String c s' =>
      match rstrip s' with
      | EmptyString => if isspace c then EmptyString else String c EmptyString
      | r => String c r
      end
  end.

(** [s.strip()] *)
Definition strip (s : string) : string := rstrip (lstrip s).

(** [s[:n]] *)
Fixpoint take (n : nat) (s : string) : string :=
  match n, s with
  | S n', String c s' => String c (take n' s')
  | _, _ => EmptyString
  end.

(** [s[n:]] *)
Fixpoint drop (n : nat) (s : string) : string :=
  match n, s with
  | S n', String _ s' => drop n' s'
  | _, _ => s
  end.

(** [s.endswith(p)] *)
Definition endswith (s p : string) : bool :=
  String.eqb (drop (String.length s - String.length p) s) p
  && Nat.leb (String.length p) (String.length s).

(** [s.find(c)] for a one-character needle: the first index, if any. *)
Fixpoint find_char (c : ascii) (s : string) : option nat :=
  match s with
  | EmptyString => None
  | String a s' =>
      if ascii_dec a c then Some 0 else S <$> find_char c s'
  end.

(** [s.rfind(c)] for a one-character needle: the last index, if any. *)
Fixpoint rfind_char (c : ascii) (s : string) : option nat :=
  match s with
  | EmptyString => None
  | String a s' =>
      match rfind_char c s' with
      | Some i => Some (S i)
      | None => if ascii_dec a c then Some 0 else None
      end
  end.

(** [s.find(sub)]: the first index at which [sub] starts, if any. *)
Fixpoint find (sub s : string) : option nat :=
  if startswith s sub then Some 0
  else match s with
       | EmptyString => None
       | String _ s' => S <$> find sub s'
       end.

(** [s.replace(c, by)] for a one-character needle. *)
Fixpoint replace_char (c : ascii) (by_ : string) (s : string) : string :=
  match s with
  | EmptyString => EmptyString
  | String a s' =>
      if ascii_dec a c then by_ +:+ replace_char c by_ s'
      else String a (replace_char c by_ s')
  end.

(** [re.sub('[...]', '', s)] for a character class given as a predicate. *)
Fixpoint remove_chars (bad : ascii -> bool) (s : string) : string :=
  match s with
  | EmptyString => EmptyString
  | String a s' =>
      if bad a then remove_chars bad s' else String a (remove_chars bad s')
  end.

(** [re.sub(r'\s+', by, s)]: every maximal run of white space becomes [by]. *)
Fixpoint sub_space_runs (by_ : string) (in_run : bool) (s : string) : string :=
  match s with
  | EmptyString => EmptyString
  | String a s' =>
      if isspace a
      then (if in_run then EmptyString else by_) +:+ sub_space_runs by_ true s'
      else String a (sub_space_runs by_ false s')
  end.

(** [f"{n}"] for a non-negative integer. *)
Definition str_of_nat (n : nat) : string := pretty n.

(** ** [os.path.splitext] (POSIX flavour) *)

(** [p[i:j]] *)
Definition slice (i j : nat) (s : string) : string := take (j - i) (drop i s).

Definition string_forallb (f : ascii -> bool) (s : string) : bool :=
forallb f (list_ascii_of_string s).

Definition is_dot (c : ascii) : bool := if ascii_dec c "." then true else false.

(** The extension of [os.path.splitext(p)]: the part from the last dot of
    the last path component, unless that component has only leading dots
    before it. *)
Definition splitext_ext (p : string) : string :=
match rfind_char "." p with
| None => ""
| Some dotIndex =>
    let filenameIndex :=
      match rfind_char "/" p with Some sepIndex => S sepIndex | None => 0 end in
    if Nat.leb filenameIndex dotIndex
       && negb (string_forallb is_dot (slice filenameIndex dotIndex p))
    then drop dotIndex p
    else ""
end.

(** ** [urllib.parse.urlparse] *)

Record ParseResult := mkParseResult {
  scheme : string; netloc : string; path : string;
  params : string; query : string; fragment : string }.

Definition isalpha (c : ascii) : bool :=
let n := code c in
(Nat.leb 65 n && Nat.leb n 90) || (Nat.leb 97 n && Nat.leb n 122).

Definition scheme_char (c : ascii) : bool :=
isalpha c || isdigit c || mem (String c "") ["+"; "-"; "."].

Fixpoint lstrip_c0 (s : string) : string :=
match s with
| String c s' => if Nat.leb (code c) 32 then lstrip_c0 s' else s
| EmptyString => EmptyString
end.

Definition is_tab_cr_lf (c : ascii) : bool :=
let n := code c in Nat.eqb n 9 || Nat.eqb n 10 || Nat.eqb n 13.

(** [s.split(c, 1)] as a pair; the second part is empty when [c] is absent. *)
Definition split_once (c : ascii) (s : string) : string * string :=
match find_char c s with
| Some i => (take i s, drop (S i) s)
| None => (s, "")
end.

Definition min_opt (a : nat) (b : option nat) : nat :=
match b with Some n => Nat.min a n | None => a end.

(** [_splitnetloc(url, 2)] *)
Definition splitnetloc (url : string) : string * string :=
let body := drop 2 url in
let delim :=
  fold_left (fun d c => min_opt d (find_char c body))
            ["/"%char; "?"%char; "#"%char] (String.length body) in
(take delim body, drop delim body).

Definition uses_params : list string :=
[""; "ftp"; "hdl"; "prospero"; "http"; "imap"; "https"; "shttp"; "rtsp";
 "rtsps"; "rtspu"; "sip"; "sips"; "mms"; "sftp"; "tel"].

(** [_splitparams(url)]: the parameters follow the first [;] of the last
    path segment. *)
Definition splitparams (url : string) : string * string :=
let from := match rfind_char "/" url with Some i => i | None => 0 end in
match find_char ";" (drop from url) with
| Some k => (take (from + k) url, drop (S (from + k)) url)
| None => (url, "")
end.

(** [urlparse(url)], for an address whose authority has no square
    bracket.  On an authority with one, [urlsplit] checks it as an IPv6
    host and may raise [ValueError]; these checks are not part of the
    model.  The addresses the document loops parse are those [urljoin]
    returned, which has split them with the same checks and raises there
    (see [urljoin] below), and ICRA's endpoint with a number. *)
Definition urlparse (url : string) : ParseResult :=
let url := remove_chars is_tab_cr_lf (lstrip_c0 url) in
let '(sch, url) :=
  match find_char ":" url with
  | Some (S i) =>
      if string_forallb scheme_char (take (S i) url)
         && match url with String c _ => isalpha c | _ => false end
      then (lower (take (S i) url), drop (S (S i)) url)
      else ("", url)
  | _ => ("", url)
  end in
let '(net, url) :=
  if startswith url "//" then splitnetloc url else ("", url) in
let '(url, frag) := split_once "#" url in
let '(url, qry) := split_once "?" url in
let '(url, prm) :=
  if mem sch uses_params && contains ";" url then splitparams url
  else (url, "") in
mkParseResult sch net url prm qry frag.

(** ** [pathlib.PurePosixPath], as far as the scrapers use it *)

(** A path is the list of its components; the last one is its [name]. *)
Abbreviation Path := (list string).

(** [p / name] *)
Definition joinpath (p : Path) (name : string) : Path := p ++ [name].

(** [p.name] *)
Definition name (p : Path) : string := List.last p "".

(** [p.parent] *)
Definition parent (p : Path) : Path := removelast p.

(** [p.suffix]: from the last dot of the name, when that dot is neither
    its first nor its last character. *)
Definition suffix (p : Path) : string :=
let n := name p in
match rfind_char "." n with
| Some (S i) => if Nat.ltb (S i) (String.length n - 1) then drop (S i) n else ""
| _ => ""
end.

(** [p.with_suffix(sfx)] for a suffix that is empty or starts with a dot
    and has no separator; [None] is the [ValueError] of an empty name. *)
Definition with_suffix (p : Path) (sfx : string) : option Path :=
let n := name p in
if is_empty n then None
else Some (joinpath (parent p)
             (take (String.length n - String.length (suffix p)) n +:+ sfx)).

(** ** White space words and separators *)

Definition starts_word (s : string) : bool :=
match s with
| String c _ => negb (isspace c)
| EmptyString => false
end.

(** [s.split()]: the maximal runs of characters that are not white space,
    which is also what [re.findall(r"\S+", s)] gives. *)
Fixpoint split_ws (s : string) : list string :=
match s with
| EmptyString => []
| String c s' =>
    if isspace c then split_ws s'
    else if starts_word s'
         then match split_ws s' with
              | w :: ws => String c w :: ws
              | [] => [String c ""]
              end
         else String c "" :: split_ws s'
end.

(** [s.split(sep)] for a one-character separator: never empty. *)
Fixpoint split_char (sep : ascii) (s : string) : list string :=
match s with
| EmptyString => [""]
| String c s' =>
    if ascii_dec c sep then "" :: split_char sep s'
    else match split_char sep s' with
         | w :: ws => String c w :: ws
         | [] => [String c ""]
         end
end.

Definition newline : ascii := ascii_of_nat 10.

(** [re.sub(r'\n{3,}', '\n\n', s)]: of every run of line feeds the first
    two are kept; [run] counts the line feeds just passed. *)
Fixpoint collapse_newlines (run : nat) (s : string) : string :=
match s with
| EmptyString => EmptyString
| String c s' =>
    if ascii_dec c newline
    then (if Nat.ltb run 2 then String c (collapse_newlines (S run) s')
          else collapse_newlines run s')
    else String c (collapse_newlines 0 s')
end.

(** ** More of [pathlib] *)

(** [PurePosixPath(s)]: the components of [s], without the empty ones and
    the dots; a root, if there is one, is not kept. *)
Definition path_of_string (s : string) : Path :=
List.filter (fun part => negb (is_empty part) && negb (String.eqb part "."))
            (split_char "/" s).

(** [p.stem]: the name up to its last dot, when that dot is neither its
    first nor its last character. *)
Definition stem (p : Path) : string :=
let n := name p in
match rfind_char "." n with
| Some (S i) => if Nat.ltb (S i) (String.length n - 1) then take (S i) n else n
| _ => n
end.

End Py.

(* ===================================================================== *)
(** * BeautifulSoup trees *)
(* ===================================================================== *)

Module Bs4.

(** A parsed page: text nodes, comment-like strings (comments, and the
    strings of [script] and [style], which [get_text] skips) and tags. *)
#[warnings="-register-all"]
Inductive PageElement :=
| NavigableString (s : string)
| Comment (s : string)
| Tag (name : string) (attrs : list (string * string)) (contents : list PageElement).

(** A node of the parsed page is named by its position: the child indices
    on the way from the root.  The position is the node's identity and
    does not change when nodes are moved. *)
Definition ref := list nat.

(** An element handle: a node of the parsed page, or a tag made later by
    [soup.new_tag]. *)
Inductive handle :=
| Node (p : ref)
| NewTag (w : nat).

#[global] Instance handle_eq_dec : EqDecision handle.
Proof. solve_decision. Defined.

(** The soup: the top-level nodes of the parsed page, and for every tag
    made by [new_tag] the nodes that were appended to it, in order.  A
    node that sits in a new tag has left its place in the page. *)
Record Soup := mkSoup {
  top : list PageElement;
  wrappers : list (list ref) }.

(** [BeautifulSoup(html, 'html.parser')] *)
Definition BeautifulSoup (html : list PageElement) : Soup := mkSoup html [].

(** The root object, whose name is [[document]]. *)
Definition root (soup : Soup) : PageElement := Tag "[document]" [] (top soup).

Fixpoint element_at (e : PageElement) (p : ref) : option PageElement :=
match p with
| [] => Some e
| i :: p' =>
    match e with
    | Tag _ _ cs => c ← cs !! i; element_at c p'
    | _ => None
    end
end.

Definition element (soup : Soup) (p : ref) : option PageElement :=
element_at (root soup) p.

(** The nodes that have been moved into some new tag. *)
Definition detached (soup : Soup) : list ref := concat (wrappers soup).

Definition is_detached (det : list ref) (p : ref) : bool := bool_decide (p ∈ det).

(** [getattr(x, 'name', None)] *)
Definition tag_name (soup : Soup) (h : handle) : option string :=
match h with
| Node p =>
    match element soup p with
    | Some (Tag n _ _) => Some n
    | _ => None
    end
| NewTag _ => Some "div"
end.

(** [x.attrs.get(key)] *)
Definition get_attr (soup : Soup) (h : handle) (key : string) : option string :=
match h with
| Node p =>
    match element soup p with
    | Some (Tag _ attrs _) => snd <$> List.find (fun kv => String.eqb (fst kv) key) attrs
    | _ => None
    end
| NewTag _ => None
end.

(** The children a page node has now: those that have not been moved. *)
Definition children_at (det : list ref) (p : ref) (e : PageElement) : list ref :=
match e with
| Tag _ _ cs =>
    List.filter (fun q => negb (is_detached det q))
                (List.map (fun i => p ++ [i]) (seq 0 (length cs)))
| _ => []
end.

(** [x.contents] *)
Definition contents (soup : Soup) (h : handle) : list handle :=
match h with
| Node p =>
    match element soup p with
    | Some e => Node <$> children_at (detached soup) p e
    | None => []
    end
| NewTag w => Node <$> default [] (wrappers soup !! w)
end.

(** The new tag, if any, that holds node [p]. *)
Definition holder (soup : Soup) (p : ref) : option nat :=
fst <$> List.find (fun iw => bool_decide (p ∈ snd iw))
                 (imap (fun i w => (i, w)) (wrappers soup)).

(** [x.parent] *)
Definition parent (soup : Soup) (h : handle) : option handle :=
match h with
| Node [] => None
| Node p =>
    match holder soup p with
    | Some w => Some (NewTag w)
    | None => Some (Node (removelast p))
    end
| NewTag _ => None
end.

(** The elements of [l] after [x]. *)
Fixpoint following {A} `{EqDecision A} (x : A) (l : list A) : list A :=
match l with
| [] => []
| y :: l' => if decide (y = x) then l' else following x l'
end.

(** The siblings that come after [x], nearest first. *)
Definition next_siblings (soup : Soup) (h : handle) : list handle :=
match parent soup h with
| Some par => following h (contents soup par)
| None => []
end.

(** [x.next_sibling] *)
Definition next_sibling (soup : Soup) (h : handle) : option handle :=
head (next_siblings soup h).

(** The nodes below page node [p], in document order, as the tree is now. *)
Fixpoint descendants_at (det : list ref) (p : ref) (e : PageElement) {struct e} : list ref :=
match e with
| Tag _ _ cs =>
    (fix go (i : nat) (cs : list PageElement) {struct cs} : list ref :=
       match cs with
       | [] => []
       | c :: cs' =>
           (if is_detached det (p ++ [i]) then []
            else (p ++ [i]) :: descendants_at det (p ++ [i]) c)
           ++ go (S i) cs'
       end) 0 cs
| _ => []
end.

(** [x.descendants] *)
Definition descendants (soup : Soup) (h : handle) : list handle :=
match h with
| Node p =>
    match element soup p with
    | Some e => Node <$> descendants_at (detached soup) p e
    | None => []
    end
| NewTag w =>
    Node <$> flat_map
      (fun p => p :: match element soup p with
                     | Some e => descendants_at (detached soup) p e
                     | None => []
                     end)
      (default [] (wrappers soup !! w))
end.

Definition is_some {A} (o : option A) : bool :=
match o with Some _ => true | None => false end.

(** [x.find_all(names)] and, with [href], [x.find_all(names, href=True)]:
    the descendant tags with one of the names (and an [href] attribute),
    in document order. *)
Definition find_all (soup : Soup) (h : handle) (names : list string) (href : bool)
  : list handle :=
List.filter
  (fun d => match tag_name soup d with
            | Some n => Py.mem n names && (negb href || is_some (get_attr soup d "href"))
            | None => false
            end)
  (descendants soup h).

(** [x.find(names)]: the first match of [find_all]. *)
Definition find (soup : Soup) (h : handle) (names : list string) : option handle :=
head (find_all soup h names false).

(** The text of a string node; tags and comments have none of their own. *)
Definition own_string (soup : Soup) (h : handle) : option string :=
match h with
| Node p =>
    match element soup p with
    | Some (NavigableString s) => Some s
    | _ => None
    end
| NewTag _ => None
end.

(** [x.get_text(strip=True)]: the stripped, non-empty strings below [x],
    joined. *)
Definition get_text_strip (soup : Soup) (h : handle) : string :=
fold_right String.append ""
  (List.filter (fun s => negb (Py.is_empty s))
     (omap (fun d => Py.strip <$> own_string soup d) (descendants soup h))).

(** [soup.new_tag('div')] *)
Definition new_tag (soup : Soup) : Soup * handle :=
(mkSoup (top soup) (wrappers soup ++ [[]]), NewTag (length (wrappers soup))).

(** [bool(x)]: a tag is always true, a string is true unless empty. *)
Definition truthy (soup : Soup) (h : handle) : bool :=
match h with
| Node p =>
    match element soup p with
    | Some (NavigableString s) | Some (Comment s) => negb (Py.is_empty s)
    | _ => true
    end
| NewTag _ => true
end.

(** [wrapper.append(node)] for a new tag and a page node (the only use the
    scrapers make of it): the node leaves the place it has and becomes the
    last child of the new tag. *)
Definition append (soup : Soup) (wrapper node : handle) : Soup :=
match wrapper, node with
| NewTag w, Node p =>
    let removed :=
      List.map (List.filter (fun q => negb (bool_decide (q = p)))) (wrappers soup) in
    mkSoup (top soup) (alter (fun l => l ++ [p]) w removed)
| _, _ => soup
end.

(** ** Searching by class *)

(** The value of the [class] attribute as the tree holds it: the list of
    its white-space separated words. *)
Definition class_list (soup : Soup) (h : handle) : option (list string) :=
Py.split_ws <$> get_attr soup h "class".

(** How a search decides on [class_=f]: [f] is asked of every word of the
    class list and then of the words joined by single spaces; without a
    class attribute it is asked of [None]. *)
Definition class_matches (f : option string -> bool) (cls : option (list string)) : bool :=
match cls with
| None => f None
| Some words => existsb (fun w => f (Some w)) words || f (Some (String.concat " " words))
end.

(** [class_="name"] as such an [f]. *)
Definition is_class (name : string) (c : option string) : bool :=
match c with
| Some c => String.eqb c name
| None => false
end.

(** [x.find_all(names, class_=f)], and [x.find_all(class_=f)] when [names]
    is [None]: the descendant tags that pass both tests, in document order. *)
Definition find_all_class (soup : Soup) (h : handle) (names : option (list string))
    (class_ : option string -> bool) : list handle :=
List.filter
  (fun d => match tag_name soup d with
            | Some n =>
                match names with Some ns => Py.mem n ns | None => true end
                && class_matches class_ (class_list soup d)
            | None => false
            end)
  (descendants soup h).

(** [x.get_text(" ", strip=True)]: the stripped, non-empty strings below
    [x], joined by single spaces. *)
Definition get_text_sep (soup : Soup) (h : handle) : string :=
String.concat " "
  (List.filter (fun s => negb (Py.is_empty s))
     (omap (fun d => Py.strip <$> own_string soup d) (descendants soup h))).

End Bs4.

(* ===================================================================== *)
(** * Results and exceptions *)
(* ===================================================================== *)

(** What a Python call does: it returns a value or raises. *)
Inductive result (A : Type) :=
| Ok (a : A)
| Raise (exc : string).
Arguments Ok {A} a.
Arguments Raise {A} exc.

#[global] Instance result_ret : MRet result := fun A a => Ok a.

#[global] Instance result_bind : MBind result := fun A B k r =>
match r with
| Ok a => k a
| Raise e => Raise e
end.

(** Items of a loop that may each raise or be skipped ([continue]). *)
Fixpoint collect {A B} (f : A -> result (option B)) (l : list A) : result (list B) :=
match l with
| [] => Ok []
| x :: l' =>
    o ← f x;
    rest ← collect f l';
    Ok (match o with Some b => b :: rest | None => rest end)
end.

Fixpoint take_while {A} (f : A -> bool) (l : list A) : list A :=
match l with
| [] => []
| x :: l' => if f x then x :: take_while f l' else []
end.

(* ===================================================================== *)
(** * Effects: files, network and output *)
(* ===================================================================== *)

(** What a run does to the outside, in order. *)
Inductive event :=
| Print (msg : string)
| ScrapeIndiaRatings (url : string) (folder : Py.Path)
| ScrapeCrisil (url : string) (folder : Py.Path)
| Head (url : string)
| Get (url : string)
| WriteFile (p : Py.Path) (data : string)
| Unlink (p : Py.Path).

(** The state a run threads: the files on disk and the events so far. *)
Record State := mkState {
  files : gmap Py.Path string;
  trace : list event }.

(** A computation over the state that returns or raises.  The state a
    raising computation has reached is kept: an exception does not undo
    what was written. *)
Definition M (A : Type) : Type := State -> result A * State.

Definition ret {A} (a : A) : M A := fun s => (Ok a, s).

Definition raise {A} (exc : string) : M A := fun s => (Raise exc, s).

Definition bindM {A B} (m : M A) (k : A -> M B) : M B :=
fun s => match m s with
         | (Ok a, s') => k a s'
         | (Raise e, s') => (Raise e, s')
         end.

Notation "'let*' x ':=' m 'in' k" := (bindM m (fun x => k))
  (at level 10, x name, m at level 100, k at level 200).

(** [try: m except Exception as e: handler e] *)
Definition try_except {A} (m : M A) (handler : string -> M A) : M A :=
fun s => match m s with
         | (Ok a, s') => (Ok a, s')
         | (Raise e, s') => handler e s'
         end.

Definition lift {A} (r : result A) : M A := fun s => (r, s).

Definition emit (e : event) : M unit :=
fun s => (Ok tt, mkState (files s) (trace s ++ [e])).

(** [open(p, 'wb').write(data)] / [p.write_text(data)] *)
Definition write_file (p : Py.Path) (data : string) : M unit :=
fun s => (Ok tt, mkState (<[p := data]> (files s)) (trace s ++ [WriteFile p data])).

(** [p.stat().st_size] *)
Definition st_size (p : Py.Path) : M nat :=
fun s => match files s !! p with
         | Some data => (Ok (String.length data), s)
         | None => (Raise "FileNotFoundError", s)
         end.

(** [open(p, 'r', encoding='utf-8', errors='ignore').read()] *)
Definition read_text (p : Py.Path) : M string :=
fun s => match files s !! p with
         | Some data => (Ok data, s)
         | None => (Raise "FileNotFoundError", s)
         end.

(** [p.unlink()] *)
Definition unlink (p : Py.Path) : M unit :=
fun s => match files s !! p with
         | Some _ => (Ok tt, mkState (delete p (files s)) (trace s ++ [Unlink p]))
         | None => (Raise "FileNotFoundError", s)
         end.

(** [p.exists()] *)
Definition exists_ (p : Py.Path) : M bool :=
fun s => (Ok (bool_decide (is_Some (files s !! p))), s).

(** A [pandas] data frame: the header and the rows of cells, each cell as
    [str] renders it. *)
Record DataFrame := mkDataFrame {
  columns : list string;
  data : list (list string) }.

(** [df.shape] *)
Definition shape (df : DataFrame) : nat * nat := (length (data df), length (columns df)).

(** A response body as [iter_content] delivers it: the data received,
    and the exception that ended the stream early, if one did. *)
Record Response := mkResponse {
  body : string;
  broken : option string }.

(** The world outside the scraper, as seen by [download_file]: what the
    two partner-site scrapers and the two HTTP requests answer. *)
Record World := mkWorld {
  (** [scrape_india_ratings_press_release(url, folder)['markdown_file'].name] *)
  india_ratings : string -> Py.Path -> result string;
  (** [scrape_crisil_rationale(url, folder)['markdown_file'].name] *)
  crisil : string -> Py.Path -> result string;
  (** [requests.head(url).headers.get('Content-Type', '')] *)
  http_head : string -> result string;
  (** [requests.get(url)] followed by [raise_for_status()] *)
  http_get : string -> result Response;
  (** [pd.read_html(str(table))[0]] *)
  read_html : Bs4.handle -> result DataFrame;
  (** the text [df.to_csv(..., index=False)] writes *)
  to_csv : DataFrame -> string }.

(* ===================================================================== *)
(** * scraperv1.py *)
(* ===================================================================== *)

Module ScraperV1.
Import Bs4.

(** A document link: the dict the extractors build.  Keys that only some
    extractors set are optional. *)
Record DocumentLink := mkDoc {
  category : string;
  text : string;
  href : option string;
  url : string;
  quarter : option string;
  force_pdf : option bool }.

(** ** [extract_documents_links] *)

Section Classifier.

(** [urllib.parse.urljoin], taken as given: the joined address, or the
    [ValueError] it raises on an address it cannot parse. *)
Variable urljoin : string -> string -> result string.

(** Step 1: the first [h2]/[h3]/[h4] whose text contains "documents". *)
Definition docs_heading (soup : Soup) : option handle :=
List.find (fun tag => Py.contains "documents" (Py.lower (get_text_strip soup tag)))
          (find_all soup (Node []) ["h2"; "h3"; "h4"] false).

(** Step 2: up to ten ancestors, stopping at [body] or above the root; the
    first one with the strictly greatest number of links wins. *)
Fixpoint best_container (hops : nat) (soup : Soup) (container : handle)
    (best : option handle) (best_link_count : nat) : option handle :=
match hops with
| 0 => best
| S hops' =>
    match parent soup container with
    | None => best
    | Some container =>
        if bool_decide (tag_name soup container = Some "body") then best
        else
          let link_count := length (find_all soup container ["a"] true) in
          if Nat.ltb best_link_count link_count
          then best_container hops' soup container (Some container) link_count
          else best_container hops' soup container best best_link_count
    end
end.

(** The category of a sub-heading; [None] for the concalls heading, which
    is skipped. *)
Definition heading_category (title : string) : option string :=
if Py.contains "concall" title then None
else if Py.contains "announce" title then Some "announcements"
else if Py.contains "annual" title then Some "annual"
else if Py.contains "credit" title then Some "credit_ratings"
else Some "other".

Definition is_subheading (soup : Soup) (h : handle) : bool :=
match tag_name soup h with
| Some n => Py.mem n ["h3"; "h4"]
| None => false
end.

(** The siblings after a heading, up to the next [h3]/[h4]. *)
Definition section_nodes (soup : Soup) (heading_tag : handle) : list handle :=
take_while (fun sibling => truthy soup sibling && negb (is_subheading soup sibling))
           (next_siblings soup heading_tag).

(** Step 3, one heading: its section is moved into a fresh [div]. *)
Definition collect_section (st : Soup * list (string * handle)) (heading_tag : handle)
  : Soup * list (string * handle) :=
let '(soup, sections) := st in
let title := Py.lower (get_text_strip soup heading_tag) in
match heading_category title with
| None => st
| Some category =>
    match section_nodes soup heading_tag with
    | [] => st
    | nodes =>
        let '(soup, wrapper) := new_tag soup in
        let soup := fold_left (fun s node => append s wrapper node) nodes soup in
        (soup, sections ++ [(category, wrapper)])
    end
end.

Definition collect_sections (soup : Soup) (container : handle)
  : Soup * list (string * handle) :=
fold_left collect_section (find_all soup container ["h3"; "h4"] false) (soup, []).

(** Link texts that are navigation, not documents. *)
Definition navigation : list string := ["all"; "show more"; "show all"; "add missing"].

(** Step 4, one link of one section. *)
Definition link_record (soup : Soup) (base_url category : string) (a : handle)
  : result (option DocumentLink) :=
let text := get_text_strip soup a in
match get_attr soup a "href" with
| None => Raise "KeyError: 'href'"
| Some href =>
    if Py.is_empty text || Py.mem (Py.lower text) navigation then Ok None
    else
      full_url ← urljoin base_url href;
      Ok (Some (mkDoc category text (Some href) full_url None None))
end.

(** The links of the sections, each with the category of its section. *)
Definition section_links (soup : Soup) (sections : list (string * handle))
  : list (string * handle) :=
flat_map (fun cs => List.map (fun a => (fst cs, a)) (find_all soup (snd cs) ["a"] true))
         sections.

(** The function: what it prints, and what it returns or raises. *)
Definition extract_documents_links (soup : Soup) (base_url : string)
  : list string * result (list DocumentLink) :=
match docs_heading soup with
| None => (["  [Docs] Documents heading not found"], Ok [])
| Some heading =>
    match best_container 10 soup heading None 0 with
    | None => (["  [Docs] Container for Documents not found"], Ok [])
    | Some container =>
        let '(soup, sections) := collect_sections soup container in
        match sections with
        | [] => (["  [Docs] No document sections found under Documents"], Ok [])
        | _ =>
            let found :=
              "  [Docs] Found " +:+ Py.str_of_nat (length sections)
              +:+ " document sections (excluding concalls)" in
            match collect (fun ca => link_record soup base_url (fst ca) (snd ca))
                          (section_links soup sections) with
            | Ok docs =>
                ([found;
                  "  [Docs] Total links collected (excluding concalls): "
                  +:+ Py.str_of_nat (length docs)],
                 Ok docs)
            | Raise e => ([found], Raise e)
            end
        end
    end
end.

End Classifier.

(** ** [clean_filename] *)

Definition dquote : ascii := ascii_of_nat 34.

(** The characters the first substitution removes: the angle brackets,
    colon, double quote, slash, backslash, bar, question mark and star. *)
Definition forbidden_char (c : ascii) : bool :=
existsb (fun b => if ascii_dec b c then true else false)
  ["<"%char; ">"%char; ":"%char; dquote; "/"%char; "\"%char; "|"%char; "?"%char; "*"%char].

Definition clean_filename (text : string) : string :=
let text := Py.remove_chars forbidden_char text in
let text := Py.sub_space_runs "_" false (Py.strip text) in
let text := Py.replace_char "\" "_" (Py.replace_char "/" "_" text) in
Py.take 150 text.

(** ** [download_file] *)

(** The India Ratings and CRISIL branches: [Some true] when the partner
    scraper succeeded and the function returns, [None] when the branch
    does not apply or its scraper raised and the normal download follows. *)
Definition india_ratings_branch (w : World) (url : string) (save_path : Py.Path)
  : M (option bool) :=
if Py.contains "indiaratings.co.in" url && Py.contains "pressrelease" (Py.lower url)
then
  let* _ := emit (Print ("    [IndiaRatings] Detected press release URL: " +:+ url)) in
  try_except
    (let output_folder := Py.parent save_path in
     let* _ := emit (Print "    [IndiaRatings] Output folder") in
     let* _ := emit (ScrapeIndiaRatings url output_folder) in
     let* name := lift (india_ratings w url output_folder) in
     let* _ := emit (Print ("    India Ratings press release scraped with formatting: " +:+ name)) in
     ret (Some true))
    (fun e =>
     let* _ := emit (Print ("    ! India Ratings scraper failed: " +:+ e)) in
     ret None)
else ret None.

Definition crisil_branch (w : World) (url : string) (save_path : Py.Path)
  : M (option bool) :=
if Py.contains "crisil.com" url && Py.endswith (Py.lower url) ".html"
then
  try_except
    (let output_folder := Py.parent save_path in
     let* _ := emit (ScrapeCrisil url output_folder) in
     let* name := lift (crisil w url output_folder) in
     let* _ := emit (Print ("    CRISIL rationale scraped with formatting: " +:+ name)) in
     ret (Some true))
    (fun e =>
     let* _ := emit (Print ("    ! CRISIL scraper failed (" +:+ e
                            +:+ "); falling back to normal download...")) in
     ret None)
else ret None.

(** The HEAD probe.  [content_type] is bound on both paths, [is_pdf] only
    when the request succeeded: [None] is the unbound local. *)
Definition head_probe (w : World) (url : string) : M (string * option bool) :=
let* _ := emit (Head url) in
try_except
  (let* ct := lift (http_head w url) in
   let content_type := Py.lower ct in
   ret (content_type, Some (Py.contains "application/pdf" content_type)))
  (fun _ => ret ("", None)).

(** Reading a local variable. *)
Definition read_local {A} (name : string) (v : option A) : M A :=
match v with
| Some a => ret a
| None => raise ("UnboundLocalError: " +:+ name)
end.

Definition with_suffix (p : Py.Path) (sfx : string) : M Py.Path :=
match Py.with_suffix p sfx with
| Some q => ret q
| None => raise "ValueError: empty name"
end.

(** "Adjust extension based on real content type". *)
Definition adjust_extension (save_path : Py.Path) (content_type : string)
    (is_pdf : option bool) : M Py.Path :=
if negb (Py.mem (Py.lower (Py.suffix save_path)) [".pdf"; ".html"; ".htm"]) then
  let* pdf := read_local "is_pdf" is_pdf in
  if pdf then with_suffix save_path ".pdf"
  else if Py.contains "text/html" content_type
          || Py.mem (Py.lower (Py.suffix save_path)) [".aspx"; ".php"; ""]
       then with_suffix save_path ".html"
       else ret save_path
else if Py.mem (Py.lower (Py.suffix save_path)) [".aspx"; ".php"] then
  let* pdf := read_local "is_pdf" is_pdf in
  with_suffix save_path (if pdf then ".pdf" else ".html")
else ret save_path.

(** The GET request and the write of its body to [save_path]. *)
Definition fetch (w : World) (url : string) (save_path : Py.Path) : M unit :=
let* _ := emit (Get url) in
let* response := lift (http_get w url) in
let* _ := write_file save_path (body response) in
match broken response with
| Some e => raise e
| None => ret tt
end.

Definition error_words : list string := ["error"; "not found"; "404"; "access denied"].

(** The size below which a download is read back and checked. *)
Definition min_size : nat := 500.

(** The check of a small download: [Some false] when it was dropped. *)
Definition drop_error_page (save_path : Py.Path) : M (option bool) :=
let* size := st_size save_path in
if Nat.ltb size min_size then
  try_except
    (let* data := read_text save_path in
     let content := Py.lower data in
     if Py.any_in error_words content then
       let* _ := unlink save_path in
       ret (Some false)
     else ret None)
    (fun _ => ret None)
else ret None.

(** The normal download: probe, extension, GET, check. *)
Definition normal_download (w : World) (url : string) (save_path : Py.Path) : M bool :=
let* probe := head_probe w url in
let* save_path := adjust_extension save_path (fst probe) (snd probe) in
let* _ := fetch w url save_path in
let* r := drop_error_page save_path in
match r with
| Some b => ret b
| None => ret true
end.

Definition download_file_body (w : World) (url : string) (save_path : Py.Path) : M bool :=
let* r := india_ratings_branch w url save_path in
match r with
| Some b => ret b
| None =>
    let* r := crisil_branch w url save_path in
    match r with
    | Some b => ret b
    | None => normal_download w url save_path
    end
end.

(** [download_file(url, save_path)]: every exception is caught, printed
    and turned into [False]. *)
Definition download_file (w : World) (url : string) (save_path : Py.Path)
  : State -> bool * State :=
fun s =>
  match download_file_body w url save_path s with
  | (Ok b, s') => (b, s')
  | (Raise e, s') =>
      (false, mkState (files s') (trace s' ++ [Print ("    Error: " +:+ e)]))
  end.

(** ** The document loop of [scrape_screener_company] *)

(** [folders]: the destination folder of each key. *)
Definition folders (company_folder : Py.Path) : gmap string Py.Path :=
list_to_map
  [("tables", Py.joinpath company_folder "financial_tables");
   ("annual", Py.joinpath company_folder "annual_reports");
   ("concalls", Py.joinpath company_folder "concalls");
   ("announcements", Py.joinpath company_folder "announcements");
   ("credit_ratings", Py.joinpath company_folder "credit_ratings");
   ("quarterly_results", Py.joinpath company_folder "quarterly_result_pdfs");
   ("other", Py.joinpath company_folder "other_documents")].

(** "Map category to folder" *)
Definition folder_key (company_folder : Py.Path) (category : string) : string :=
if bool_decide (is_Some (folders company_folder !! category)) then category else "other".

(** [folders.get(folder_key, folders['other'])] *)
Definition destination (company_folder : Py.Path) (category : string) : Py.Path :=
let other := default [] (folders company_folder !! "other") in
default other (folders company_folder !! folder_key company_folder category).

Fixpoint digits_prefix (s : string) : string :=
match s with
| String c s' => if Py.isdigit c then String c (digits_prefix s') else ""
| EmptyString => ""
end.

(** A match of [[?&]Id=(\d+)] at the start of [s]: group 1. *)
Definition icra_id_here (s : string) : option string :=
match s with
| String c rest =>
    if (Py.mem (String c "") ["?"; "&"]) && Py.startswith rest "Id=" then
      let id := digits_prefix (Py.drop 3 rest) in
      if Py.is_empty id then None else Some id
    else None
| EmptyString => None
end.

(** [re.search(r"[?&]Id=(\d+)", s)]: group 1 of the leftmost match. *)
Fixpoint icra_id (s : string) : option string :=
match icra_id_here s with
| Some id => Some id
| None => match s with
          | String _ s' => icra_id s'
          | EmptyString => None
          end
end.

(** The rewrite of an ICRA rationale page to its PDF endpoint: the URL to
    fetch and the [force_pdf] flag after it. *)
Definition icra_rewrite (category full_url : string) (force_pdf : bool) : string * bool :=
if String.eqb category "credit_ratings"
   && Py.contains "icra.in/Rationale/ShowRationaleReport" full_url
then match icra_id ("?" +:+ Py.query (Py.urlparse full_url)) with
     | Some id => ("https://www.icra.in/Rating/GetRationalReportFilePdf?Id=" +:+ id, true)
     | None => (full_url, force_pdf)
     end
else (full_url, force_pdf).

(** [os.path.splitext(urlparse(full_url).path)[1].lower()] *)
Definition parsed_ext (full_url : string) : string :=
Py.lower (Py.splitext_ext (Py.path (Py.urlparse full_url))).

(** "Decide extension more intelligently" *)
Definition decide_ext (force_pdf : bool) (full_url : string) : string :=
if force_pdf then ".pdf"
else if Py.mem (parsed_ext full_url) [".pdf"] then ".pdf"
else if Py.mem (parsed_ext full_url) [".htm"; ".html"] then ".html"
else if Py.mem (parsed_ext full_url) [".aspx"; ".php"; ""] then
  (if Py.contains ".pdf" (Py.lower full_url) then ".pdf" else ".html")
else parsed_ext full_url.

(** The extension the loop chooses for an item: the flag is read with
    [item.get('force_pdf', False)], then the ICRA rewrite applies. *)
Definition chosen_ext (item : DocumentLink) : string :=
let '(full_url, force) :=
  icra_rewrite (category item) (url item) (default false (force_pdf item)) in
decide_ext force full_url.

(** A match of [(20\d{2}|19\d{2}|FY\d{2}|Q\d)] at the start of [s]. *)
Definition date_here (s : string) : option string :=
match s with
| String a (String b (String c (String d _))) =>
    if (Py.mem (String a (String b "")) ["20"; "19"] && Py.isdigit c && Py.isdigit d)
       || (String.eqb (String a (String b "")) "FY" && Py.isdigit c && Py.isdigit d)
    then Some (Py.take 4 s)
    else if (if ascii_dec a "Q" then true else false) && Py.isdigit b
         then Some (Py.take 2 s) else None
| String a (String b _) =>
    if (if ascii_dec a "Q" then true else false) && Py.isdigit b
    then Some (Py.take 2 s) else None
| _ => None
end.

(** [re.search(..., text)]: the leftmost match. *)
Fixpoint date_match (s : string) : option string :=
match date_here s with
| Some m => Some m
| None => match s with
          | String _ s' => date_match s'
          | EmptyString => None
          end
end.

(** "Build filename" *)
Definition build_filename (item : DocumentLink) (folder_key : string)
    (download_stats : gmap string nat) (ext : string) : string :=
let text := text item in
let filename :=
  clean_filename
    (if Py.is_empty text
     then category item +:+ "_" +:+ Py.str_of_nat (default 0 (download_stats !! folder_key))
     else text) in
let filename :=
  match date_match text with
  | Some m => if Py.contains m filename then filename else filename +:+ "_" +:+ m
  | None => filename
  end in
filename +:+ ext.

(** Where an item is saved and what is fetched for it. *)
Definition save_path (company_folder : Py.Path) (download_stats : gmap string nat)
    (item : DocumentLink) : Py.Path :=
Py.joinpath (destination company_folder (category item))
  (build_filename item (folder_key company_folder (category item)) download_stats
                  (chosen_ext item)).

Definition fetch_url (item : DocumentLink) : string :=
fst (icra_rewrite (category item) (url item) (default false (force_pdf item))).

(** One turn of the loop over [all_doc_links]. *)
Definition download_item (w : World) (company_folder : Py.Path)
    (st : gmap string nat * State) (item : DocumentLink) : gmap string nat * State :=
let '(download_stats, s) := st in
let target := save_path company_folder download_stats item in
if bool_decide (is_Some (files s !! target)) then st
else
  let s := mkState (files s)
             (trace s ++ [Print ("  Downloading [" +:+ category item +:+ "]: "
                                 +:+ Py.take 80 (Py.name target) +:+ " ...");
                          Print ("    [Debug] URL: " +:+ fetch_url item)]) in
  let '(ok, s) := download_file w (fetch_url item) target s in
  if ok
  then (<[category item := default 0 (download_stats !! category item) + 1]> download_stats, s)
  else (download_stats, s).

Definition download_stats0 : gmap string nat :=
list_to_map [("annual", 0); ("concalls", 0); ("announcements", 0);
             ("credit_ratings", 0); ("quarterly_results", 0); ("other", 0)].

Definition download_documents (w : World) (company_folder : Py.Path)
    (all_doc_links : list DocumentLink) (s : State) : gmap string nat * State :=
fold_left (download_item w company_folder) all_doc_links (download_stats0, s).

(** ** The table loop of [scrape_screener_company] *)

(** The position of [h] in the document and the elements before it. *)
Definition previous_elements (soup : Soup) (h : handle) : list handle :=
take_while (fun x => negb (bool_decide (x = h))) (Node [] :: descendants soup (Node [])).

(** [x.find_previous(names)]: the nearest earlier tag with one of the names. *)
Definition find_previous (soup : Soup) (h : handle) (names : list string) : option handle :=
List.find (fun x => match tag_name soup x with
                    | Some n => Py.mem n names
                    | None => false
                    end)
          (rev (previous_elements soup h)).

(** [extract_section_heading(element)] *)
Fixpoint extract_section_heading_loop (hops : nat) (soup : Soup) (element : handle)
  : option string :=
match hops with
| 0 => None
| S hops' =>
    let found :=
      match find_previous soup element ["h2"; "h3"; "h4"; "h5"] with
      | Some prev =>
          let text := get_text_strip soup prev in
          if negb (Py.is_empty text) && Nat.ltb (String.length text) 50
          then Some text else None
      | None => None
      end in
    match found with
    | Some text => Some text
    | None =>
        match parent soup element with
        | Some element => extract_section_heading_loop hops' soup element
        | None => None
        end
    end
end.

Definition extract_section_heading (soup : Soup) (element : handle) : option string :=
extract_section_heading_loop 10 soup element.

(** [' '.join(df.iloc[:, 0].astype(str).tolist()[:5]).lower()] *)
Definition first_col_text (df : DataFrame) : string :=
Py.lower (String.concat " " (List.map (fun row => List.hd "" row) (firstn 5 (data df)))).

(** "Determine table name": the name the first column suggests. *)
Definition keyword_name (df : DataFrame) (idx : nat) : string :=
let t := first_col_text df in
if Py.any_in ["sales"; "revenue"; "operating profit"; "expenses"] t then "Profit_Loss"
else if Py.any_in ["equity"; "reserves"; "assets"; "liabilities"; "borrowings"] t
then "Balance_Sheet"
else if Py.any_in ["cash from operating"; "cash from investing"; "cash from financing"] t
then "Cash_Flows"
else if Py.any_in ["debtor days"; "roce"; "roe"; "working capital"] t then "Ratios"
else if Py.contains "sep" t || Py.contains "dec" t || Py.contains "jun" t
then "Quarterly_Results"
else if Py.contains "promoter" t || Py.contains "fii" t || Py.contains "dii" t
then "Shareholding_Pattern"
else "Table_" +:+ Py.str_of_nat idx.

(** "Determine table name" *)
Definition base_name (section : option string) (df : DataFrame) (idx : nat) : string :=
match section with
| Some section =>
    if Py.is_empty section then keyword_name df idx else clean_filename section
| None => keyword_name df idx
end.

(** [name in d] and [d[name] = v] for a dict, kept in insertion order. *)
Definition dict_keys {V} (d : list (string * V)) : list string := List.map fst d.

Definition dict_set {V} (d : list (string * V)) (k : string) (v : V) : list (string * V) :=
if Py.mem k (dict_keys d)
then List.map (fun kv => if String.eqb (fst kv) k then (k, v) else kv) d
else d ++ [(k, v)].

(** "Handle duplicates": the [while name in tables_saved] loop, entered
    with [name = base_name] and [counter = 1].  One name more than the dict
    has keys is tried at most; [unique_name_fresh] shows the loop has ended
    by then. *)
Fixpoint unique_name (tries : nat) (tables_saved : list string)
    (base_name name : string) (counter : nat) : string :=
if Py.mem name tables_saved then
  match tries with
  | 0 => name
  | S tries' =>
      unique_name tries' tables_saved base_name
                  (base_name +:+ "_" +:+ Py.str_of_nat counter) (S counter)
  end
else name.

Definition table_name (tables_saved : list string) (base_name : string) : string :=
unique_name (length tables_saved) tables_saved base_name base_name 1.

Definition tables_folder (company_folder : Py.Path) : Py.Path :=
default [] (folders company_folder !! "tables").

(** One turn of the loop over [all_tables]. *)
Definition table_step (w : World) (soup : Soup) (company_folder : Py.Path)
    (st : list (string * (nat * nat)) * State) (it : nat * handle)
  : list (string * (nat * nat)) * State :=
let '(tables_saved, s) := st in
let '(idx, table) := it in
let section := extract_section_heading soup table in
match read_html w table with
| Raise e =>
    (tables_saved,
     mkState (files s) (trace s ++ [Print ("  Table " +:+ Py.str_of_nat idx +:+ ": " +:+ e)]))
| Ok df =>
    if Nat.ltb (fst (shape df)) 2 || Nat.ltb (snd (shape df)) 2 then st
    else
      let name := table_name (dict_keys tables_saved) (base_name section df idx) in
      let filepath := Py.joinpath (tables_folder company_folder) (name +:+ ".csv") in
      (dict_set tables_saved name (shape df),
       mkState (<[filepath := to_csv w df]> (files s))
               (trace s ++ [WriteFile filepath (to_csv w df); Print ("  Saved " +:+ name)]))
end.

(** The loop: the saved-tables index and the state after it. *)
Definition extract_tables (w : World) (soup : Soup) (company_folder : Py.Path)
    (all_tables : list handle) (s : State) : list (string * (nat * nat)) * State :=
fold_left (table_step w soup company_folder) (imap pair all_tables) ([], s).

(** ** [extract_concall_notes] *)

(** An open dialog: the text of its [article], and the text of its body
    (the dialog itself when it has no [div.modal-body]); reading either may
    raise. *)
Record Dialog := mkDialog {
  article : result string;
  modal_body : result string }.

(** What the browser answers in one turn of the loop. *)
Record Turn := mkTurn {
  (** how many Notes buttons [find_elements] finds now *)
  buttons : result nat;
  (** [btn.get_attribute("data-title")] *)
  data_title : result (option string);
  (** [row.text.splitlines()[0].strip()] of the nearest [li] or [div] *)
  row_text : result string;
  (** the [scrollIntoView] script *)
  scroll : result unit;
  (** [btn.click()] and the JavaScript click after it *)
  click : result unit;
  js_click : result unit;
  (** [wait.until(visibility_of_element_located(...))]: the dialog, or the
      [TimeoutException] *)
  dialog : result Dialog }.

Definition concall_title (t : Turn) (idx : nat) : string :=
let fallback := "Concall_" +:+ Py.str_of_nat (idx + 1) in
match data_title t with
| Ok (Some title) =>
    if negb (Py.is_empty title) then title
    else match row_text t with
         | Ok row => if Py.is_empty row then fallback else row
         | Raise _ => fallback
         end
| _ => match row_text t with
       | Ok row => if Py.is_empty row then fallback else row
       | Raise _ => fallback
       end
end.

(** The text of the dialog: the article's, or else the body's. *)
Definition dialog_text (d : Dialog) : result string :=
match article d with
| Ok t => Ok (Py.strip t)
| Raise _ =>
    match modal_body d with
    | Ok t => Ok (Py.strip t)
    | Raise e => Raise e
    end
end.

Definition notes_path (notes_folder : Py.Path) (title : string) : Py.Path :=
Py.joinpath notes_folder (clean_filename (title +:+ "_concall_notes") +:+ ".md").

(** One turn: [false] is the [break], [true] goes on to the next index. *)
Definition notes_turn (notes_folder : Py.Path) (idx : nat) (t : Turn) : M bool :=
try_except
  (let* n := lift (buttons t) in
   if Nat.leb n idx then ret false
   else
     let title := concall_title t idx in
     let* _ := emit (Print ("    [Concalls] Clicking Notes button #"
                            +:+ Py.str_of_nat (idx + 1) +:+ ": " +:+ title)) in
     let* _ := lift (scroll t) in
     let* _ := try_except (lift (click t))
                 (fun e =>
                  let* _ := emit (Print ("    [Concalls] Direct click failed: " +:+ e
                                         +:+ "; trying JS click")) in
                  lift (js_click t)) in
     match dialog t with
     | Raise e =>
         let* _ := emit (Print ("    [Concalls] Modal did not appear after clicking Notes #"
                                +:+ Py.str_of_nat (idx + 1) +:+ ": " +:+ e)) in
         ret true
     | Ok dlg =>
         let* text := lift (dialog_text dlg) in
         let* _ :=
           if Py.is_empty text
           then emit (Print ("    [Concalls] Modal for #" +:+ Py.str_of_nat (idx + 1)
                             +:+ " had no text, skipping save"))
           else
             let* _ := write_file (notes_path notes_folder title) text in
             emit (Print ("    Saved notes: " +:+ Py.name (notes_path notes_folder title))) in
         ret true
     end)
  (fun e =>
   let* _ := emit (Print ("    Error extracting notes #" +:+ Py.str_of_nat (idx + 1)
                          +:+ ": " +:+ e)) in
   ret true).

(** [for idx in range(len(notes_buttons))], from [idx] with [todo] turns
    left. *)
Fixpoint notes_loop (notes_folder : Py.Path) (browser : nat -> Turn) (idx todo : nat)
  : M unit :=
match todo with
| 0 => ret tt
| S todo' =>
    let* go_on := notes_turn notes_folder idx (browser idx) in
    if go_on then notes_loop notes_folder browser (S idx) todo' else ret tt
end.

(** [extract_concall_notes(driver, company_folder)]: [located] is the
    first search for the Notes buttons, [browser] what each turn sees. *)
Definition extract_concall_notes (located : result nat) (browser : nat -> Turn)
    (company_folder : Py.Path) : M unit :=
let notes_folder := Py.joinpath company_folder "concall_notes" in
let* _ := emit (Print "  [Concalls] Extracting Notes from modal/offcanvas...") in
match located with
| Raise e => emit (Print ("  [Concalls] Error locating Notes buttons: " +:+ e))
| Ok n =>
    let* _ := emit (Print ("  [Concalls] Found " +:+ Py.str_of_nat n
                           +:+ " 'Notes' buttons (button.concall-link)")) in
    notes_loop notes_folder browser 0 n
end.

(** ** [extract_concalls_comprehensive] *)

(** Loops whose turns each add some items or raise. *)
Fixpoint collect_all {A B} (f : A -> result (list B)) (l : list A) : result (list B) :=
match l with
| [] => Ok []
| x :: l' =>
    found ← f x;
    rest ← collect_all f l';
    Ok (found ++ rest)
end.

Section Concalls.

Variable urljoin : string -> string -> result string.

(** [lambda c: c and "documents" in c and "concalls" in c] *)
Definition documents_concalls (c : option string) : bool :=
match c with
| Some c => negb (Py.is_empty c) && Py.contains "documents" c && Py.contains "concalls" c
| None => false
end.

(** Step 1: the first such [div] whose first [h3] mentions "concall". *)
Definition concall_container (soup : Soup) : option handle :=
List.find (fun div => match find soup div ["h3"] with
                      | Some h3 => Py.contains "concall" (Py.lower (get_text_strip soup h3))
                      | None => false
                      end)
          (find_all_class soup (Node []) (Some ["div"]) documents_concalls).

(** One [concall-link] element of a list item: the dict it adds, as the
    link record and the value of the [type] key, or nothing. *)
Definition concall_record (soup : Soup) (base_url : string) (quarter_text : option string)
    (el : handle) : result (option (DocumentLink * string)) :=
let link_text := get_text_strip soup el in
match get_attr soup el "href" with
| Some href =>
    if Py.is_empty href || Py.is_empty link_text then Ok None
    else
      let doc_name :=
        match quarter_text with
        | Some q => if Py.is_empty q then link_text else q +:+ "_" +:+ link_text
        | None => link_text
        end in
      full_url ← urljoin base_url href;
      Ok (Some (mkDoc "concalls" doc_name None full_url quarter_text None,
                Py.lower link_text))
| None => Ok None
end.

(** One list item: its quarter is the text of its first [div]. *)
Definition concall_item (soup : Soup) (base_url : string) (li : handle)
  : result (list (DocumentLink * string)) :=
let quarter_text := get_text_strip soup <$> find soup li ["div"] in
collect (concall_record soup base_url quarter_text)
        (find_all_class soup li None (is_class "concall-link")).

(** The function: what it prints, and what it returns or raises. *)
Definition extract_concalls_comprehensive (soup : Soup) (base_url : string)
  : list string * result (list (DocumentLink * string)) :=
let start := "  [Concalls] Extracting using comprehensive method..." in
let total n := "  [Concalls] Total concalls extracted: " +:+ Py.str_of_nat n in
match concall_container soup with
| None =>
    ([start; "  [Concalls] Concalls container not found via BeautifulSoup"; total 0], Ok [])
| Some concall_container =>
    match head (find_all_class soup concall_container (Some ["ul"]) (is_class "list-links")) with
    | None =>
        ([start; "  [Concalls] No list-links <ul> found under Concalls"; total 0], Ok [])
    | Some ul =>
        match collect_all (concall_item soup base_url) (find_all soup ul ["li"] false) with
        | Ok concalls => ([start; total (length concalls)], Ok concalls)
        | Raise e => ([start], Raise e)
        end
    end
end.

End Concalls.

(** ** [extract_quarterly_result_pdfs] *)

Section Quarterly.

Variable urljoin : string -> string -> result string.

(** [a == b] for two elements of the tree, taken as given. *)
Variable tag_eq : Soup -> handle -> handle -> bool.

(** [cells.index(cell)]: the first position that holds [cell] itself or
    an element equal to it. *)
Definition index_of (soup : Soup) (cell : handle) (cells : list handle) : option nat :=
fst <$> List.find (fun ic => bool_decide (snd ic = cell) || tag_eq soup (snd ic) cell)
                  (imap pair cells).

(** One cell after the first of a "Raw PDF" row. *)
Definition raw_pdf_cell (soup : Soup) (base_url : string) (table : handle)
    (cells : list handle) (cell : handle) : result (option DocumentLink) :=
match head (find_all soup cell ["a"] true) with
| None => Ok None
| Some link =>
    href ← match get_attr soup link "href" with
           | Some href => Ok href
           | None => Raise "KeyError: 'href'"
           end;
    full_url ← urljoin base_url href;
    first_row ← match head (find_all soup table ["tr"] false) with
                | Some row => Ok row
                | None => Raise "IndexError: list index out of range"
                end;
    let table_headers := find_all soup first_row ["th"; "td"] false in
    cell_index ← match index_of soup cell cells with
                 | Some i => Ok i
                 | None => Raise "ValueError: cell is not in list"
                 end;
    let quarter_info :=
      match table_headers !! cell_index with
      | Some header => get_text_strip soup header
      | None => "Quarterly_Result"
      end in
    Ok (Some (mkDoc "quarterly_results" ("Quarterly Result PDF - " +:+ quarter_info) None
                    full_url (Some quarter_info) (Some true)))
end.

(** One row of a table: only a row whose first cell says "raw pdf" counts. *)
Definition raw_pdf_row (soup : Soup) (base_url : string) (table row : handle)
  : result (list DocumentLink) :=
let cells := find_all soup row ["td"; "th"] false in
match cells with
| first :: rest =>
    if Py.contains "raw pdf" (Py.lower (get_text_strip soup first))
    then collect (raw_pdf_cell soup base_url table cells) rest
    else Ok []
| [] => Ok []
end.

(** The function: what it prints, and what it returns or raises. *)
Definition extract_quarterly_result_pdfs (soup : Soup) (base_url : string)
  : list string * result (list DocumentLink) :=
match collect_all (fun table =>
                     collect_all (raw_pdf_row soup base_url table)
                                 (find_all soup table ["tr"] false))
                  (find_all soup (Node []) ["table"] false) with
| Ok pdfs =>
    (["  [PDFs] Found " +:+ Py.str_of_nat (length pdfs) +:+ " quarterly result PDFs"],
     Ok pdfs)
| Raise e => ([], Raise e)
end.

End Quarterly.

(** ** The slow scroll of [scrape_screener_company] *)

(** [step = scroll_height // 10 if scroll_height > 0 else 500] *)
Definition scroll_step (scroll_height : Z) : Z :=
if (0 <? scroll_height)%Z then (scroll_height / 10)%Z else 500%Z.

(** The loop [while current < scroll_height], for scroll scripts that
    succeed: the positions scrolled to, in order, or [None] when the loop
    has not ended within [fuel] turns. *)
Fixpoint slow_scroll_loop (fuel : nat) (scroll_height step current : Z) : option (list Z) :=
if (current <? scroll_height)%Z then
  match fuel with
  | 0 => None
  | S fuel' => cons current <$> slow_scroll_loop fuel' scroll_height step (current + step)%Z
  end
else Some [].

Definition slow_scroll (fuel : nat) (scroll_height : Z) : option (list Z) :=
slow_scroll_loop fuel scroll_height (scroll_step scroll_height) 0%Z.

(** ** [extract_key_metrics] *)

(** One item of the metrics list: the texts of its first two non-empty
    [span]s, or else the two sides of its first colon; nothing when either
    is empty or there is neither. *)
Definition metric_of_item (soup : Soup) (li : handle) : option (string * string) :=
let parts :=
  List.map (get_text_sep soup)
           (List.filter (fun span => negb (Py.is_empty (get_text_strip soup span)))
                        (find_all soup li ["span"] false)) in
let found :=
  match parts with
  | name :: value :: _ => Some (name, value)
  | _ =>
      let txt := get_text_sep soup li in
      if Py.contains ":" txt
      then Some (Py.strip (fst (Py.split_once ":" txt)), Py.strip (snd (Py.split_once ":" txt)))
      else None
  end in
match found with
| Some (name, value) =>
    if negb (Py.is_empty name) && negb (Py.is_empty value) then Some (name, value) else None
| None => None
end.

(** "This looks like the key metrics block": a list with items, one of
    which mentions the market cap and one the current price. *)
Definition is_metrics_list (soup : Soup) (ul : handle) : bool :=
let lis := find_all soup ul ["li"] false in
let labels := List.map (fun li => Py.lower (get_text_sep soup li)) lis in
negb (bool_decide (lis = []))
&& existsb (Py.contains "market cap") labels
&& existsb (Py.contains "current price") labels.

(** [metrics]: the items of the first such list. *)
Definition key_metrics (soup : Soup) : list (string * string) :=
match List.find (is_metrics_list soup) (find_all soup (Node []) ["ul"] false) with
| Some ul => omap (metric_of_item soup) (find_all soup ul ["li"] false)
| None => []
end.

(** [df.drop_duplicates()]: of equal rows the first is kept. *)
Fixpoint drop_duplicates (seen rows : list (string * string)) : list (string * string) :=
match rows with
| [] => []
| row :: rows' =>
    if bool_decide (row ∈ seen) then drop_duplicates seen rows'
    else row :: drop_duplicates (row :: seen) rows'
end.

Definition metrics_frame (metrics : list (string * string)) : DataFrame :=
mkDataFrame ["metric"; "value"]
            (List.map (fun row => [fst row; snd row]) (drop_duplicates [] metrics)).

Definition extract_key_metrics (w : World) (soup : Soup) (company_folder : Py.Path) : M unit :=
match key_metrics soup with
| [] => ret tt
| metrics =>
    let out := Py.joinpath company_folder "key_metrics.csv" in
    let* _ := write_file out (to_csv w (metrics_frame metrics)) in
    emit (Print ("Saved key metrics: " +:+ Py.name out))
end.

(** ** [login_to_screener] *)

(** What the function asks of the browser, in order. *)
Inductive command :=
| OpenPage (url : string)
| WaitFor (id : string)
| FindElement (selector : string)
| Clear (field : string)
| SendKeys (field text : string)
| Click (selector : string)
| ReadUrl.

(** What the browser answers to each request of a login. *)
Record LoginBrowser := mkLoginBrowser {
  open_page : result unit;
  wait_username : result unit;
  clear_username : result unit;
  send_username : result unit;
  find_password : result unit;
  clear_password : result unit;
  send_password : result unit;
  find_button : result unit;
  click_button : result unit;
  current_url : result string }.

(** Requests made one after the other until one raises: the requests
    made, the failing one included, and the exception if there was one. *)
Fixpoint run_commands (steps : list (command * result unit)) : list command * option string :=
match steps with
| [] => ([], None)
| (c, Ok _) :: rest => let '(cs, e) := run_commands rest in (c :: cs, e)
| (c, Raise e) :: _ => ([c], Some e)
end.

(** [not value] for what [os.getenv] returns. *)
Definition unset (value : option string) : bool :=
match value with
| Some v => Py.is_empty v
| None => true
end.

(** The selector [button[type="submit"]]. *)
Definition submit_button : string :=
"button[type=" +:+ String dquote ("submit" +:+ String dquote "]").

Definition login_steps (username password : string) (b : LoginBrowser)
  : list (command * result unit) :=
[(OpenPage "https://www.screener.in/login/", open_page b);
 (WaitFor "id_username", wait_username b);
 (Clear "id_username", clear_username b);
 (SendKeys "id_username" username, send_username b);
 (FindElement "id_password", find_password b);
 (Clear "id_password", clear_password b);
 (SendKeys "id_password" password, send_password b);
 (FindElement submit_button, find_button b);
 (Click submit_button, click_button b)].

(** The function: the requests it makes of the browser, the lines it
    prints after its banner, and what it returns. *)
Definition login_to_screener (username password : option string) (b : LoginBrowser)
  : list command * list string * bool :=
if unset username || unset password
then ([], ["WARNING: No credentials found in .env file"], false)
else
  match run_commands (login_steps (default "" username) (default "" password) b) with
  | (cs, Some e) => (cs, ["Login error: " +:+ e], false)
  | (cs, None) =>
      match current_url b with
      | Ok url =>
          if negb (Py.contains "login" (Py.lower url))
          then (cs ++ [ReadUrl], ["Login successful!"], true)
          else (cs ++ [ReadUrl], ["Login failed - still on login page"], false)
      | Raise e => (cs ++ [ReadUrl], ["Login error: " +:+ e], false)
      end
  end.

End ScraperV1.

(* ===================================================================== *)
(** * scraper.py *)
(* ===================================================================== *)

(** The earlier script.  [clean_filename], [extract_section_heading] and
    the naming of tables by their first column are those of [ScraperV1]
    (without the shareholding name); the rest is restated here. *)
Module Scraper.
Import Bs4.

Definition DocumentLink := ScraperV1.DocumentLink.

(** ** [download_file] *)

Definition min_size : nat := 1000.

Definition download_file_body (w : World) (url : string) (save_path : Py.Path) : M bool :=
let* _ := ScraperV1.fetch w url save_path in
let* size := st_size save_path in
if Nat.ltb size min_size then
  let* data := read_text save_path in
  let content := Py.lower data in
  if Py.any_in ScraperV1.error_words content then
    let* _ := unlink save_path in
    ret false
  else ret true
else ret true.

Definition download_file (w : World) (url : string) (save_path : Py.Path)
  : State -> bool * State :=
fun s =>
  match download_file_body w url save_path s with
  | (Ok b, s') => (b, s')
  | (Raise e, s') =>
      (false, mkState (files s') (trace s' ++ [Print ("    Error: " +:+ e)]))
  end.

(** ** [extract_documents_links] *)

Section Classifier.

Variable urljoin : string -> string -> result string.

(** Step 2: up to four ancestors; the climb stops at [body], at an
    ancestor with more than ten links, or above the root. *)
Fixpoint find_container (hops : nat) (soup : Soup) (container : handle) : option handle :=
match hops with
| 0 => Some container
| S hops' =>
    match parent soup container with
    | None => None
    | Some container =>
        if bool_decide (tag_name soup container = Some "body") then Some container
        else if Nat.ltb 10 (length (find_all soup container ["a"] true))
        then Some container
        else find_container hops' soup container
    end
end.

(** Step 3: the [div]s whose first [h3]/[h4] names a document column. *)
Definition columns (soup : Soup) (container : handle) : list (string * handle) :=
omap (fun div =>
        match find soup div ["h3"; "h4"] with
        | Some heading_tag =>
            let title := Py.lower (get_text_strip soup heading_tag) in
            if Py.any_in ["announcement"; "annual"; "concall"; "credit"] title
            then Some (title, div) else None
        | None => None
        end)
     (find_all soup container ["div"] false).

Definition column_category (col_title : string) : string :=
if Py.contains "announce" col_title then "announcements"
else if Py.contains "annual" col_title then "annual"
else if Py.contains "concall" col_title then "concalls"
else if Py.contains "credit" col_title then "credit_ratings"
else "other".

(** Step 4, one link of one column: every link is kept. *)
Definition link_record (soup : Soup) (base_url category : string) (a : handle)
  : result (option DocumentLink) :=
let text := get_text_strip soup a in
match get_attr soup a "href" with
| None => Raise "KeyError: 'href'"
| Some href =>
    full_url ← urljoin base_url href;
    Ok (Some (ScraperV1.mkDoc category text (Some href) full_url None None))
end.

Definition column_links (soup : Soup) (cols : list (string * handle))
  : list (string * handle) :=
flat_map (fun tc => List.map (fun a => (column_category (fst tc), a))
                             (find_all soup (snd tc) ["a"] true))
         cols.

Definition extract_documents_links (soup : Soup) (base_url : string)
  : list string * result (list DocumentLink) :=
match ScraperV1.docs_heading soup with
| None => (["  [Docs] Documents heading not found"], Ok [])
| Some heading =>
    match find_container 4 soup heading with
    | None => (["  [Docs] Container for Documents not found"], Ok [])
    | Some container =>
        match columns soup container with
        | [] => (["  [Docs] No document columns found under Documents"], Ok [])
        | cols =>
            let found :=
              "  [Docs] Found " +:+ Py.str_of_nat (length cols)
              +:+ " document columns: " +:+ String.concat ", " (List.map fst cols) in
            match collect (fun ca => link_record soup base_url (fst ca) (snd ca))
                          (column_links soup cols) with
            | Ok docs =>
                ([found;
                  "  [Docs] Total links collected from Documents: "
                  +:+ Py.str_of_nat (length docs)],
                 Ok docs)
            | Raise e => ([found], Raise e)
            end
        end
    end
end.

End Classifier.

(** ** The document loop of [scrape_screener_company] *)

Definition folders (company_folder : Py.Path) : gmap string Py.Path :=
list_to_map
  [("tables", Py.joinpath company_folder "financial_tables");
   ("annual", Py.joinpath company_folder "annual_reports");
   ("concalls", Py.joinpath company_folder "concalls");
   ("announcements", Py.joinpath company_folder "announcements");
   ("credit_ratings", Py.joinpath company_folder "credit_ratings");
   ("other", Py.joinpath company_folder "other_documents")].

(** "Map category to folder" *)
Definition folder_key (company_folder : Py.Path) (category : string) : string :=
if bool_decide (is_Some (folders company_folder !! category)) then category
else "announcements".

(** [folders.get(folder_key, folders['announcements'])] *)
Definition destination (company_folder : Py.Path) (category : string) : Py.Path :=
let fallback := default [] (folders company_folder !! "announcements") in
default fallback (folders company_folder !! folder_key company_folder category).

(** "Decide extension (if missing, default to .pdf)" *)
Definition chosen_ext (item : DocumentLink) : string :=
let parsed_ext := Py.splitext_ext (Py.path (Py.urlparse (ScraperV1.url item))) in
if Py.is_empty parsed_ext then ".pdf" else parsed_ext.

(** ** The table loop of [scrape_screener_company] *)

Definition keyword_name (df : DataFrame) (idx : nat) : string :=
let t := ScraperV1.first_col_text df in
if Py.any_in ["sales"; "revenue"; "operating profit"; "expenses"] t then "Profit_Loss"
else if Py.any_in ["equity"; "reserves"; "assets"; "liabilities"; "borrowings"] t
then "Balance_Sheet"
else if Py.any_in ["cash from operating"; "cash from investing"; "cash from financing"] t
then "Cash_Flows"
else if Py.any_in ["debtor days"; "roce"; "roe"; "working capital"] t then "Ratios"
else if Py.contains "sep" t || Py.contains "dec" t || Py.contains "jun" t
then "Quarterly_Results"
else "Table_" +:+ Py.str_of_nat idx.

Definition base_name (section : option string) (df : DataFrame) (idx : nat) : string :=
match section with
| Some section =>
    if Py.is_empty section then keyword_name df idx else ScraperV1.clean_filename section
| None => keyword_name df idx
end.

Definition tables_folder (company_folder : Py.Path) : Py.Path :=
default [] (folders company_folder !! "tables").

Definition table_step (w : World) (soup : Soup) (company_folder : Py.Path)
    (st : list (string * (nat * nat)) * State) (it : nat * handle)
  : list (string * (nat * nat)) * State :=
let '(tables_saved, s) := st in
let '(idx, table) := it in
let section := ScraperV1.extract_section_heading soup table in
match read_html w table with
| Raise e =>
    (tables_saved,
     mkState (files s) (trace s ++ [Print ("  Table " +:+ Py.str_of_nat idx +:+ ": " +:+ e)]))
| Ok df =>
    if Nat.ltb (fst (shape df)) 2 || Nat.ltb (snd (shape df)) 2 then st
    else
      let name :=
        ScraperV1.table_name (ScraperV1.dict_keys tables_saved) (base_name section df idx) in
      let filepath := Py.joinpath (tables_folder company_folder) (name +:+ ".csv") in
      (ScraperV1.dict_set tables_saved name (shape df),
       mkState (<[filepath := to_csv w df]> (files s))
               (trace s ++ [WriteFile filepath (to_csv w df); Print ("  Saved " +:+ name)]))
end.

Definition extract_tables (w : World) (soup : Soup) (company_folder : Py.Path)
    (all_tables : list handle) (s : State) : list (string * (nat * nat)) * State :=
fold_left (table_step w soup company_folder) (imap pair all_tables) ([], s).

(** ** The slow scroll of [scrape_screener_company] *)

(** [step = scroll_height // 8 if scroll_height > 0 else 800] *)
Definition scroll_step (scroll_height : Z) : Z :=
if (0 <? scroll_height)%Z then (scroll_height / 8)%Z else 800%Z.

Definition slow_scroll (fuel : nat) (scroll_height : Z) : option (list Z) :=
ScraperV1.slow_scroll_loop fuel scroll_height (scroll_step scroll_height) 0%Z.

(** ** The document loop, continued *)

(** Where an item is saved: the name is built as in [ScraperV1], with the
    extension of this script. *)
Definition save_path (company_folder : Py.Path) (download_stats : gmap string nat)
    (item : DocumentLink) : Py.Path :=
Py.joinpath (destination company_folder (ScraperV1.category item))
  (ScraperV1.build_filename item (folder_key company_folder (ScraperV1.category item))
                            download_stats (chosen_ext item)).

(** One turn of the loop over [doc_links]. *)
Definition download_item (w : World) (company_folder : Py.Path)
    (st : gmap string nat * State) (item : DocumentLink) : gmap string nat * State :=
let '(download_stats, s) := st in
let target := save_path company_folder download_stats item in
if bool_decide (is_Some (files s !! target)) then st
else
  let s := mkState (files s)
             (trace s ++ [Print ("  Downloading [" +:+ ScraperV1.category item +:+ "]: "
                                 +:+ Py.take 80 (Py.name target) +:+ " ...")]) in
  let '(ok, s) := download_file w (ScraperV1.url item) target s in
  if ok
  then (<[ScraperV1.category item
          := default 0 (download_stats !! ScraperV1.category item) + 1]> download_stats, s)
  else (download_stats, s).

Definition download_stats0 : gmap string nat :=
list_to_map [("annual", 0); ("concalls", 0); ("announcements", 0);
             ("credit_ratings", 0); ("other", 0)].

Definition download_documents (w : World) (company_folder : Py.Path)
    (doc_links : list DocumentLink) (s : State) : gmap string nat * State :=
fold_left (download_item w company_folder) doc_links (download_stats0, s).

End Scraper.

(* ===================================================================== *)
(** * crisil_scraper.py and india_ratings_scraper.py *)
(* ===================================================================== *)

(** The two partner-site scrapers fetch a page, convert it with
    [html2text] and write three files.  What is computed from the URL and
    from the converted text is followed here; the fetch, the parse and the
    conversion are not. *)
Module CrisilScraper.

(** [Path(url.split("?", 1)[0]).stem or "crisil_rationale"] *)
Definition slug (url : string) : string :=
let stem := Py.stem (Py.path_of_string (fst (Py.split_once "?" url))) in
if Py.is_empty stem then "crisil_rationale" else stem.

(** [re.sub(r"\n{3,}", "\n\n", md_body).strip()] *)
Definition tidy (md_body : string) : string :=
Py.strip (Py.collapse_newlines 0 md_body).

(** ["\n".join([f"# {page_title}", "", md_body])], for the text [converted]
    that [html2text] made of the page. *)
Definition markdown (page_title converted : string) : string :=
String.concat (String Py.newline "") ["# " +:+ page_title; ""; tidy converted].

(** The names of the Markdown file, the clean HTML file and the raw copy. *)
Definition output_names (url : string) : list string :=
[slug url +:+ ".md"; slug url +:+ ".html"; slug url +:+ "_raw.html"].

End CrisilScraper.

Module IndiaRatingsScraper.

(** [url.split('/')[-1]] *)
Definition press_id (url : string) : string :=
List.last (Py.split_char "/" url) "".

(** The names of the Markdown file, the clean HTML file and the raw copy. *)
Definition output_names (url : string) : list string :=
["india_ratings_" +:+ press_id url +:+ ".md";
 "india_ratings_" +:+ press_id url +:+ ".html";
 "india_ratings_" +:+ press_id url +:+ "_raw.html"].

(** [convert_to_markdown]: [metadata] is the date and the category that
    were found, [converted] the text [html2text] made of the content. *)
Definition convert_to_markdown (converted title : string)
    (metadata : option string * option string) : string :=
let heading := ["# " +:+ title; ""] in
let meta :=
  match metadata with
  | (None, None) => []
  | (date, category) =>
      match date with Some d => ["**Date:** " +:+ d] | None => [] end
      ++ match category with Some c => ["**Category:** " +:+ c] | None => [] end
      ++ [""; "---"; ""]
  end in
String.concat (String Py.newline "")
  (heading ++ meta ++ [CrisilScraper.tidy converted]).

End IndiaRatingsScraper.

(* ===================================================================== *)
(** * The vocabulary of the properties *)
(* ===================================================================== *)

Import ScraperV1.

(** Events that touch neither the network requests nor the files of the
    normal download. *)
Definition quiet (ev : event) : bool :=
match ev with
| Print _ | ScrapeIndiaRatings _ _ | ScrapeCrisil _ _ => true
| _ => false
end.

(** The names the duplicate loop tries, in order: the base name, then the
    base name with the suffixes [_1], [_2], ... *)
Definition candidate (base : string) (k : nat) : string :=
match k with
| 0 => base
| S _ => base +:+ "_" +:+ Py.str_of_nat k
end.

(** The paths of the files a trace writes, in order. *)
Definition written (evs : list event) : list Py.Path :=
flat_map (fun ev => match ev with WriteFile p _ => [p] | _ => [] end) evs.

Definition csv_path (company_folder : Py.Path) (name : string) : Py.Path :=
Py.joinpath (ScraperV1.tables_folder company_folder) (name +:+ ".csv").

(** The invariant of the table loop: the keys of the index are distinct,
    and the files written so far are the CSV files of these keys, in the
    order the keys were added. *)
Definition tables_invariant (company_folder : Py.Path)
    (st : list (string * (nat * nat)) * State) : Prop :=
List.NoDup (ScraperV1.dict_keys (fst st))
/\ written (trace (snd st))
   = List.map (csv_path company_folder) (ScraperV1.dict_keys (fst st)).

(** The CSV file of every name of the index is on disk. *)
Definition on_disk (company_folder : Py.Path)
    (st : list (string * (nat * nat)) * State) : Prop :=
forall saved, In saved (ScraperV1.dict_keys (fst st)) ->
  is_Some (files (snd st) !! csv_path company_folder saved).

(** The sections the classifier reads links from, with the soup as it is
    after they were moved into their wrappers. *)
Definition document_sections (soup : Bs4.Soup) : Bs4.Soup * list (string * Bs4.handle) :=
match ScraperV1.docs_heading soup with
| Some heading =>
    match ScraperV1.best_container 10 soup heading None 0 with
    | Some container => ScraperV1.collect_sections soup container
    | None => (soup, [])
    end
| None => (soup, [])
end.

(** The links of the sections, each with its category. *)
Definition document_links (soup : Bs4.Soup) : list (string * Bs4.handle) :=
ScraperV1.section_links (fst (document_sections soup)) (snd (document_sections soup)).

(** A link is kept when its text is not empty and not navigation. *)
Definition kept (soup : Bs4.Soup) (a : Bs4.handle) : bool :=
negb (Py.is_empty (Bs4.get_text_strip soup a))
&& negb (Py.mem (Py.lower (Bs4.get_text_strip soup a)) ScraperV1.navigation).

(** What [urljoin] answers for the [href] of a link. *)
Definition joined (urljoin : string -> string -> result string) (soup : Bs4.Soup)
    (base_url : string) (ca : string * Bs4.handle) : result string :=
urljoin base_url (default "" (Bs4.get_attr soup (snd ca) "href")).

(** The record of a link whose joined address is [full_url]. *)
Definition link_doc (soup : Bs4.Soup) (ca : string * Bs4.handle) (full_url : string)
  : ScraperV1.DocumentLink :=
mkDoc (fst ca) (Bs4.get_text_strip soup (snd ca)) (Bs4.get_attr soup (snd ca) "href")
      full_url None None.

(** [urljoin] accepts the address of the link [ca], and [doc] is its
    record. *)
Definition emitted (urljoin : string -> string -> result string) (soup : Bs4.Soup)
    (base_url : string) (ca : string * Bs4.handle) (doc : ScraperV1.DocumentLink) : Prop :=
exists full_url,
  joined urljoin soup base_url ca = Ok full_url /\ doc = link_doc soup ca full_url.

(** [urljoin] raises [e] on a link of [links], and accepts the links
    before it. *)
Definition rejected (urljoin : string -> string -> result string) (soup : Bs4.Soup)
    (base_url : string) (links : list (string * Bs4.handle)) (e : string) : Prop :=
exists before ca rest,
  links = before ++ ca :: rest
  /\ List.Forall (fun ca => exists full_url, joined urljoin soup base_url ca = Ok full_url)
                 before
  /\ joined urljoin soup base_url ca = Raise e.

(** What reading [links] in order comes to: one record for each link, in
    order, when [urljoin] accepts them all; the exception of the first
    link it rejects, and no record, otherwise. *)
Definition outcome (urljoin : string -> string -> result string) (soup : Bs4.Soup)
    (base_url : string) (links : list (string * Bs4.handle))
    (r : result (list ScraperV1.DocumentLink)) : Prop :=
match r with
| Ok docs => List.Forall2 (emitted urljoin soup base_url) links docs
| Raise e => rejected urljoin soup base_url links e
end.

(** [urljoin] raises [e] on the [href] of an element of the page. *)
Definition refused (urljoin : string -> string -> result string) (soup : Bs4.Soup)
    (base_url : string) (e : string) : Prop :=
exists el href, Bs4.get_attr soup el "href" = Some href /\ urljoin base_url href = Raise e.

(** A table the loop skips as too small: it parses, to fewer than two
    rows or fewer than two columns. *)
Definition small_table (w : World) (it : nat * Bs4.handle) : bool :=
match read_html w (snd it) with
| Ok df => Nat.ltb (fst (shape df)) 2 || Nat.ltb (snd (shape df)) 2
| Raise _ => false
end.

(** A character that may stand in a file name: none of the forbidden
    ones, and no white space. *)
Definition safe_char (c : ascii) : bool :=
negb (ScraperV1.forbidden_char c) && negb (Py.isspace c).

(** The folder an event writes into, removes from or hands to a partner
    scraper; requests and printed lines have none. *)
Definition event_folder (ev : event) : option Py.Path :=
match ev with
| WriteFile p _ | Unlink p => Some (Py.parent p)
| ScrapeIndiaRatings _ folder | ScrapeCrisil _ folder => Some folder
| Print _ | Head _ | Get _ => None
end.

(** All events of [evs] that touch a folder touch [folder]. *)
Definition within (folder : Py.Path) (evs : list event) : Prop :=
Forall (fun ev => forall f, event_folder ev = Some f -> f = folder) evs.


(** [m] leaves the earlier events of the trace in place and adds only
    events within [folder]. *)
Definition stays {A} (folder : Py.Path) (m : M A) : Prop :=
forall s, exists r disk evs,
  m s = (r, mkState disk (trace s ++ evs)) /\ within folder evs.

(** In turn [idx] the button is found and activated: the buttons are
    found again and there are more than [idx] of them, the scroll script
    runs, and the click or the JavaScript click after it succeeds. *)
Definition activated (t : ScraperV1.Turn) (idx : nat) : Prop :=
(exists n, buttons t = Ok n /\ idx < n)
/\ scroll t = Ok tt
/\ (click t = Ok tt \/ js_click t = Ok tt).

(** In turn [idx] a browser call raises [e] where no handler of the turn's
    own catches it: the search for the buttons, the scroll script, the
    JavaScript click after a failed click, or the reading of the text of
    the dialog. *)
Definition failed (t : ScraperV1.Turn) (idx : nat) (e : string) : Prop :=
buttons t = Raise e
\/ (exists n, buttons t = Ok n /\ idx < n)
   /\ (scroll t = Raise e
       \/ scroll t = Ok tt
          /\ ((exists e0, click t = Raise e0) /\ js_click t = Raise e
              \/ (click t = Ok tt \/ js_click t = Ok tt)
                 /\ exists dlg, dialog t = Ok dlg /\ ScraperV1.dialog_text dlg = Raise e)).


(** A string that does not begin with a digit. *)
Definition no_digit_first (s : string) : Prop :=
match s with
| String c _ => Py.isdigit c = false
| EmptyString => True
end.

(** [s] begins with a match of [[?&]Id=(\d+)] whose group is [id]: a
    question mark or an ampersand, "Id=", and the digits [id], as many as
    there are. *)
Definition id_match (s id : string) : Prop :=
exists sep rest,
  s = String sep ("Id=" +:+ id +:+ rest)
  /\ (sep = "?" \/ sep = "&")%char
  /\ id <> "" /\ Py.string_forallb Py.isdigit id = true
  /\ no_digit_first rest.

(** The leftmost match of [[?&]Id=(\d+)] in [s] has the group [id]. *)
Definition first_id (s id : string) : Prop :=
exists before after,
  s = before +:+ after
  /\ id_match after id
  /\ forall b1 b2 id', before = b1 +:+ b2 -> b2 <> "" -> ~ id_match (b2 +:+ after) id'.

(** There is no match of [[?&]Id=(\d+)] in [s]. *)
Definition no_id (s : string) : Prop :=
forall before after id, s = before +:+ after -> ~ id_match after id.

(** A credit-rating link to a rationale page of ICRA. *)
Definition is_icra_rationale (item : ScraperV1.DocumentLink) : Prop :=
category item = "credit_ratings"
/\ Py.contains "icra.in/Rationale/ShowRationaleReport" (url item) = true.

(** What every record of the quarterly scanner looks like: filed under
    [quarterly_results], flagged [force_pdf], without an [href] key, and
    named after its quarter. *)
Definition quarterly_record (doc : ScraperV1.DocumentLink) : Prop :=
category doc = "quarterly_results"
/\ force_pdf doc = Some true
/\ href doc = None
/\ exists quarter_info,
     quarter doc = Some quarter_info
     /\ text doc = "Quarterly Result PDF - " +:+ quarter_info.

(** The positions [0], [step], [2 * step], ... of [turns] scrolls. *)
Definition scroll_positions (step : Z) (turns : nat) : list Z :=
List.map (fun j => (Z.of_nat j * step)%Z) (seq 0 turns).

(** [m] leaves the earlier events of the trace in place and adds only
    events that satisfy [P]. *)
Definition emits {A} (P : event -> Prop) (m : M A) : Prop :=
forall s, exists r disk evs,
  m s = (r, mkState disk (trace s ++ evs)) /\ List.Forall P evs.

(** The suffixes of dynamic pages, and no suffix at all. *)
Definition page_suffixes : list string := [".aspx"; ".php"; ""].

(** An event that does not write a file under such a suffix. *)
Definition writes_no_page (ev : event) : Prop :=
match ev with
| WriteFile p _ => Py.mem (Py.lower (Py.suffix p)) page_suffixes = false
| _ => True
end.

(** How many links of a list have the category. *)
Definition links_in (c : string) (links : list ScraperV1.DocumentLink) : nat :=
length (List.filter (fun item => String.eqb (category item) c) links).

(** Three line feeds in a row. *)
Definition blank_lines : string :=
String Py.newline (String Py.newline (String Py.newline "")).

(** A string without a slash: as a file name it is one path component. *)
Definition no_slash (s : string) : bool :=
Py.string_forallb (fun c => negb (Ascii.eqb c "/")) s.


(** A table that [read_html] can parse. *)
Definition parses (w : World) (it : nat * Bs4.handle) : bool :=
match read_html w (snd it) with
| Ok _ => true
| Raise _ => false
end.

(** Two states of the table loop that differ in printed lines at most. *)
Definition same_tables (st st' : list (string * (nat * nat)) * State) : Prop :=
fst st = fst st'
/\ files (snd st) = files (snd st')
/\ written (trace (snd st)) = written (trace (snd st')).

(** A string with a character that may stand in a file name. *)
Definition has_safe_char (s : string) : bool :=
existsb safe_char (list_ascii_of_string s).

(** What the notes loop may do: print, and write a Markdown file with a
    clean name directly inside the notes folder. *)
Definition notes_event (company_folder : Py.Path) (ev : event) : Prop :=
match ev with
| Print _ => True
| WriteFile p _ =>
    Py.parent p = Py.joinpath company_folder "concall_notes"
    /\ exists stem,
         Py.name p = stem +:+ ".md" /\ stem <> ""
         /\ String.length stem <= 150 /\ Py.string_forallb safe_char stem = true
| _ => False
end.

(** A string without white space. *)
Definition no_space (s : string) : bool :=
Py.string_forallb (fun c => negb (Py.isspace c)) s.

(** [q] lies below [p] in the tree as it is now: it is reached from [p] by
    at least one step, and no node on the way, [q] included, has been
    moved. *)
Definition below (det : list Bs4.ref) (p q : Bs4.ref) : Prop :=
exists s, s <> [] /\ q = p ++ s
          /\ forall s1 s2, s = s1 ++ s2 -> s1 <> [] -> p ++ s1 ∉ det.

(** A moved node and what hangs below it now. *)
Definition listing (soup : Bs4.Soup) (p : Bs4.ref) : list Bs4.ref :=
p :: match Bs4.element soup p with
     | Some e => Bs4.descendants_at (Bs4.detached soup) p e
     | None => []
     end.

(** The invariant of the loop over the sub-headings: no node sits in two
    new tags or twice in one, and the sections are the new tags, in the
    order they were made. *)
Definition sections_invariant (st : Bs4.Soup * list (string * Bs4.handle)) : Prop :=
NoDup (Bs4.detached (fst st))
/\ List.map snd (snd st) = Bs4.NewTag <$> seq 0 (length (Bs4.wrappers (fst st))).

(** No moved node is the root of the page. *)
Definition moved_below_root (soup : Bs4.Soup) : Prop :=
forall p, p ∈ Bs4.detached soup -> p <> [].

(* ===================================================================== *)
(** * Sample pages, links and sites *)
(* ===================================================================== *)

Definition unfiled_link : ScraperV1.DocumentLink :=
  mkDoc "presentations" "Investor Day 2024" (Some "/docs/day.pdf")
        "https://www.screener.in/docs/day.pdf" None None.

Definition bse_announcement : ScraperV1.DocumentLink :=
  mkDoc "announcements" "Outcome of Board Meeting" (Some "AnnPdfOpen.aspx?Pname=a1b2c3")
        "https://www.bseindia.com/stockinfo/AnnPdfOpen.aspx?Pname=a1b2c3" None None.

Definition icra_rationale : ScraperV1.DocumentLink :=
  mkDoc "credit_ratings" "Rating update" (Some "https://www.icra.in/Rationale/ShowRationaleReport?Id=12345")
        "https://www.icra.in/Rationale/ShowRationaleReport?Id=12345" None None.

Definition quarterly_pdf : ScraperV1.DocumentLink :=
  mkDoc "quarterly_results" "Quarterly Result PDF - Sep 2024" None
        "https://www.bseindia.com/corporates/results.aspx?Code=532540" (Some "Sep 2024")
        (Some true).

(** A site that answers every request with a short "not found" page. *)
Definition not_found_site : World :=
  mkWorld (fun _ _ => Raise "not consulted") (fun _ _ => Raise "not consulted")
          (fun _ => Ok "text/html; charset=utf-8")
          (fun _ => Ok (mkResponse "<h1>404 Not Found</h1>" None))
          (fun _ => Raise "No tables found") (fun _ => "").

Definition notice_url : string := "https://www.bseindia.com/notices/2024/notice.pdf".
Definition notice_path : Py.Path := ["TCS"; "announcements"; "Notice_2024.pdf"].

(** A site whose HEAD requests fail while its GET requests succeed. *)
Definition no_head_site : World :=
  mkWorld (fun _ _ => Raise "not consulted") (fun _ _ => Raise "not consulted")
          (fun _ => Raise "ConnectionError: HEAD not allowed")
          (fun _ => Ok (mkResponse "PK archive bytes" None))
          (fun _ => Raise "No tables found") (fun _ => "").

(** A body of 512 bytes, and a site that serves it but refuses HEAD. *)
Definition large_body : string :=
  let block := "%PDF-1.7 0123456789abcdef0123456789abcdef0123456789abcdef0123456" in
  block +:+ block +:+ block +:+ block +:+ block +:+ block +:+ block +:+ block.

Definition large_pdf_site : World :=
  mkWorld (fun _ _ => Raise "not consulted") (fun _ _ => Raise "not consulted")
          (fun _ => Raise "ConnectionError: HEAD not allowed")
          (fun _ => Ok (mkResponse large_body None))
          (fun _ => Raise "No tables found") (fun _ => "").

Definition archive_url : string := "https://www.nseindia.com/files/annual_report.zip".
Definition archive_path : Py.Path := ["TCS"; "annual_reports"; "Financial_Year_2024.zip"].

(** A page with one heading and three tables below it: a one-row table
    and two tables of ratios. *)
Definition ratios_page : Bs4.Soup :=
  Bs4.BeautifulSoup
    [Bs4.Tag "section" []
       [Bs4.Tag "h2" [] [Bs4.NavigableString "Ratios"];
        Bs4.Tag "table" [("class", "note")] [];
        Bs4.Tag "table" [("class", "data-table")] [];
        Bs4.Tag "table" [("class", "data-table")] []]].

Definition note_frame : DataFrame :=
  mkDataFrame ["Note"; "Value"] [["Figures in Rs. Crores"; "nan"]].

Definition ratios_frame : DataFrame :=
  mkDataFrame ["Unnamed: 0"; "Mar 2023"; "Mar 2024"]
              [["Debtor Days"; "67"; "71"]; ["ROCE %"; "58"; "64"]].

Definition ratios_world : World :=
  mkWorld (fun _ _ => Raise "not consulted") (fun _ _ => Raise "not consulted")
          (fun _ => Raise "not consulted") (fun _ => Raise "not consulted")
          (fun table => if decide (table = Bs4.Node [0; 1]) then Ok note_frame
                        else Ok ratios_frame)
          (fun _ => "csv").

(** A page without a Documents heading, and a page whose Documents
    section holds links but no sub-headings. *)
Definition plain_page : Bs4.Soup :=
  Bs4.BeautifulSoup
    [Bs4.Tag "html" []
       [Bs4.Tag "body" []
          [Bs4.Tag "h1" [] [Bs4.NavigableString "Tata Consultancy Services"];
           Bs4.Tag "h2" [] [Bs4.NavigableString "Peer comparison"];
           Bs4.Tag "a" [("href", "/company/INFY/")] [Bs4.NavigableString "Infosys"]]]].

Definition bare_documents_page : Bs4.Soup :=
  Bs4.BeautifulSoup
    [Bs4.Tag "html" []
       [Bs4.Tag "body" []
          [Bs4.Tag "section" [("id", "documents")]
             [Bs4.Tag "h2" [] [Bs4.NavigableString "Documents"];
              Bs4.Tag "ul" []
                [Bs4.Tag "li" []
                   [Bs4.Tag "a" [("href", "/doc/1.pdf")]
                            [Bs4.NavigableString "Annual Report 2024"]]]]]]].

Definition link (href text : string) : Bs4.PageElement :=
  Bs4.Tag "li" [] [Bs4.Tag "a" [("href", href)] [Bs4.NavigableString text]].

(** The Documents region with an Announcements column of three links and
    an Annual reports column of two links and a "Show More" link. *)
Definition documents_page : Bs4.Soup :=
  Bs4.BeautifulSoup
    [Bs4.Tag "html" []
       [Bs4.Tag "body" []
          [Bs4.Tag "section" [("id", "documents")]
             [Bs4.Tag "h2" [] [Bs4.NavigableString "Documents"];
              Bs4.Tag "div" [("class", "flex-row")]
                [Bs4.Tag "div" [("class", "documents flex-column")]
                   [Bs4.Tag "h3" [] [Bs4.NavigableString "Announcements"];
                    Bs4.Tag "ul" [("class", "list-links")]
                      [link "https://www.bseindia.com/a/1.pdf" "Board Meeting Outcome";
                       link "https://www.bseindia.com/a/2.pdf" "Press Release";
                       link "https://www.bseindia.com/a/3.pdf" " Record Date "]];
                 Bs4.Tag "div" [("class", "documents annual-reports flex-column")]
                   [Bs4.Tag "h3" [] [Bs4.NavigableString "Annual reports"];
                    Bs4.Tag "ul" [("class", "list-links")]
                      [link "https://www.bseindia.com/ar/2024.pdf" "Financial Year 2024";
                       link "https://www.bseindia.com/ar/2023.pdf" "Financial Year 2023";
                       link "#" "Show More"]]]]]]].

(** The same region with a "Show More" link as the third link of each of
    the two columns. *)
Definition show_more_page : Bs4.Soup :=
  Bs4.BeautifulSoup
    [Bs4.Tag "html" []
       [Bs4.Tag "body" []
          [Bs4.Tag "section" [("id", "documents")]
             [Bs4.Tag "h2" [] [Bs4.NavigableString "Documents"];
              Bs4.Tag "div" [("class", "flex-row")]
                [Bs4.Tag "div" [("class", "documents flex-column")]
                   [Bs4.Tag "h3" [] [Bs4.NavigableString "Announcements"];
                    Bs4.Tag "ul" [("class", "list-links")]
                      [link "https://www.bseindia.com/a/1.pdf" "Board Meeting Outcome";
                       link "https://www.bseindia.com/a/2.pdf" "Press Release";
                       link "#" "Show More"]];
                 Bs4.Tag "div" [("class", "documents annual-reports flex-column")]
                   [Bs4.Tag "h3" [] [Bs4.NavigableString "Annual reports"];
                    Bs4.Tag "ul" [("class", "list-links")]
                      [link "https://www.bseindia.com/ar/2024.pdf" "Financial Year 2024";
                       link "https://www.bseindia.com/ar/2023.pdf" "Financial Year 2023";
                       link "#" "SHOW MORE"]]]]]]].

(** A column whose list holds a second heading: the links after the inner
    heading belong to its section. *)
Definition nested_heading_page : Bs4.Soup :=
  Bs4.BeautifulSoup
    [Bs4.Tag "html" []
       [Bs4.Tag "body" []
          [Bs4.Tag "section" [("id", "documents")]
             [Bs4.Tag "h2" [] [Bs4.NavigableString "Documents"];
              Bs4.Tag "div" [("class", "documents flex-column")]
                [Bs4.Tag "h3" [] [Bs4.NavigableString "Annual reports"];
                 Bs4.Tag "div" [("class", "show-more-box")]
                   [Bs4.Tag "a" [("href", "/ar/2024.pdf")]
                            [Bs4.NavigableString "Financial Year 2024"];
                    Bs4.Tag "h4" [] [Bs4.NavigableString "Credit ratings"];
                    Bs4.Tag "a" [("href", "/cr/2024.pdf")]
                            [Bs4.NavigableString "Rating update"]]]]]]].

Definition company_url : string := "https://www.screener.in/company/TCS/consolidated/".


(** An [urljoin] for links that are absolute addresses: it returns the
    address, and raises, as [urlsplit] does, on one with an opening
    bracket that is never closed. *)
Definition strict_urljoin (base url : string) : result string :=
  if Py.contains "[" url && negb (Py.contains "]" url)
  then Raise "ValueError: Invalid IPv6 URL"
  else Ok url.

(** An Announcements column whose second link has an address that cannot
    be parsed. *)
Definition malformed_link_page : Bs4.Soup :=
  Bs4.BeautifulSoup
    [Bs4.Tag "html" []
       [Bs4.Tag "body" []
          [Bs4.Tag "section" [("id", "documents")]
             [Bs4.Tag "h2" [] [Bs4.NavigableString "Documents"];
              Bs4.Tag "div" [("class", "documents flex-column")]
                [Bs4.Tag "h3" [] [Bs4.NavigableString "Announcements"];
                 Bs4.Tag "ul" [("class", "list-links")]
                   [link "https://www.bseindia.com/a/1.pdf" "Board Meeting Outcome";
                    link "http://[bad" "Press Release"]]]]]].

(** Three Notes triggers: the first dialog opens, the second never
    appears, the third opens after a JavaScript click and has no article. *)
Definition january_dialog : ScraperV1.Dialog :=
  mkDialog (Ok "Revenue grew 5% quarter on quarter.") (Ok "Notes Revenue grew 5%").

Definition july_dialog : ScraperV1.Dialog :=
  mkDialog (Raise "NoSuchElementException") (Ok "  Margins were stable.  ").

Definition three_triggers (idx : nat) : ScraperV1.Turn :=
  match idx with
  | 0 => mkTurn (Ok 3) (Ok (Some "Jan 2025")) (Ok "Jan 2025") (Ok tt) (Ok tt) (Ok tt)
                (Ok january_dialog)
  | 1 => mkTurn (Ok 3) (Ok (Some "Oct 2024")) (Ok "Oct 2024") (Ok tt) (Ok tt) (Ok tt)
                (Raise "TimeoutException")
  | _ => mkTurn (Ok 3) (Ok None) (Ok "Jul 2024") (Ok tt)
                (Raise "ElementClickInterceptedException") (Ok tt) (Ok july_dialog)
  end.

(** The quarterly results table: the header row with the quarters, a row
    of figures, and the "Raw PDF" row with one link under each quarter. *)
Definition quarters_page : Bs4.Soup :=
  Bs4.BeautifulSoup
    [Bs4.Tag "section" [("id", "quarters")]
       [Bs4.Tag "h2" [] [Bs4.NavigableString "Quarterly Results"];
        Bs4.Tag "table" [("class", "data-table")]
          [Bs4.Tag "thead" []
             [Bs4.Tag "tr" []
                [Bs4.Tag "th" [] [];
                 Bs4.Tag "th" [] [Bs4.NavigableString "Jun 2024"];
                 Bs4.Tag "th" [] [Bs4.NavigableString "Sep 2024"]]];
           Bs4.Tag "tbody" []
             [Bs4.Tag "tr" []
                [Bs4.Tag "td" [] [Bs4.NavigableString "Sales"];
                 Bs4.Tag "td" [] [Bs4.NavigableString "100"];
                 Bs4.Tag "td" [] [Bs4.NavigableString "120"]];
              Bs4.Tag "tr" []
                [Bs4.Tag "td" [] [Bs4.NavigableString "Raw PDF"];
                 Bs4.Tag "td" []
                   [Bs4.Tag "a" [("href", "/company/source/quarter/3365/6/2024/")] []];
                 Bs4.Tag "td" []
                   [Bs4.Tag "a" [("href", "/company/source/quarter/3365/9/2024/")] []]]]]]].

(** Elements compared by their place in the tree only. *)
Definition same_place (soup : Bs4.Soup) (a b : Bs4.handle) : bool := bool_decide (a = b).

(** The Concalls column: one quarter with a transcript link, a Notes
    button, a presentation link and a recording that is not linked. *)
Definition concalls_page : Bs4.Soup :=
  Bs4.BeautifulSoup
    [Bs4.Tag "div" [("class", "documents concalls flex-column")]
       [Bs4.Tag "h3" [] [Bs4.NavigableString "Concalls"];
        Bs4.Tag "ul" [("class", "list-links")]
          [Bs4.Tag "li" [("class", "flex flex-gap-8")]
             [Bs4.Tag "div" [("class", "ink-600")] [Bs4.NavigableString " Jan 2025 "];
              Bs4.Tag "a" [("class", "concall-link"); ("href", "https://www.bseindia.com/t.pdf")]
                      [Bs4.NavigableString "Transcript"];
              Bs4.Tag "button" [("class", "concall-link plausible-event-name=Notes")]
                      [Bs4.NavigableString "Notes"];
              Bs4.Tag "a" [("class", "concall-link"); ("href", "https://www.bseindia.com/p.pdf")]
                      [Bs4.NavigableString "PPT"];
              Bs4.Tag "div" [("class", "concall-link")] [Bs4.NavigableString "REC"]]]]].

(** A save path with the suffix of a dynamic page. *)
Definition outcome_path : Py.Path := ["TCS"; "announcements"; "Outcome_of_Board_Meeting.aspx"].

(** The top of a company page: the list of ratios, with one ratio given
    twice and one item that is only a label. *)
Definition ratio (name value : string) : Bs4.PageElement :=
  Bs4.Tag "li" [("class", "flex flex-space-between")]
    [Bs4.Tag "span" [("class", "name")] [Bs4.NavigableString name];
     Bs4.Tag "span" [("class", "nowrap value")]
       [Bs4.NavigableString " "; Bs4.Tag "span" [("class", "number")] [Bs4.NavigableString value]]].

Definition top_ratios_page : Bs4.Soup :=
  Bs4.BeautifulSoup
    [Bs4.Tag "ul" [("class", "sub-nav")] [Bs4.Tag "li" [] [Bs4.NavigableString "Chart"]];
     Bs4.Tag "ul" [("id", "top-ratios")]
       [ratio " Market Cap " "11,17,144 Cr.";
        ratio "Current Price" "3,088";
        ratio "Current Price" "3,088";
        Bs4.Tag "li" [] [Bs4.NavigableString "Stock P/E: 22.7"];
        Bs4.Tag "li" [] [Bs4.NavigableString "High / Low"]]].

(** A browser in which every step of the login works and that ends on
    the dashboard. *)
Definition welcoming_browser : ScraperV1.LoginBrowser :=
  mkLoginBrowser (Ok tt) (Ok tt) (Ok tt) (Ok tt) (Ok tt) (Ok tt) (Ok tt) (Ok tt) (Ok tt)
                 (Ok "https://www.screener.in/dash/").

(* ===================================================================== *)
(** * Properties *)
(* ===================================================================== *)

Ltac run_monad :=
  unfold bindM, try_except, emit, lift, ret, raise, read_local; simpl.

(** ** The destination folder of a link *)

Lemma parent_joinpath (folder : Py.Path) (filename : string) :
  Py.parent (Py.joinpath folder filename) = folder.
Proof. unfold Py.parent, Py.joinpath. apply removelast_last. Qed.

Lemma v1_folder_other (company_folder : Py.Path) :
  ScraperV1.folders company_folder !! "other"
  = Some (Py.joinpath company_folder "other_documents").
Proof. reflexivity. Qed.

Lemma v0_folder_announcements (company_folder : Py.Path) :
  Scraper.folders company_folder !! "announcements"
  = Some (Py.joinpath company_folder "announcements").
Proof. reflexivity. Qed.

Lemma v1_destination_known (company_folder : Py.Path) (category : string) :
  ScraperV1.folders company_folder !! ScraperV1.folder_key company_folder category
  = Some (ScraperV1.destination company_folder category).
Proof.
  unfold ScraperV1.destination, ScraperV1.folder_key.
  case_bool_decide as Hin.
  - destruct Hin as [folder Hfolder]. rewrite Hfolder. reflexivity.
  - rewrite v1_folder_other. reflexivity.
Qed.

Lemma v0_destination_known (company_folder : Py.Path) (category : string) :
  Scraper.folders company_folder !! Scraper.folder_key company_folder category
  = Some (Scraper.destination company_folder category).
Proof.
  unfold Scraper.destination, Scraper.folder_key.
  case_bool_decide as Hin.
  - destruct Hin as [folder Hfolder]. rewrite Hfolder. reflexivity.
  - rewrite v0_folder_announcements. reflexivity.
Qed.

(** ** The extension of a saved file *)

Lemma icra_rewrite_flag (category full_url : string) (force : bool) :
  snd (ScraperV1.icra_rewrite category full_url force) = false ->
  ScraperV1.icra_rewrite category full_url force = (full_url, false).
Proof.
  unfold ScraperV1.icra_rewrite.
  destruct (_ && _); [ destruct (ScraperV1.icra_id _) | ];
    simpl; intros H; try discriminate; rewrite H; reflexivity.
Qed.

Lemma icra_rewrite_keeps_flag (category full_url : string) :
  snd (ScraperV1.icra_rewrite category full_url true) = true.
Proof.
  unfold ScraperV1.icra_rewrite.
  destruct (_ && _); [ destruct (ScraperV1.icra_id _) | ]; reflexivity.
Qed.

Lemma mem_eq (s : string) (ks : list string) : Py.mem s ks = true <-> In s ks.
Proof.
  unfold Py.mem. rewrite existsb_exists. split.
  - intros (k & Hk & Heq). apply String.eqb_eq in Heq. subst. exact Hk.
  - intros Hin. exists s. split; [ exact Hin | apply String.eqb_refl ].
Qed.

(** C2, as the code has it.  For a link that is neither flagged
    [force_pdf] nor rewritten to ICRA's PDF endpoint, with [e] the
    lower-cased extension of the URL's path: when [e] is absent, [.aspx]
    or [.php] the extension is [.pdf] exactly when the text [.pdf], dot
    included, occurs in the lower-cased URL, and [.html] otherwise; [.pdf]
    stays [.pdf], [.htm] and [.html] give [.html], and any other [e] is
    kept. *)
Theorem C2_extension_from_url (item : ScraperV1.DocumentLink) :
  snd (ScraperV1.icra_rewrite (category item) (url item)
         (default false (force_pdf item))) = false ->
  (In (ScraperV1.parsed_ext (url item)) [""; ".aspx"; ".php"] ->
     (Py.contains ".pdf" (Py.lower (url item)) = true ->
        ScraperV1.chosen_ext item = ".pdf")
     /\ (Py.contains ".pdf" (Py.lower (url item)) = false ->
        ScraperV1.chosen_ext item = ".html"))
  /\ (ScraperV1.parsed_ext (url item) = ".pdf" -> ScraperV1.chosen_ext item = ".pdf")
  /\ (In (ScraperV1.parsed_ext (url item)) [".htm"; ".html"] ->
        ScraperV1.chosen_ext item = ".html")
  /\ (~ In (ScraperV1.parsed_ext (url item))
          [".pdf"; ".htm"; ".html"; ".aspx"; ".php"; ""] ->
        ScraperV1.chosen_ext item = ScraperV1.parsed_ext (url item)).
Proof.
  intros Hflag. unfold ScraperV1.chosen_ext.
  rewrite (icra_rewrite_flag _ _ _ Hflag). unfold ScraperV1.decide_ext.
  set (e := ScraperV1.parsed_ext (url item)).
  split; [ | split; [ | split ] ].
  - intros [He | [He | [He | []]]]; rewrite <- He; simpl;
      split; intros ->; reflexivity.
  - intros ->. reflexivity.
  - intros [He | [He | []]]; rewrite <- He; reflexivity.
  - intros Hother.
    assert (Hmem : forall ks, incl ks [".pdf"; ".htm"; ".html"; ".aspx"; ".php"; ""] ->
                              Py.mem e ks = false).
    { intros ks Hks. destruct (Py.mem e ks) eqn:Hm; [ | reflexivity ].
      apply mem_eq in Hm. exfalso. apply Hother, Hks, Hm. }
    rewrite !Hmem; [ reflexivity | | | ];
      intros k Hk; simpl in Hk |- *; intuition auto.
Qed.

Lemma C2_extension_from_url_witness :
  ScraperV1.parsed_ext (url bse_announcement) = ".aspx"
  /\ ScraperV1.chosen_ext bse_announcement = ".html".
Proof.
  split; [ reflexivity | ].
  destruct (C2_extension_from_url bse_announcement) as ((_ & Hhtml) & _).
  - reflexivity.
  - simpl. right. left. reflexivity.
  - apply Hhtml. reflexivity.
Defined.

(** C2 as stated fails twice.  A link to a dynamic page whose URL has
    "pdf" in it but not ".pdf" gets [.html]; and an ICRA rationale link,
    which is not flagged and has no "pdf" in its URL, gets [.pdf]. *)
Lemma C2_pdf_without_dot_is_html :
  (force_pdf bse_announcement = None
   /\ ScraperV1.parsed_ext (url bse_announcement) = ".aspx"
   /\ Py.contains "pdf" (Py.lower (url bse_announcement)) = true
   /\ ScraperV1.chosen_ext bse_announcement = ".html")
  /\ (force_pdf icra_rationale = None
      /\ ScraperV1.parsed_ext (url icra_rationale) = ""
      /\ Py.contains "pdf" (Py.lower (url icra_rationale)) = false
      /\ ScraperV1.chosen_ext icra_rationale = ".pdf").
Proof. repeat split; reflexivity. Qed.

(** C3.  A link flagged [force_pdf] gets the extension [.pdf], whatever
    the extension of its URL's path. *)
Theorem C3_force_pdf_extension (item : ScraperV1.DocumentLink) :
  force_pdf item = Some true ->
  ScraperV1.chosen_ext item = ".pdf".
Proof.
  intros Hflag. unfold ScraperV1.chosen_ext. rewrite Hflag. simpl.
  pose proof (icra_rewrite_keeps_flag (category item) (url item)) as Hkeep.
  destruct (ScraperV1.icra_rewrite (category item) (url item) true) as [full_url force].
  simpl in Hkeep. subst force. reflexivity.
Qed.

Lemma C3_force_pdf_extension_witness :
  ScraperV1.parsed_ext (url quarterly_pdf) = ".aspx"
  /\ ScraperV1.chosen_ext quarterly_pdf = ".pdf".
Proof.
  split; [ reflexivity | ].
  apply (C3_force_pdf_extension quarterly_pdf). reflexivity.
Defined.

(** ** [download_file] *)

Lemma quiet_not_in (ev : event) (evs : list event) :
  forallb quiet evs = true -> quiet ev = false -> ~ In ev evs.
Proof.
  intros Hall Hev Hin. rewrite forallb_forall in Hall.
  specialize (Hall _ Hin). congruence.
Qed.

Lemma india_ratings_branch_quiet (w : World) (url : string) (save_path : Py.Path)
    (s : State) :
  exists r evs,
    ScraperV1.india_ratings_branch w url save_path s
    = (Ok r, mkState (files s) (trace s ++ evs))
    /\ forallb quiet evs = true
    /\ (r = None \/ r = Some true).
Proof.
  unfold ScraperV1.india_ratings_branch.
  destruct (_ && _).
  - run_monad. destruct (india_ratings w url _); simpl;
      rewrite <- ?app_assoc; simpl; eexists _, _; (split; [ reflexivity | ]);
      split; auto.
  - exists None, []. rewrite app_nil_r. destruct s; auto.
Qed.

Lemma crisil_branch_quiet (w : World) (url : string) (save_path : Py.Path) (s : State) :
  exists r evs,
    ScraperV1.crisil_branch w url save_path s
    = (Ok r, mkState (files s) (trace s ++ evs))
    /\ forallb quiet evs = true
    /\ (r = None \/ r = Some true).
Proof.
  unfold ScraperV1.crisil_branch.
  destruct (_ && _).
  - run_monad. destruct (crisil w url _); simpl;
      rewrite <- ?app_assoc; simpl; eexists _, _; (split; [ reflexivity | ]);
      split; auto.
  - exists None, []. rewrite app_nil_r. destruct s; auto.
Qed.

(** What [download_file] does is what the normal download does, after
    quiet events, unless a partner-site scraper succeeded. *)
Lemma download_file_cases (w : World) (url : string) (save_path : Py.Path) (s : State) :
  exists evs,
    forallb quiet evs = true
    /\ (ScraperV1.download_file_body w url save_path s
        = (Ok true, mkState (files s) (trace s ++ evs))
        \/ ScraperV1.download_file_body w url save_path s
           = ScraperV1.normal_download w url save_path
               (mkState (files s) (trace s ++ evs))).
Proof.
  unfold ScraperV1.download_file_body.
  destruct (india_ratings_branch_quiet w url save_path s) as (r1 & evs1 & E1 & Q1 & R1).
  unfold bindM. rewrite E1.
  destruct R1 as [-> | ->]; [ | exists evs1; split; [ exact Q1 | left; reflexivity ] ].
  destruct (crisil_branch_quiet w url save_path (mkState (files s) (trace s ++ evs1)))
    as (r2 & evs2 & E2 & Q2 & R2).
  simpl in E2. rewrite E2. rewrite <- app_assoc.
  exists (evs1 ++ evs2). rewrite forallb_app, Q1, Q2.
  split; [ reflexivity | ].
  destruct R2 as [-> | ->]; [ right | left ]; reflexivity.
Qed.

Lemma normal_download_failed_probe (w : World) (url : string) (save_path : Py.Path)
    (s : State) (e : string) :
  http_head w url = Raise e ->
  Py.mem (Py.lower (Py.suffix save_path)) [".pdf"; ".html"; ".htm"] = false ->
  ScraperV1.normal_download w url save_path s
  = (Raise "UnboundLocalError: is_pdf", mkState (files s) (trace s ++ [Head url])).
Proof.
  intros Hhead Hsuffix.
  unfold ScraperV1.normal_download, ScraperV1.head_probe, ScraperV1.adjust_extension.
  unfold bindM, try_except, emit, lift, ret, raise, read_local.
  rewrite Hhead. cbn [fst snd negb]. rewrite Hsuffix. reflexivity.
Qed.

(** C10.  In [scraperv1.py], a call of [download_file] whose HEAD probe
    raises, for a save path whose suffix (lower-cased, as the code compares
    it) is none of [.pdf], [.html], [.htm], returns [False]; no GET request
    is made and no file is written or removed. *)
Theorem C10_failed_probe_fails_download (w : World) (url : string)
    (save_path : Py.Path) (disk : gmap Py.Path string) (e : string) :
  In (Head url) (trace (snd (ScraperV1.download_file w url save_path (mkState disk [])))) ->
  http_head w url = Raise e ->
  Py.mem (Py.lower (Py.suffix save_path)) [".pdf"; ".html"; ".htm"] = false ->
  fst (ScraperV1.download_file w url save_path (mkState disk [])) = false
  /\ ~ In (Get url)
         (trace (snd (ScraperV1.download_file w url save_path (mkState disk []))))
  /\ files (snd (ScraperV1.download_file w url save_path (mkState disk []))) = disk.
Proof.
  intros Hprobed Hhead Hsuffix.
  unfold ScraperV1.download_file in *.
  destruct (download_file_cases w url save_path (mkState disk [])) as (evs & Q & [E | E]);
    rewrite E in *; simpl in *.
  - exfalso. exact (quiet_not_in (Head url) evs Q eq_refl Hprobed).
  - rewrite (normal_download_failed_probe _ _ _ _ e Hhead Hsuffix) in *.
    simpl in *. repeat split.
    rewrite !in_app_iff. simpl.
    intros [[Hin | [Heq | []]] | [Heq | []]]; try discriminate.
    exact (quiet_not_in (Get url) evs Q eq_refl Hin).
Qed.

Lemma adjust_extension_pure (save_path : Py.Path) (content_type : string)
    (is_pdf : option bool) :
  exists r, forall s, ScraperV1.adjust_extension save_path content_type is_pdf s = (r, s).
Proof.
  unfold ScraperV1.adjust_extension, ScraperV1.with_suffix.
  unfold read_local, bindM, ret, raise.
  destruct (negb _); [ | destruct (Py.mem _ [".aspx"; ".php"]) ];
    destruct is_pdf as [[|]|]; cbv beta iota zeta;
    repeat match goal with
           | |- context [Py.with_suffix ?p ?x] => destruct (Py.with_suffix p x)
           | |- context [if ?c then _ else _] => destruct c
           end;
    eexists; intros s; reflexivity.
Qed.

Lemma head_probe_run (w : World) (url : string) (s : State) :
  exists probe,
    ScraperV1.head_probe w url s
    = (Ok probe, mkState (files s) (trace s ++ [Head url])).
Proof.
  unfold ScraperV1.head_probe. run_monad.
  destruct (http_head w url); simpl; eexists; reflexivity.
Qed.

Lemma fetch_complete (w : World) (url : string) (save_path : Py.Path) (s : State)
    (data : string) :
  http_get w url = Ok (mkResponse data None) ->
  ScraperV1.fetch w url save_path s
  = (Ok tt, mkState (<[save_path := data]> (files s))
                    (trace s ++ [Get url; WriteFile save_path data])).
Proof.
  intros Hget. unfold ScraperV1.fetch, write_file. run_monad.
  rewrite Hget. simpl. rewrite <- app_assoc. reflexivity.
Qed.

Lemma drop_error_page_small (save_path : Py.Path) (s : State) (data : string) :
  files s !! save_path = Some data ->
  String.length data < ScraperV1.min_size ->
  Py.any_in ScraperV1.error_words (Py.lower data) = true ->
  ScraperV1.drop_error_page save_path s
  = (Ok (Some false),
     mkState (delete save_path (files s)) (trace s ++ [Unlink save_path])).
Proof.
  intros Hfile Hsmall Hwords.
  unfold ScraperV1.drop_error_page, st_size, read_text, unlink.
  unfold bindM, try_except, ret. rewrite Hfile.
  apply Nat.ltb_lt in Hsmall. rewrite Hsmall, Hfile, Hwords, Hfile. reflexivity.
Qed.

(** The normal download of a small error page: either the extension step
    raises before the GET, or the page is fetched to some path, written,
    read back and removed. *)
Lemma normal_download_error_page (w : World) (url : string) (save_path : Py.Path)
    (s : State) (data : string) :
  http_get w url = Ok (mkResponse data None) ->
  String.length data < ScraperV1.min_size ->
  Py.any_in ScraperV1.error_words (Py.lower data) = true ->
  (exists e,
     ScraperV1.normal_download w url save_path s
     = (Raise e, mkState (files s) (trace s ++ [Head url])))
  \/ (exists target,
        ScraperV1.normal_download w url save_path s
        = (Ok false,
           mkState (delete target (<[target := data]> (files s)))
                   (trace s ++ [Head url; Get url; WriteFile target data; Unlink target]))).
Proof.
  intros Hget Hsmall Hwords. unfold ScraperV1.normal_download.
  destruct (head_probe_run w url s) as (probe & Eprobe).
  destruct (adjust_extension_pure save_path (fst probe) (snd probe)) as (r & Eadjust).
  unfold bindM. rewrite Eprobe, Eadjust.
  destruct r as [target | e]; [ right; exists target | left; exists e; reflexivity ].
  rewrite (fetch_complete _ _ _ _ data Hget).
  rewrite (drop_error_page_small target _ data); simpl; auto.
  - rewrite <- !app_assoc. reflexivity.
  - apply lookup_insert_eq.
Qed.

Lemma scraper_download_error_page (w : World) (url : string) (save_path : Py.Path)
    (s : State) (data : string) :
  http_get w url = Ok (mkResponse data None) ->
  String.length data < Scraper.min_size ->
  Py.any_in ScraperV1.error_words (Py.lower data) = true ->
  Scraper.download_file w url save_path s
  = (false,
     mkState (delete save_path (<[save_path := data]> (files s)))
             (trace s ++ [Get url; WriteFile save_path data; Unlink save_path])).
Proof.
  intros Hget Hsmall Hwords.
  unfold Scraper.download_file, Scraper.download_file_body.
  unfold bindM. rewrite (fetch_complete _ _ _ _ data Hget).
  unfold st_size, read_text, unlink, ret. cbn [files trace].
  rewrite !lookup_insert_eq.
  apply Nat.ltb_lt in Hsmall. rewrite Hsmall.
  cbn [files trace]. rewrite !lookup_insert_eq, Hwords.
  cbn [files trace]. rewrite !lookup_insert_eq.
  rewrite <- !app_assoc. reflexivity.
Qed.

(** C7.  A download that arrives whole, is smaller than the script's
    size threshold (500 bytes in [scraperv1.py], 1000 in [scraper.py]) and
    whose lower-cased text has one of the error words in it, is written,
    then removed again, and [download_file] returns [False]. *)
Theorem C7_small_error_page_is_dropped (w : World) (url : string)
    (save_path target : Py.Path) (disk : gmap Py.Path string) (data : string) :
  http_get w url = Ok (mkResponse data None) ->
  Py.any_in ScraperV1.error_words (Py.lower data) = true ->
  (String.length data < ScraperV1.min_size ->
   In (WriteFile target data)
      (trace (snd (ScraperV1.download_file w url save_path (mkState disk [])))) ->
   fst (ScraperV1.download_file w url save_path (mkState disk [])) = false
   /\ files (snd (ScraperV1.download_file w url save_path (mkState disk []))) !! target
      = None
   /\ In (Unlink target)
         (trace (snd (ScraperV1.download_file w url save_path (mkState disk [])))))
  /\ (String.length data < Scraper.min_size ->
      fst (Scraper.download_file w url save_path (mkState disk [])) = false
      /\ In (WriteFile save_path data)
            (trace (snd (Scraper.download_file w url save_path (mkState disk []))))
      /\ files (snd (Scraper.download_file w url save_path (mkState disk []))) !! save_path
         = None
      /\ In (Unlink save_path)
            (trace (snd (Scraper.download_file w url save_path (mkState disk []))))).
Proof.
  intros Hget Hwords. split.
  - intros Hsmall Hwritten.
    unfold ScraperV1.download_file in *.
    destruct (download_file_cases w url save_path (mkState disk [])) as (evs & Q & [E | E]);
      rewrite E in *; cbn [fst snd files trace app] in *.
    + exfalso. exact (quiet_not_in (WriteFile target data) evs Q eq_refl Hwritten).
    + destruct (normal_download_error_page w url save_path (mkState disk evs) data
                  Hget Hsmall Hwords) as [(e & E') | (target' & E')];
        rewrite E' in *; cbn [fst snd files trace] in *.
      * exfalso. rewrite !in_app_iff in Hwritten. simpl in Hwritten.
        destruct Hwritten as [[Hin | [Heq | []]] | [Heq | []]]; try discriminate.
        exact (quiet_not_in (WriteFile target data) evs Q eq_refl Hin).
      * rewrite in_app_iff in Hwritten. simpl in Hwritten.
        destruct Hwritten as [Hin | [Heq | [Heq | [Heq | [Heq | []]]]]];
          try discriminate;
          [ exfalso; exact (quiet_not_in (WriteFile target data) evs Q eq_refl Hin) | ].
        injection Heq as ->.
        repeat split; try reflexivity; try apply lookup_delete_eq.
        rewrite in_app_iff. simpl. auto 6.
  - intros Hsmall.
    rewrite (scraper_download_error_page w url save_path _ data Hget Hsmall Hwords).
    cbn [fst snd files trace app].
    repeat split; try reflexivity; try apply lookup_delete_eq; simpl; auto 6.
Qed.

Lemma C7_small_error_page_is_dropped_witness :
  (fst (ScraperV1.download_file not_found_site notice_url notice_path (mkState ∅ []))
   = false
   /\ files (snd (ScraperV1.download_file not_found_site notice_url notice_path
                    (mkState ∅ []))) !! notice_path = None)
  /\ fst (Scraper.download_file not_found_site notice_url notice_path (mkState ∅ []))
     = false.
Proof.
  destruct (C7_small_error_page_is_dropped not_found_site notice_url notice_path
              notice_path ∅ "<h1>404 Not Found</h1>") as [Hv1 Hv0];
    [ reflexivity | reflexivity | ].
  split.
  - destruct Hv1 as (Hfalse & Hgone & _).
    + apply Nat.ltb_lt. reflexivity.
    + vm_compute. auto 6.
    + split; [ exact Hfalse | exact Hgone ].
  - destruct Hv0 as (Hfalse & _).
    + apply Nat.ltb_lt. reflexivity.
    + exact Hfalse.
Defined.

Lemma C10_failed_probe_fails_download_witness :
  fst (ScraperV1.download_file no_head_site archive_url archive_path (mkState ∅ []))
  = false
  /\ ~ In (Get archive_url)
         (trace (snd (ScraperV1.download_file no_head_site archive_url archive_path
                        (mkState ∅ [])))).
Proof.
  destruct (C10_failed_probe_fails_download no_head_site archive_url archive_path ∅
              "ConnectionError: HEAD not allowed") as (Hfalse & Hnoget & _).
  - vm_compute. auto.
  - reflexivity.
  - reflexivity.
  - split; [ exact Hfalse | exact Hnoget ].
Defined.

(** ** The table loop *)

Lemma mem_false (s : string) (ks : list string) : Py.mem s ks = false <-> ~ In s ks.
Proof.
  rewrite <- mem_eq. destruct (Py.mem s ks); split; intros H; congruence.
Qed.

Lemma append_empty_r (s : string) : s +:+ "" = s.
Proof.
  induction s as [ | c s IH ]; [ reflexivity | ].
  change (String c (s +:+ "") = String c s). f_equal. exact IH.
Qed.

Lemma append_length (a b : string) :
  String.length (a +:+ b) = String.length a + String.length b.
Proof.
  induction a as [ | c a IH ]; [ reflexivity | ].
  change (S (String.length (a +:+ b)) = S (String.length a + String.length b)).
  f_equal. exact IH.
Qed.

Lemma append_inj_r (a b s : string) : a +:+ s = b +:+ s -> a = b.
Proof.
  revert b. induction a as [ | c a IH ]; intros [ | d b ] H.
  - reflexivity.
  - exfalso. apply (f_equal String.length) in H.
    rewrite !append_length in H. simpl in H. lia.
  - exfalso. apply (f_equal String.length) in H.
    rewrite !append_length in H. simpl in H. lia.
  - change (String c (a +:+ s) = String d (b +:+ s)) in H.
    injection H as -> H. f_equal. apply IH, H.
Qed.

Lemma candidate_inj (base : string) (j k : nat) :
  candidate base j = candidate base k -> j = k.
Proof.
  destruct j as [ | j ], k as [ | k ]; simpl; intros H.
  - reflexivity.
  - exfalso. rewrite <- (append_empty_r base) in H at 1.
    apply String.app_inj in H. discriminate.
  - exfalso. rewrite <- (append_empty_r base) in H at 2.
    apply String.app_inj in H. discriminate.
  - apply String.app_inj in H. apply (String.app_inj "_") in H.
    unfold Py.str_of_nat in H. apply pretty_nat_inj in H. exact H.
Qed.

Lemma candidates_NoDup (base : string) (n : nat) :
  List.NoDup (List.map (candidate base) (seq 0 n)).
Proof.
  assert (H : forall l, List.NoDup l -> List.NoDup (List.map (candidate base) l)).
  { induction 1 as [ | x l Hx Hl IH ]; simpl; constructor; [ | exact IH ].
    rewrite in_map_iff. intros (y & Heq & Hy).
    apply candidate_inj in Heq. subst. exact (Hx Hy). }
  apply H, seq_NoDup.
Qed.

(** The loop returns the candidate it stops at; every candidate before it
    was taken; and it stops at a free candidate unless it ran out of
    tries. *)
Lemma unique_name_stops (saved : list string) (base : string) (tries k : nat) :
  exists j,
    k <= j <= k + tries
    /\ ScraperV1.unique_name tries saved base (candidate base k) (S k) = candidate base j
    /\ (forall i, k <= i < j -> In (candidate base i) saved)
    /\ (~ In (candidate base j) saved
        \/ (j = k + tries /\ In (candidate base j) saved)).
Proof.
  revert k. induction tries as [ | tries IH ]; intros k; simpl.
  - exists k. destruct (Py.mem (candidate base k) saved) eqn:Hmem.
    + apply mem_eq in Hmem. repeat split; try lia; auto; intros i Hi; lia.
    + apply mem_false in Hmem. repeat split; try lia; auto; intros i Hi; lia.
  - destruct (Py.mem (candidate base k) saved) eqn:Hmem.
    + apply mem_eq in Hmem.
      destruct (IH (S k)) as (j & Hj & Heq & Hbefore & Hstop).
      exists j. repeat split; try lia.
      * exact Heq.
      * intros i Hi. destruct (Nat.eq_dec i k) as [-> | Hne]; [ exact Hmem | ].
        apply Hbefore. lia.
      * destruct Hstop as [Hfree | [-> Htaken]]; [ left; exact Hfree | right ].
        split; [ lia | exact Htaken ].
    + apply mem_false in Hmem. exists k. repeat split; try lia; auto;
        intros i Hi; lia.
Qed.

(** The duplicate loop ends at the first candidate that is not a key of
    the dict, before its tries are used up. *)
Lemma table_name_first_free (saved : list string) (base : string) :
  exists k,
    ScraperV1.table_name saved base = candidate base k
    /\ ~ In (candidate base k) saved
    /\ (forall j, j < k -> In (candidate base j) saved).
Proof.
  unfold ScraperV1.table_name.
  destruct (unique_name_stops saved base (length saved) 0)
    as (j & Hj & Heq & Hbefore & Hstop).
  exists j. split; [ exact Heq | ].
  assert (Hall : forall i, i < j -> In (candidate base i) saved)
    by (intros i Hi; apply Hbefore; lia).
  split; [ | exact Hall ].
  destruct Hstop as [Hfree | [-> Htaken]]; [ exact Hfree | ].
  exfalso. simpl in *.
  assert (Hincl : incl (List.map (candidate base) (seq 0 (S (length saved)))) saved).
  { intros x Hx. apply in_map_iff in Hx. destruct Hx as (i & <- & Hi).
    apply in_seq in Hi.
    destruct (Nat.eq_dec i (length saved)) as [-> | Hne]; [ exact Htaken | ].
    apply Hall. lia. }
  apply NoDup_incl_length in Hincl; [ | apply candidates_NoDup ].
  rewrite length_map, length_seq in Hincl. lia.
Qed.

Lemma table_name_fresh (saved : list string) (base : string) :
  ~ In (ScraperV1.table_name saved base) saved.
Proof.
  destruct (table_name_first_free saved base) as (k & -> & Hfree & _). exact Hfree.
Qed.

Lemma table_name_suffix_1 (saved : list string) (base : string) :
  In base saved -> ~ In (base +:+ "_1") saved ->
  ScraperV1.table_name saved base = base +:+ "_1".
Proof.
  intros Htaken Hfree.
  destruct (table_name_first_free saved base) as (k & -> & Hk & Hbefore).
  destruct k as [ | [ | k ] ].
  - exfalso. exact (Hk Htaken).
  - reflexivity.
  - exfalso. apply Hfree. exact (Hbefore 1 ltac:(lia)).
Qed.

Lemma table_step_small (w : World) (soup : Bs4.Soup) (company_folder : Py.Path)
    (tables_saved : list (string * (nat * nat))) (s : State) (idx : nat)
    (table : Bs4.handle) (df : DataFrame) :
  read_html w table = Ok df ->
  fst (shape df) < 2 \/ snd (shape df) < 2 ->
  ScraperV1.table_step w soup company_folder (tables_saved, s) (idx, table)
  = (tables_saved, s).
Proof.
  intros Hread Hsmall. unfold ScraperV1.table_step. rewrite Hread.
  destruct Hsmall as [H | H]; apply Nat.ltb_lt in H; rewrite H;
    rewrite ?orb_true_r; reflexivity.
Qed.

(** C4.  A table that parses to a frame with fewer than two rows or fewer
    than two columns changes nothing: the saved-tables index, the files on
    disk and the trace of writes are what they were before its turn of the
    loop, in both scripts. *)
Theorem C4_small_table_leaves_no_record (w : World) (soup : Bs4.Soup)
    (company_folder : Py.Path) (tables_saved : list (string * (nat * nat)))
    (s : State) (idx : nat) (table : Bs4.handle) (df : DataFrame) :
  read_html w table = Ok df ->
  fst (shape df) < 2 \/ snd (shape df) < 2 ->
  ScraperV1.table_step w soup company_folder (tables_saved, s) (idx, table)
  = (tables_saved, s)
  /\ Scraper.table_step w soup company_folder (tables_saved, s) (idx, table)
     = (tables_saved, s).
Proof.
  intros Hread Hsmall. split.
  - exact (table_step_small w soup company_folder tables_saved s idx table df Hread Hsmall).
  - unfold Scraper.table_step. rewrite Hread.
    destruct Hsmall as [H | H]; apply Nat.ltb_lt in H; rewrite H;
      rewrite ?orb_true_r; reflexivity.
Qed.

Lemma csv_path_inj (company_folder : Py.Path) (a b : string) :
  csv_path company_folder a = csv_path company_folder b -> a = b.
Proof.
  unfold csv_path, Py.joinpath. intros H.
  apply app_inv_head in H. injection H as H. exact (append_inj_r _ _ _ H).
Qed.

Lemma dict_set_fresh {V} (d : list (string * V)) (k : string) (v : V) :
  ~ In k (ScraperV1.dict_keys d) ->
  ScraperV1.dict_set d k v = d ++ [(k, v)].
Proof.
  intros Hfresh. unfold ScraperV1.dict_set.
  apply mem_false in Hfresh. rewrite Hfresh. reflexivity.
Qed.

Lemma table_step_invariant (w : World) (soup : Bs4.Soup) (company_folder : Py.Path)
    (st : list (string * (nat * nat)) * State) (it : nat * Bs4.handle) :
  tables_invariant company_folder st ->
  tables_invariant company_folder (ScraperV1.table_step w soup company_folder st it).
Proof.
  destruct st as [tables_saved s], it as [idx table]. intros [Hnodup Hwritten].
  unfold ScraperV1.table_step.
  destruct (read_html w table) as [df | e].
  - destruct (_ || _); [ split; assumption | ].
    set (name := ScraperV1.table_name _ _).
    assert (Hfresh : ~ In name (ScraperV1.dict_keys tables_saved))
      by apply table_name_fresh.
    rewrite (dict_set_fresh _ _ _ Hfresh).
    unfold tables_invariant, ScraperV1.dict_keys in *. simpl in *.
    rewrite !map_app. simpl. split.
    + apply List.NoDup_app; auto.
      * constructor; [ intros [] | constructor ].
      * intros x Hx [<- | []]. exact (Hfresh Hx).
    + unfold written in *. rewrite flat_map_app, Hwritten. reflexivity.
  - unfold tables_invariant, written in *. simpl in *.
    rewrite flat_map_app, Hwritten. simpl. rewrite app_nil_r. split; auto.
Qed.

Lemma extract_tables_invariant (w : World) (soup : Bs4.Soup) (company_folder : Py.Path)
    (all_tables : list Bs4.handle) (disk : gmap Py.Path string) :
  tables_invariant company_folder
    (ScraperV1.extract_tables w soup company_folder all_tables (mkState disk [])).
Proof.
  unfold ScraperV1.extract_tables.
  assert (H : forall (l : list (nat * Bs4.handle)) st,
             tables_invariant company_folder st ->
             tables_invariant company_folder
               (fold_left (ScraperV1.table_step w soup company_folder) l st)).
  { induction l as [ | it l IH ]; intros st Hst; simpl; [ exact Hst | ].
    apply IH, table_step_invariant, Hst. }
  apply H. split; [ constructor | reflexivity ].
Qed.

Lemma table_step_saved (w : World) (soup : Bs4.Soup) (company_folder : Py.Path)
    (tables_saved : list (string * (nat * nat))) (s : State) (idx : nat)
    (table : Bs4.handle) (df : DataFrame) (name : string) :
  read_html w table = Ok df ->
  2 <= fst (shape df) /\ 2 <= snd (shape df) ->
  ScraperV1.table_name (ScraperV1.dict_keys tables_saved)
    (ScraperV1.base_name (ScraperV1.extract_section_heading soup table) df idx) = name ->
  ScraperV1.table_step w soup company_folder (tables_saved, s) (idx, table)
  = (ScraperV1.dict_set tables_saved name (shape df),
     mkState (<[csv_path company_folder name := to_csv w df]> (files s))
             (trace s ++ [WriteFile (csv_path company_folder name) (to_csv w df);
                          Print ("  Saved " +:+ name)])).
Proof.
  intros Hread [Hrows Hcols] <-. unfold ScraperV1.table_step. rewrite Hread.
  apply Nat.ltb_ge in Hrows, Hcols. rewrite Hrows, Hcols. reflexivity.
Qed.

Lemma table_step_on_disk (w : World) (soup : Bs4.Soup) (company_folder : Py.Path)
    (st : list (string * (nat * nat)) * State) (it : nat * Bs4.handle) :
  on_disk company_folder st ->
  on_disk company_folder (ScraperV1.table_step w soup company_folder st it).
Proof.
  destruct st as [tables_saved s], it as [idx table]. unfold on_disk. intros Hdisk.
  unfold ScraperV1.table_step.
  destruct (read_html w table) as [df | e]; [ | exact Hdisk ].
  destruct (_ || _); [ exact Hdisk | ].
  set (name := ScraperV1.table_name _ _).
  assert (Hfresh : ~ In name (ScraperV1.dict_keys tables_saved))
    by apply table_name_fresh.
  rewrite (dict_set_fresh _ _ _ Hfresh).
  cbn [fst snd files]. unfold ScraperV1.dict_keys. rewrite map_app.
  intros saved Hsaved. apply lookup_insert_is_Some.
  destruct (decide (Py.joinpath (ScraperV1.tables_folder company_folder) (name +:+ ".csv")
                    = csv_path company_folder saved)) as [Heq | Hne]; [ left; exact Heq | ].
  right. split; [ exact Hne | ].
  apply in_app_or in Hsaved. destruct Hsaved as [Hsaved | [<- | []]].
  - exact (Hdisk saved Hsaved).
  - exfalso. apply Hne. reflexivity.
Qed.

Lemma extract_tables_on_disk (w : World) (soup : Bs4.Soup) (company_folder : Py.Path)
    (all_tables : list Bs4.handle) (disk : gmap Py.Path string) :
  on_disk company_folder
    (ScraperV1.extract_tables w soup company_folder all_tables (mkState disk [])).
Proof.
  unfold ScraperV1.extract_tables.
  assert (H : forall (l : list (nat * Bs4.handle)) st,
             on_disk company_folder st ->
             on_disk company_folder
               (fold_left (ScraperV1.table_step w soup company_folder) l st)).
  { induction l as [ | it l IH ]; intros st Hst; simpl; [ exact Hst | ].
    apply IH, table_step_on_disk, Hst. }
  apply H. intros saved [].
Qed.

(** C5.  The name a table is saved under is the first free one among its
    base name and the base name suffixed [_1], [_2], ...  Two tables with
    one base name are saved as the base name and the base name [_1]: these
    are the keys of the index, the CSV files written are those of the two
    names, in this order, and after the loop the file of the base name
    holds the first table and the file of the base name [_1] the second.
    In every run the names in the index are pairwise distinct, the CSV
    files written are those of the names, one each and in the order of the
    names, and each of them is on disk after the loop. *)
Theorem C5_duplicate_names_get_suffixes (w : World) (soup : Bs4.Soup)
    (company_folder : Py.Path) (first second : Bs4.handle) (df1 df2 : DataFrame)
    (name : string) (disk : gmap Py.Path string) :
  read_html w first = Ok df1 ->
  read_html w second = Ok df2 ->
  2 <= fst (shape df1) /\ 2 <= snd (shape df1) ->
  2 <= fst (shape df2) /\ 2 <= snd (shape df2) ->
  ScraperV1.base_name (ScraperV1.extract_section_heading soup first) df1 0 = name ->
  ScraperV1.base_name (ScraperV1.extract_section_heading soup second) df2 1 = name ->
  (ScraperV1.dict_keys
     (fst (ScraperV1.extract_tables w soup company_folder [first; second]
             (mkState disk [])))
   = [name; name +:+ "_1"]
   /\ written (trace (snd (ScraperV1.extract_tables w soup company_folder [first; second]
                             (mkState disk []))))
      = [csv_path company_folder name; csv_path company_folder (name +:+ "_1")]
   /\ In (WriteFile (csv_path company_folder (name +:+ "_1")) (to_csv w df2))
         (trace (snd (ScraperV1.extract_tables w soup company_folder [first; second]
                        (mkState disk []))))
   /\ files (snd (ScraperV1.extract_tables w soup company_folder [first; second]
                    (mkState disk [])))
      !! csv_path company_folder name = Some (to_csv w df1)
   /\ files (snd (ScraperV1.extract_tables w soup company_folder [first; second]
                    (mkState disk [])))
      !! csv_path company_folder (name +:+ "_1") = Some (to_csv w df2))
  /\ (forall (saved : list string) (base : string),
        exists k,
          ScraperV1.table_name saved base = candidate base k
          /\ ~ In (candidate base k) saved
          /\ (forall j, j < k -> In (candidate base j) saved))
  /\ (forall all_tables : list Bs4.handle,
        List.NoDup
          (ScraperV1.dict_keys
             (fst (ScraperV1.extract_tables w soup company_folder all_tables
                     (mkState disk []))))
        /\ List.NoDup
             (written
                (trace (snd (ScraperV1.extract_tables w soup company_folder all_tables
                               (mkState disk [])))))
        /\ written
             (trace (snd (ScraperV1.extract_tables w soup company_folder all_tables
                            (mkState disk []))))
           = List.map (csv_path company_folder)
               (ScraperV1.dict_keys
                  (fst (ScraperV1.extract_tables w soup company_folder all_tables
                          (mkState disk []))))
        /\ (forall saved,
              In saved
                 (ScraperV1.dict_keys
                    (fst (ScraperV1.extract_tables w soup company_folder all_tables
                            (mkState disk [])))) ->
              is_Some
                (files (snd (ScraperV1.extract_tables w soup company_folder all_tables
                               (mkState disk [])))
                 !! csv_path company_folder saved))).
Proof.
  intros Hread1 Hread2 Hbig1 Hbig2 Hname1 Hname2.
  split; [ | split ].
  - unfold ScraperV1.extract_tables.
    change (imap pair [first; second]) with [(0, first); (1, second)].
    cbn [fold_left].
    rewrite (table_step_saved w soup company_folder [] (mkState disk []) 0 first df1 name
               Hread1 Hbig1)
      by (rewrite Hname1; reflexivity).
    change (ScraperV1.dict_set [] name (shape df1)) with [(name, shape df1)].
    assert (Hsuffix : ScraperV1.table_name [name] name = name +:+ "_1").
    { apply table_name_suffix_1; [ left; reflexivity | ].
      intros [Heq | []]. symmetry in Heq.
      apply (candidate_inj name 1 0) in Heq. discriminate. }
    rewrite (table_step_saved w soup company_folder _ _ 1 second df2 (name +:+ "_1")
               Hread2 Hbig2)
      by (rewrite Hname2; exact Hsuffix).
    assert (Hother : name <> name +:+ "_1").
    { intros Heq. apply (candidate_inj name 0 1) in Heq. discriminate. }
    cbn [fst snd files trace].
    split; [ | split; [ | split; [ | split ] ] ].
    + rewrite dict_set_fresh; [ reflexivity | ].
      intros [Heq | []]. exact (Hother Heq).
    + reflexivity.
    + simpl. auto.
    + rewrite lookup_insert_ne
        by (intros Heq; apply csv_path_inj in Heq; exact (Hother (eq_sym Heq))).
      apply lookup_insert_eq.
    + apply lookup_insert_eq.
  - intros saved base. apply table_name_first_free.
  - intros all_tables.
    destruct (extract_tables_invariant w soup company_folder all_tables disk)
      as [Hkeys Hwritten].
    split; [ exact Hkeys | ].
    split; [ | split; [ exact Hwritten | apply extract_tables_on_disk ] ].
    rewrite Hwritten.
    clear Hwritten. induction Hkeys as [ | x l Hx Hl IH ]; simpl; constructor; auto.
    rewrite in_map_iff. intros (y & Heq & Hy).
    apply csv_path_inj in Heq. subst. exact (Hx Hy).
Qed.

Lemma C4_small_table_leaves_no_record_witness :
  shape note_frame = (1, 2)
  /\ ScraperV1.table_step ratios_world ratios_page ["TCS"] ([], mkState ∅ [])
       (0, Bs4.Node [0; 1])
     = ([], mkState ∅ []).
Proof.
  split; [ reflexivity | ].
  destruct (C4_small_table_leaves_no_record ratios_world ratios_page ["TCS"] []
              (mkState ∅ []) 0 (Bs4.Node [0; 1]) note_frame) as [Hv1 _].
  - reflexivity.
  - left. simpl. lia.
  - exact Hv1.
Defined.

Lemma C5_duplicate_names_get_suffixes_witness :
  ScraperV1.dict_keys
    (fst (ScraperV1.extract_tables ratios_world ratios_page ["TCS"]
            [Bs4.Node [0; 2]; Bs4.Node [0; 3]] (mkState ∅ [])))
  = ["Ratios"; "Ratios_1"]
  /\ written
       (trace (snd (ScraperV1.extract_tables ratios_world ratios_page ["TCS"]
                      [Bs4.Node [0; 2]; Bs4.Node [0; 3]] (mkState ∅ []))))
     = [["TCS"; "financial_tables"; "Ratios.csv"];
        ["TCS"; "financial_tables"; "Ratios_1.csv"]].
Proof.
  destruct (C5_duplicate_names_get_suffixes ratios_world ratios_page ["TCS"]
              (Bs4.Node [0; 2]) (Bs4.Node [0; 3]) ratios_frame ratios_frame "Ratios" ∅)
    as [(Hnames & Hwritten & _) _].
  - reflexivity.
  - reflexivity.
  - simpl. lia.
  - simpl. lia.
  - reflexivity.
  - reflexivity.
  - split; [ exact Hnames | exact Hwritten ].
Defined.

(** ** The document classifier *)

Lemma find_none_of {A} (f : A -> bool) (l : list A) :
  Forall (fun x => f x = false) l -> List.find f l = None.
Proof.
  induction 1 as [ | x l Hx Hl IH ]; simpl; [ reflexivity | ].
  rewrite Hx. exact IH.
Qed.

(** C8.  On a page where no [h2], [h3] or [h4] has "documents" in its
    text, and on a page whose Documents container has no [h3] or [h4]
    below it, [extract_documents_links] returns the empty list, prints one
    diagnostic line and does not raise. *)
Theorem C8_no_documents_no_links (urljoin : string -> string -> result string)
    (soup : Bs4.Soup) (base_url : string) :
  (Forall (fun tag => Py.contains "documents"
                        (Py.lower (Bs4.get_text_strip soup tag)) = false)
          (Bs4.find_all soup (Bs4.Node []) ["h2"; "h3"; "h4"] false) ->
   ScraperV1.extract_documents_links urljoin soup base_url
   = (["  [Docs] Documents heading not found"], Ok []))
  /\ (forall heading container,
        ScraperV1.docs_heading soup = Some heading ->
        ScraperV1.best_container 10 soup heading None 0 = Some container ->
        Bs4.find_all soup container ["h3"; "h4"] false = [] ->
        ScraperV1.extract_documents_links urljoin soup base_url
        = (["  [Docs] No document sections found under Documents"], Ok [])).
Proof.
  split.
  - intros Hnone. unfold ScraperV1.extract_documents_links, ScraperV1.docs_heading.
    rewrite (find_none_of _ _ Hnone). reflexivity.
  - intros heading container Hheading Hcontainer Hsub.
    unfold ScraperV1.extract_documents_links.
    rewrite Hheading, Hcontainer.
    unfold ScraperV1.collect_sections. rewrite Hsub. reflexivity.
Qed.

Lemma C8_no_documents_no_links_witness :
  ScraperV1.extract_documents_links (fun _ href => Ok href) plain_page
    "https://www.screener.in/company/TCS/consolidated/"
  = (["  [Docs] Documents heading not found"], Ok [])
  /\ ScraperV1.extract_documents_links (fun _ href => Ok href) bare_documents_page
       "https://www.screener.in/company/TCS/consolidated/"
     = (["  [Docs] No document sections found under Documents"], Ok []).
Proof.
  split.
  - apply (C8_no_documents_no_links (fun _ href => Ok href) plain_page).
    vm_compute. repeat constructor.
  - apply (proj2 (C8_no_documents_no_links (fun _ href => Ok href) bare_documents_page _)
             (Bs4.Node [0; 0; 0; 0]) (Bs4.Node [0; 0; 0])); reflexivity.
Defined.

Lemma find_all_href (soup : Bs4.Soup) (h a : Bs4.handle) (names : list string) :
  In a (Bs4.find_all soup h names true) ->
  exists href, Bs4.get_attr soup a "href" = Some href.
Proof.
  unfold Bs4.find_all. rewrite filter_In. intros [_ Hmatch].
  destruct (Bs4.tag_name soup a); [ | discriminate ].
  apply andb_true_iff in Hmatch. destruct Hmatch as [_ Hhref]. simpl in Hhref.
  destruct (Bs4.get_attr soup a "href") as [href | ]; [ | discriminate ].
  exists href. reflexivity.
Qed.

Lemma collect_outcome {A B} (f : A -> result (option B)) (p : A -> bool)
    (j : A -> result string) (g : A -> string -> B) (l : list A) :
  (forall x, In x l ->
     f x = if p x then match j x with
                       | Ok u => Ok (Some (g x u))
                       | Raise e => Raise e
                       end
           else Ok None) ->
  match collect f l with
  | Ok bs => List.Forall2 (fun x b => exists u, j x = Ok u /\ b = g x u) (List.filter p l) bs
  | Raise e =>
      exists before x rest,
        List.filter p l = before ++ x :: rest
        /\ List.Forall (fun y => exists u, j y = Ok u) before
        /\ j x = Raise e
  end.
Proof.
  induction l as [ | x l IH ]; intros Hf; [ constructor | ].
  cbn [collect List.filter]. rewrite (Hf x (or_introl eq_refl)).
  pose proof (IH (fun y Hy => Hf y (or_intror Hy))) as IH'. clear IH.
  destruct (p x).
  - destruct (j x) as [u | e] eqn:Hj; [ | exists [], x, (List.filter p l); auto ].
    destruct (collect f l) as [bs | e]; cbn.
    + constructor; [ exists u; auto | exact IH' ].
    + destruct IH' as (before & y & rest & Heq & Hbefore & Hy).
      exists (x :: before), y, rest. rewrite Heq.
      split; [ reflexivity | ]. split; [ constructor; eauto | exact Hy ].
  - destruct (collect f l) as [bs | e]; cbn; exact IH'.
Qed.


Lemma Forall2_right {A B} (R : A -> B -> Prop) (l : list A) (k : list B) (b : B) :
  List.Forall2 R l k -> In b k -> exists a, In a l /\ R a b.
Proof.
  induction 1 as [ | x y l k Hxy _ IH ]; intros Hin; [ destruct Hin | ].
  destruct Hin as [-> | Hin].
  - exists x. split; [ left; reflexivity | exact Hxy ].
  - destruct (IH Hin) as (a & Ha & Hab). exists a. split; [ right; exact Ha | exact Hab ].
Qed.

Lemma section_links_href (soup : Bs4.Soup) (sections : list (string * Bs4.handle))
    (ca : string * Bs4.handle) :
  In ca (ScraperV1.section_links soup sections) ->
  exists href, Bs4.get_attr soup (snd ca) "href" = Some href.
Proof.
  unfold ScraperV1.section_links. rewrite in_flat_map.
  intros (cs & _ & Hin). apply in_map_iff in Hin. destruct Hin as (a & <- & Ha).
  exact (find_all_href soup (snd cs) a ["a"] Ha).
Qed.

Lemma extract_documents_links_outcome (urljoin : string -> string -> result string)
    (soup : Bs4.Soup) (base_url : string) :
  outcome urljoin (fst (document_sections soup)) base_url
    (List.filter (fun ca => kept (fst (document_sections soup)) (snd ca))
                 (document_links soup))
    (snd (ScraperV1.extract_documents_links urljoin soup base_url)).
Proof.
  unfold ScraperV1.extract_documents_links, document_links, document_sections.
  destruct (ScraperV1.docs_heading soup) as [heading | ]; [ | constructor ].
  destruct (ScraperV1.best_container 10 soup heading None 0) as [container | ];
    [ | constructor ].
  destruct (ScraperV1.collect_sections soup container) as [after sections].
  cbn [fst snd].
  pose proof (collect_outcome
                (fun ca => ScraperV1.link_record urljoin after base_url (fst ca) (snd ca))
                (fun ca => kept after (snd ca)) (joined urljoin after base_url)
                (link_doc after) (ScraperV1.section_links after sections)) as Hrun.
  destruct sections as [ | section sections ]; [ constructor | ].
  match type of Hrun with
  | _ -> match ?run with _ => _ end => destruct run as [docs | e]
  end; apply Hrun; clear Hrun;
    intros ca Hca; destruct (section_links_href after _ ca Hca) as (href & Hhref);
    unfold ScraperV1.link_record, joined, link_doc, kept; rewrite Hhref;
    destruct (Py.is_empty (Bs4.get_text_strip after (snd ca)));
    destruct (Py.mem (Py.lower (Bs4.get_text_strip after (snd ca))) ScraperV1.navigation);
    reflexivity.
Qed.

Lemma filter_all {A} (l : list A) : List.filter (fun _ => true) l = l.
Proof. induction l as [ | x l IH ]; simpl; [ | rewrite IH ]; reflexivity. Qed.

Lemma scraper_links_outcome (urljoin : string -> string -> result string)
    (soup : Bs4.Soup) (base_url : string) (heading container : Bs4.handle) :
  ScraperV1.docs_heading soup = Some heading ->
  Scraper.find_container 4 soup heading = Some container ->
  outcome urljoin soup base_url (Scraper.column_links soup (Scraper.columns soup container))
    (snd (Scraper.extract_documents_links urljoin soup base_url)).
Proof.
  intros Hheading Hcontainer.
  unfold Scraper.extract_documents_links. rewrite Hheading, Hcontainer.
  generalize (Scraper.columns soup container). intros cols.
  pose proof (collect_outcome
                (fun ca => Scraper.link_record urljoin soup base_url (fst ca) (snd ca))
                (fun _ => true) (joined urljoin soup base_url)
                (link_doc soup) (Scraper.column_links soup cols)) as Hrun.
  rewrite filter_all in Hrun.
  destruct cols as [ | col cols ]; [ constructor | ].
  match type of Hrun with
  | _ -> match ?run with _ => _ end => destruct run as [docs | e]
  end; apply Hrun; clear Hrun;
    intros ca Hca; unfold Scraper.column_links in Hca; rewrite in_flat_map in Hca;
    destruct Hca as (tc & _ & Hin); apply in_map_iff in Hin;
    destruct Hin as (a & <- & Ha);
    destruct (find_all_href soup (snd tc) a ["a"] Ha) as (href & Hhref);
    unfold Scraper.link_record, joined, link_doc; cbn [fst snd]; rewrite Hhref; reflexivity.
Qed.

Lemma is_empty_false (s : string) : Py.is_empty s = false <-> s <> "".
Proof. destruct s; simpl; split; intros H; congruence. Qed.






(** With a "Show More" link in each of the two columns, four records
    are returned. *)
Example show_more_in_each_column :
  List.map (fun d => (category d, text d))
    (match snd (ScraperV1.extract_documents_links (fun _ href => Ok href) show_more_page
                  company_url) with
     | Ok docs => docs
     | Raise _ => []
     end)
  = [("announcements", "Board Meeting Outcome"); ("announcements", "Press Release");
     ("annual", "Financial Year 2024"); ("annual", "Financial Year 2023")].
Proof. vm_compute. reflexivity. Qed.

(** A node is in one place at a time: the link after the inner heading
    has left the outer section when the links are read, and is returned
    once, with the category of the inner heading. *)
Example nested_heading_takes_its_links :
  List.map (fun d => (category d, text d))
    (match snd (ScraperV1.extract_documents_links (fun _ href => Ok href)
                  nested_heading_page company_url) with
     | Ok docs => docs
     | Raise _ => []
     end)
  = [("annual", "Financial Year 2024"); ("credit_ratings", "Rating update")].
Proof. vm_compute. reflexivity. Qed.

(** An address that [urljoin] cannot parse ends the function: the record
    of the link before it is lost with it. *)
Example malformed_href_raises :
  ScraperV1.extract_documents_links strict_urljoin malformed_link_page company_url
  = (["  [Docs] Found 1 document sections (excluding concalls)"],
     Raise "ValueError: Invalid IPv6 URL").
Proof. vm_compute. reflexivity. Qed.

(** ** The concall notes loop *)

Lemma click_runs (t : ScraperV1.Turn) :
  click t = Ok tt \/ js_click t = Ok tt ->
  exists evs,
    written evs = []
    /\ forall s,
         try_except (lift (click t))
           (fun e =>
            let* _ := emit (Print ("    [Concalls] Direct click failed: " +:+ e
                                   +:+ "; trying JS click")) in
            lift (js_click t)) s
         = (Ok tt, mkState (files s) (trace s ++ evs)).
Proof.
  intros Hclick. unfold try_except, lift, bindM, emit.
  destruct (click t) as [[] | e1] eqn:Eclick.
  - exists []. split; [ reflexivity | ].
    intros [disk tr]. simpl. rewrite app_nil_r. reflexivity.
  - destruct Hclick as [Hc | Hjs]; [ discriminate | ].
    rewrite Hjs. eexists. split; [ | intros s; reflexivity ]. reflexivity.
Qed.

(** A turn whose dialog does not appear: nothing is written, and the loop
    goes on. *)
Lemma notes_turn_timeout (notes_folder : Py.Path) (idx : nat) (t : ScraperV1.Turn)
    (e : string) :
  activated t idx ->
  dialog t = Raise e ->
  exists evs,
    written evs = []
    /\ forall s,
         ScraperV1.notes_turn notes_folder idx t s
         = (Ok true, mkState (files s) (trace s ++ evs)).
Proof.
  intros ((n & Hbuttons & Hidx) & Hscroll & Hclick) Hdialog.
  destruct (click_runs t Hclick) as (evs & Hevs & Hrun).
  exists ([Print ("    [Concalls] Clicking Notes button #" +:+ Py.str_of_nat (idx + 1)
                  +:+ ": " +:+ ScraperV1.concall_title t idx)]
          ++ evs
          ++ [Print ("    [Concalls] Modal did not appear after clicking Notes #"
                     +:+ Py.str_of_nat (idx + 1) +:+ ": " +:+ e)]).
  split.
  - unfold written in *. rewrite !flat_map_app, Hevs. reflexivity.
  - intros s. unfold ScraperV1.notes_turn.
    unfold try_except at 1. unfold bindM at 1. unfold lift at 1. rewrite Hbuttons.
    apply Nat.leb_gt in Hidx. rewrite Hidx.
    unfold bindM at 1. unfold emit at 1.
    unfold bindM at 1. unfold lift at 1. rewrite Hscroll.
    unfold bindM at 1. rewrite Hrun. rewrite Hdialog.
    unfold bindM, emit, ret. cbn [files trace].
    rewrite <- !app_assoc. reflexivity.
Qed.

(** A turn whose dialog opens with a text that is not empty: the text is
    written under the title of the entry, and the loop goes on. *)
Lemma notes_turn_saves (notes_folder : Py.Path) (idx : nat) (t : ScraperV1.Turn)
    (dlg : ScraperV1.Dialog) (note : string) :
  activated t idx ->
  dialog t = Ok dlg ->
  ScraperV1.dialog_text dlg = Ok note ->
  note <> "" ->
  exists before after,
    written before = [] /\ written after = []
    /\ forall s,
         ScraperV1.notes_turn notes_folder idx t s
         = (Ok true,
            mkState
              (<[ScraperV1.notes_path notes_folder (ScraperV1.concall_title t idx) := note]>
                 (files s))
              (trace s ++ before
               ++ [WriteFile (ScraperV1.notes_path notes_folder
                                (ScraperV1.concall_title t idx)) note]
               ++ after)).
Proof.
  intros ((n & Hbuttons & Hidx) & Hscroll & Hclick) Hdialog Htext Hnote.
  destruct (click_runs t Hclick) as (evs & Hevs & Hrun).
  exists ([Print ("    [Concalls] Clicking Notes button #" +:+ Py.str_of_nat (idx + 1)
                  +:+ ": " +:+ ScraperV1.concall_title t idx)] ++ evs).
  eexists. split; [ | split ].
  - unfold written in *. rewrite !flat_map_app, Hevs. reflexivity.
  - shelve.
  - intros s. unfold ScraperV1.notes_turn.
    unfold try_except at 1. unfold bindM at 1. unfold lift at 1. rewrite Hbuttons.
    apply Nat.leb_gt in Hidx. rewrite Hidx.
    unfold bindM at 1. unfold emit at 1.
    unfold bindM at 1. unfold lift at 1. rewrite Hscroll.
    unfold bindM at 1. rewrite Hrun. rewrite Hdialog.
    unfold bindM at 1. unfold lift at 1. rewrite Htext.
    apply is_empty_false in Hnote. rewrite Hnote.
    unfold bindM, emit, ret, write_file. cbn [files trace].
    rewrite <- !app_assoc. cbn [app]. reflexivity.
  Unshelve. reflexivity.
Qed.

Lemma notes_loop_step (notes_folder : Py.Path) (browser : nat -> ScraperV1.Turn)
    (idx todo : nat) (s s' : State) :
  ScraperV1.notes_turn notes_folder idx (browser idx) s = (Ok true, s') ->
  ScraperV1.notes_loop notes_folder browser idx (S todo) s
  = ScraperV1.notes_loop notes_folder browser (S idx) todo s'.
Proof.
  intros Hturn. cbn [ScraperV1.notes_loop]. unfold bindM. rewrite Hturn. reflexivity.
Qed.

Lemma written_app (evs evs' : list event) :
  written (evs ++ evs') = written evs ++ written evs'.
Proof. unfold written. apply flat_map_app. Qed.

(** C9.  A turn of the notes loop in which the dialog does not become
    visible writes nothing, and the loop goes on with the next trigger.
    With three triggers of which the second times out, the notes of the
    first and the third are written, in this order and nothing else, and
    are on disk at the end (the first unless the third has the same file
    name and replaced it). *)
Theorem C9_timeout_skips_only_that_note (company_folder : Py.Path)
    (browser : nat -> ScraperV1.Turn) (disk : gmap Py.Path string)
    (dlg1 dlg3 : ScraperV1.Dialog) (note1 note3 e : string) :
  activated (browser 0) 0 -> dialog (browser 0) = Ok dlg1 ->
  ScraperV1.dialog_text dlg1 = Ok note1 -> note1 <> "" ->
  activated (browser 1) 1 -> dialog (browser 1) = Raise e ->
  activated (browser 2) 2 -> dialog (browser 2) = Ok dlg3 ->
  ScraperV1.dialog_text dlg3 = Ok note3 -> note3 <> "" ->
  let notes_folder := Py.joinpath company_folder "concall_notes" in
  let path1 := ScraperV1.notes_path notes_folder (ScraperV1.concall_title (browser 0) 0) in
  let path3 := ScraperV1.notes_path notes_folder (ScraperV1.concall_title (browser 2) 2) in
  let final :=
    snd (ScraperV1.extract_concall_notes (Ok 3) browser company_folder (mkState disk [])) in
  written (trace final) = [path1; path3]
  /\ In (WriteFile path1 note1) (trace final)
  /\ In (WriteFile path3 note3) (trace final)
  /\ files final !! path3 = Some note3
  /\ (path1 <> path3 -> files final !! path1 = Some note1)
  /\ (forall idx todo s e',
        activated (browser idx) idx -> dialog (browser idx) = Raise e' ->
        exists evs,
          written evs = []
          /\ ScraperV1.notes_loop notes_folder browser idx (S todo) s
             = ScraperV1.notes_loop notes_folder browser (S idx) todo
                 (mkState (files s) (trace s ++ evs))).
Proof.
  intros Hact1 Hdlg1 Htext1 Hnote1 Hact2 Hdlg2 Hact3 Hdlg3 Htext3 Hnote3.
  intros notes_folder path1 path3 final.
  destruct (notes_turn_saves notes_folder 0 (browser 0) dlg1 note1 Hact1 Hdlg1 Htext1 Hnote1)
    as (b1 & a1 & Hb1 & Ha1 & Hturn1).
  destruct (notes_turn_timeout notes_folder 1 (browser 1) e Hact2 Hdlg2)
    as (evs2 & Hevs2 & Hturn2).
  destruct (notes_turn_saves notes_folder 2 (browser 2) dlg3 note3 Hact3 Hdlg3 Htext3 Hnote3)
    as (b3 & a3 & Hb3 & Ha3 & Hturn3).
  assert (Hfinal :
    final
    = mkState (<[path3 := note3]> (<[path1 := note1]> disk))
        ((([Print "  [Concalls] Extracting Notes from modal/offcanvas...";
            Print ("  [Concalls] Found " +:+ Py.str_of_nat 3
                   +:+ " 'Notes' buttons (button.concall-link)")]
           ++ (b1 ++ [WriteFile path1 note1] ++ a1))
          ++ evs2)
         ++ (b3 ++ [WriteFile path3 note3] ++ a3))).
  { subst final. unfold ScraperV1.extract_concall_notes.
    fold notes_folder. unfold bindM at 1. unfold emit at 1.
    unfold bindM at 1. unfold emit at 1. cbn [files trace app].
    rewrite (notes_loop_step _ _ _ _ _ _ (Hturn1 _)).
    rewrite (notes_loop_step _ _ _ _ _ _ (Hturn2 _)).
    rewrite (notes_loop_step _ _ _ _ _ _ (Hturn3 _)).
    reflexivity. }
  split; [ | split; [ | split; [ | split; [ | split ] ] ] ].
  - rewrite Hfinal. cbn [trace]. rewrite !written_app, Hb1, Ha1, Hevs2, Hb3, Ha3.
    reflexivity.
  - rewrite Hfinal. cbn [trace]. rewrite !in_app_iff. simpl. auto 10.
  - rewrite Hfinal. cbn [trace]. rewrite !in_app_iff. simpl. auto 10.
  - rewrite Hfinal. cbn [files]. apply lookup_insert_eq.
  - intros Hne. rewrite Hfinal. cbn [files].
    rewrite lookup_insert_ne by congruence. apply lookup_insert_eq.
  - intros idx todo s e' Hact Hdlg.
    destruct (notes_turn_timeout notes_folder idx (browser idx) e' Hact Hdlg)
      as (evs & Hevs & Hturn).
    exists evs. split; [ exact Hevs | ].
    apply notes_loop_step, Hturn.
Qed.

Lemma C9_timeout_skips_only_that_note_witness :
  written
    (trace (snd (ScraperV1.extract_concall_notes (Ok 3) three_triggers ["TCS"]
                   (mkState ∅ []))))
  = [["TCS"; "concall_notes"; "Jan_2025_concall_notes.md"];
     ["TCS"; "concall_notes"; "Jul_2024_concall_notes.md"]]
  /\ files (snd (ScraperV1.extract_concall_notes (Ok 3) three_triggers ["TCS"]
                   (mkState ∅ [])))
     !! ["TCS"; "concall_notes"; "Jul_2024_concall_notes.md"]
     = Some "Margins were stable.".
Proof.
  destruct (C9_timeout_skips_only_that_note ["TCS"] three_triggers ∅
              january_dialog july_dialog "Revenue grew 5% quarter on quarter."
              "Margins were stable." "TimeoutException")
    as (Hwritten & _ & _ & Hfile & _).
  - split; [ exists 3; split; [ reflexivity | lia ] | split; [ reflexivity | left; reflexivity ] ].
  - reflexivity.
  - reflexivity.
  - discriminate.
  - split; [ exists 3; split; [ reflexivity | lia ] | split; [ reflexivity | left; reflexivity ] ].
  - reflexivity.
  - split; [ exists 3; split; [ reflexivity | lia ] | split; [ reflexivity | right; reflexivity ] ].
  - reflexivity.
  - reflexivity.
  - discriminate.
  - split; [ exact Hwritten | exact Hfile ].
Defined.


(** ** Further properties of the loops *)

Lemma fold_left_skip {S A} (f : S -> A -> S) (skip : A -> bool) (l : list A) (st : S) :
  (forall st x, skip x = true -> f st x = st) ->
  fold_left f l st = fold_left f (List.filter (fun x => negb (skip x)) l) st.
Proof.
  intros Hskip. revert st. induction l as [ | x l IH ]; intros st; simpl; [ reflexivity | ].
  destruct (skip x) eqn:Hx; simpl.
  - rewrite (Hskip st x Hx). apply IH.
  - apply IH.
Qed.

(** A run of the table loop is the run over the tables that are not
    small, each with the index it had: small tables change neither the
    names nor the files of the others. *)
Theorem extract_tables_ignores_small_tables (w : World) (soup : Bs4.Soup)
    (company_folder : Py.Path) (all_tables : list Bs4.handle) (s : State) :
  ScraperV1.extract_tables w soup company_folder all_tables s
  = fold_left (ScraperV1.table_step w soup company_folder)
      (List.filter (fun it => negb (small_table w it)) (imap pair all_tables))
      ([], s).
Proof.
  unfold ScraperV1.extract_tables. apply fold_left_skip.
  intros [tables_saved s'] [idx table] Hsmall. unfold small_table in Hsmall.
  cbn [snd] in Hsmall. destruct (read_html w table) as [df | e] eqn:Hread;
    [ | discriminate ].
  apply (table_step_small w soup company_folder tables_saved s' idx table df Hread).
  apply orb_true_iff in Hsmall. destruct Hsmall as [H | H]; apply Nat.ltb_lt in H; auto.
Qed.

Lemma heading_category_known (title category : string) :
  ScraperV1.heading_category title = Some category ->
  In category ["announcements"; "annual"; "credit_ratings"; "other"].
Proof.
  unfold ScraperV1.heading_category.
  repeat match goal with
         | |- context [if ?c then _ else _] => destruct c
         end; intros H; inversion H; subst; simpl; auto.
Qed.

Lemma collect_sections_categories (soup : Bs4.Soup) (container : Bs4.handle) :
  Forall (fun cs => In (fst cs) ["announcements"; "annual"; "credit_ratings"; "other"])
         (snd (ScraperV1.collect_sections soup container)).
Proof.
  unfold ScraperV1.collect_sections.
  assert (H : forall (l : list Bs4.handle) st,
             Forall (fun cs => In (fst cs) ["announcements"; "annual"; "credit_ratings"; "other"])
                    (snd st) ->
             Forall (fun cs => In (fst cs) ["announcements"; "annual"; "credit_ratings"; "other"])
                    (snd (fold_left ScraperV1.collect_section l st))).
  { induction l as [ | heading l IH ]; intros st Hst; [ exact Hst | ].
    cbn [fold_left]. apply IH. destruct st as [soup' sections].
    unfold ScraperV1.collect_section.
    destruct (ScraperV1.heading_category _) as [category | ] eqn:Hcat; [ | exact Hst ].
    destruct (ScraperV1.section_nodes soup' heading) as [ | node nodes ]; [ exact Hst | ].
    destruct (Bs4.new_tag soup') as [soup'' wrapper]. cbn [snd] in *.
    apply Forall_app. split; [ exact Hst | ].
    constructor; [ | constructor ]. exact (heading_category_known _ _ Hcat). }
  apply H. constructor.
Qed.

(** Every link the classifier of [scraperv1.py] returns has one of the
    categories "announcements", "annual", "credit_ratings", "other" (never
    "concalls"), which is a key of the folder map: the fallback of the
    document loop is not needed for them. *)
Theorem classified_links_have_known_folders (urljoin : string -> string -> result string)
    (soup : Bs4.Soup) (base_url : string) (docs : list ScraperV1.DocumentLink)
    (company_folder : Py.Path) :
  snd (ScraperV1.extract_documents_links urljoin soup base_url) = Ok docs ->
  Forall (fun d =>
            In (category d) ["announcements"; "annual"; "credit_ratings"; "other"]
            /\ ScraperV1.folder_key company_folder (category d) = category d)
         docs.
Proof.
  intros Hdocs.
  pose proof (extract_documents_links_outcome urljoin soup base_url) as Hout.
  rewrite Hdocs in Hout. cbn [outcome] in Hout.
  apply List.Forall_forall. intros d Hd.
  destruct (Forall2_right _ _ _ _ Hout Hd) as ([cat a] & Hin & full_url & _ & ->).
  apply filter_In in Hin. destruct Hin as [Hin _].
  assert (Hcat : In cat ["announcements"; "annual"; "credit_ratings"; "other"]).
  { unfold document_links, ScraperV1.section_links in Hin. apply in_flat_map in Hin.
    destruct Hin as (cs & Hcs & Hca). apply in_map_iff in Hca.
    destruct Hca as (a' & Heq & _). injection Heq as <- _.
    assert (Hall : Forall (fun cs => In (fst cs)
                             ["announcements"; "annual"; "credit_ratings"; "other"])
                          (snd (document_sections soup))).
    { unfold document_sections.
      destruct (ScraperV1.docs_heading soup); [ | constructor ].
      destruct (ScraperV1.best_container _ _ _ _ _); [ | constructor ].
      apply collect_sections_categories. }
    rewrite List.Forall_forall in Hall. exact (Hall cs Hcs). }
  split; [ exact Hcat | ]. cbn [link_doc category fst].
  simpl in Hcat. destruct Hcat as [<- | [<- | [<- | [<- | []]]]]; reflexivity.
Qed.

Lemma classified_links_have_known_folders_witness :
  Forall (fun d => In (category d) ["announcements"; "annual"; "credit_ratings"; "other"]
                   /\ ScraperV1.folder_key ["TCS"] (category d) = category d)
         (match snd (ScraperV1.extract_documents_links (fun _ href => Ok href) documents_page
                       company_url) with
          | Ok docs => docs
          | Raise _ => []
          end).
Proof.
  destruct (snd (ScraperV1.extract_documents_links (fun _ href => Ok href) documents_page
                   company_url)) as [docs | e] eqn:Hdocs; [ | constructor ].
  exact (classified_links_have_known_folders (fun _ href => Ok href) documents_page
           company_url docs ["TCS"] Hdocs).
Defined.

(** ** File names *)

Lemma forall_cons (P : ascii -> bool) (c : ascii) (s : string) :
  Py.string_forallb P (String c s) = P c && Py.string_forallb P s.
Proof. reflexivity. Qed.

Lemma forall_append (P : ascii -> bool) (a b : string) :
  Py.string_forallb P a = true -> Py.string_forallb P b = true ->
  Py.string_forallb P (a +:+ b) = true.
Proof.
  induction a as [ | c a IH ]; intros Ha Hb; [ exact Hb | ].
  change (String c a +:+ b) with (String c (a +:+ b)).
  rewrite forall_cons in *. apply andb_true_iff in Ha. destruct Ha as [Hc Ha].
  rewrite Hc. simpl. apply IH; assumption.
Qed.

Lemma forall_take (P : ascii -> bool) (n : nat) (s : string) :
  Py.string_forallb P s = true -> Py.string_forallb P (Py.take n s) = true.
Proof.
  revert n. induction s as [ | c s IH ]; intros [ | n ] H; try reflexivity.
  cbn [Py.take]. rewrite forall_cons in *. apply andb_true_iff in H.
  destruct H as [Hc Hs]. rewrite Hc. simpl. apply IH, Hs.
Qed.

Lemma take_length (n : nat) (s : string) : String.length (Py.take n s) <= n.
Proof.
  revert s. induction n as [ | n IH ]; intros [ | c s ]; simpl; try lia.
  specialize (IH s). lia.
Qed.

Lemma forall_lstrip (P : ascii -> bool) (s : string) :
  Py.string_forallb P s = true -> Py.string_forallb P (Py.lstrip s) = true.
Proof.
  induction s as [ | c s IH ]; intros H; [ reflexivity | ].
  cbn [Py.lstrip]. destruct (Py.isspace c); [ | exact H ].
  rewrite forall_cons in H. apply andb_true_iff in H. apply IH, H.
Qed.

Lemma forall_rstrip (P : ascii -> bool) (s : string) :
  Py.string_forallb P s = true -> Py.string_forallb P (Py.rstrip s) = true.
Proof.
  induction s as [ | c s IH ]; intros H; [ reflexivity | ].
  rewrite forall_cons in H. apply andb_true_iff in H. destruct H as [Hc Hs].
  cbn [Py.rstrip]. specialize (IH Hs).
  destruct (Py.rstrip s) as [ | d r ].
  - destruct (Py.isspace c); [ reflexivity | ].
    rewrite forall_cons, Hc. reflexivity.
  - rewrite forall_cons, Hc. exact IH.
Qed.

Lemma forall_remove_chars (bad : ascii -> bool) (s : string) :
  Py.string_forallb (fun c => negb (bad c)) (Py.remove_chars bad s) = true.
Proof.
  induction s as [ | c s IH ]; [ reflexivity | ].
  cbn [Py.remove_chars]. destruct (bad c) eqn:Hc; [ exact IH | ].
  rewrite forall_cons, Hc. exact IH.
Qed.

Lemma forall_sub_space_runs (in_run : bool) (s : string) :
  Py.string_forallb (fun c => negb (ScraperV1.forbidden_char c)) s = true ->
  Py.string_forallb safe_char (Py.sub_space_runs "_" in_run s) = true.
Proof.
  revert in_run. induction s as [ | c s IH ]; intros in_run H; [ reflexivity | ].
  rewrite forall_cons in H. apply andb_true_iff in H. destruct H as [Hc Hs].
  cbn [Py.sub_space_runs]. destruct (Py.isspace c) eqn:Hspace.
  - apply forall_append; [ destruct in_run; reflexivity | apply IH, Hs ].
  - rewrite forall_cons. unfold safe_char at 1. rewrite Hc, Hspace. apply IH, Hs.
Qed.

Lemma forall_replace_char (P : ascii -> bool) (c : ascii) (by_ s : string) :
  Py.string_forallb P by_ = true -> Py.string_forallb P s = true ->
  Py.string_forallb P (Py.replace_char c by_ s) = true.
Proof.
  intros Hby. induction s as [ | a s IH ]; intros H; [ reflexivity | ].
  rewrite forall_cons in H. apply andb_true_iff in H. destruct H as [Ha Hs].
  cbn [Py.replace_char]. destruct (ascii_dec a c).
  - apply forall_append; [ exact Hby | apply IH, Hs ].
  - rewrite forall_cons, Ha. apply IH, Hs.
Qed.

(** The name [clean_filename] returns has at most 150 characters, none of
    them one of the forbidden characters or white space. *)
Theorem clean_filename_is_safe (text : string) :
  String.length (ScraperV1.clean_filename text) <= 150
  /\ Py.string_forallb safe_char (ScraperV1.clean_filename text) = true.
Proof.
  unfold ScraperV1.clean_filename. split; [ apply take_length | ].
  apply forall_take. apply forall_replace_char; [ reflexivity | ].
  apply forall_replace_char; [ reflexivity | ].
  apply forall_sub_space_runs. unfold Py.strip.
  apply forall_rstrip, forall_lstrip, forall_remove_chars.
Qed.

(** ** Exceptions of the notes loop *)

(** A turn of the notes loop never raises.  It ends the loop only at the
    [break], when the buttons found again are no more than [idx]; in every
    other case the loop goes on.  When a browser call of the turn raises
    where no handler of the turn's own catches it, nothing is written, and
    the last line printed is the error line of the turn with the text of
    the exception. *)
Theorem notes_turn_never_raises (notes_folder : Py.Path) (idx : nat)
    (t : ScraperV1.Turn) (s : State) :
  exists go_on disk evs,
    ScraperV1.notes_turn notes_folder idx t s = (Ok go_on, mkState disk (trace s ++ evs))
    /\ (go_on = false <-> exists n, buttons t = Ok n /\ n <= idx)
    /\ (forall e,
          failed t idx e ->
          disk = files s
          /\ last evs = Some (Print ("    Error extracting notes #"
                                     +:+ Py.str_of_nat (idx + 1) +:+ ": " +:+ e))).
Proof.
  destruct s as [disk0 tr].
  unfold ScraperV1.notes_turn, try_except, bindM, lift, emit, ret, write_file, failed.
  cbn [files trace].
  destruct (buttons t) as [n | eb] eqn:Hb.
  2:{ exists true, disk0, [Print ("    Error extracting notes #"
                                   +:+ Py.str_of_nat (idx + 1) +:+ ": " +:+ eb)].
      split; [ reflexivity | ]. split.
      - split; [ discriminate | intros (n & Hn & _); discriminate ].
      - intros e [He | [(n & Hn & _) _]]; [ | discriminate ].
        injection He as <-. split; reflexivity. }
  destruct (Nat.leb n idx) eqn:Hle.
  { exists false, disk0, []. rewrite app_nil_r. split; [ reflexivity | ]. split.
    - split; [ intros _; exists n; split; [ reflexivity | apply Nat.leb_le, Hle ] | reflexivity ].
    - intros e [He | [(n' & Hn & Hlt) _]]; [ discriminate | ].
      injection Hn as <-. apply Nat.leb_le in Hle. lia. }
  apply Nat.leb_gt in Hle.
  assert (Hgo : true = false <-> exists n', Ok n = Ok n' /\ n' <= idx).
  { split; [ discriminate | intros (n' & Hn & Hn'); injection Hn as <-; lia ]. }
  cbn [files trace].
  destruct (scroll t) as [[] | es] eqn:Hs;
    [ destruct (click t) as [[] | ec] eqn:Hc;
      [ | destruct (js_click t) as [[] | ej] eqn:Hj ] | ];
    cbn [files trace];
    try (destruct (dialog t) as [dlg | ed] eqn:Hd;
         [ destruct (ScraperV1.dialog_text dlg) as [text | et] eqn:Ht;
           [ destruct (Py.is_empty text) | ] | ]);
    cbn [files trace]; rewrite <- ?app_assoc; cbn [app];
    eexists true, _, _; (split; [ reflexivity | ]); (split; [ exact Hgo | ]);
    intros e Hf;
    destruct Hf as [Hf | [_ [Hf | [Hs' [[(e0 & Hf0) Hf] | [Hact (dlg' & Hd' & Hf)]]]]]];
    try congruence; try (destruct Hact; congruence);
    try (injection Hf as <-; split; reflexivity);
    try (assert (e = es) as -> by congruence; split; reflexivity);
    try (assert (e = ej) as -> by congruence; split; reflexivity);
    try (assert (e = et) as -> by congruence; split; reflexivity).
Qed.

(** A trigger that has gone stale: the scroll script raises. *)
Example stale_trigger_is_reported :
  ScraperV1.notes_turn ["TCS"; "concall_notes"] 0
    (mkTurn (Ok 2) (Ok (Some "Jan 2025")) (Ok "Jan 2025")
            (Raise "StaleElementReferenceException") (Ok tt) (Ok tt) (Ok january_dialog))
    (mkState ∅ [])
  = (Ok true,
     mkState ∅ [Print "    [Concalls] Clicking Notes button #1: Jan 2025";
                Print "    Error extracting notes #1: StaleElementReferenceException"]).
Proof. vm_compute. reflexivity. Qed.

(** ** The probe and the known suffixes *)

Lemma normal_download_known_suffix (w : World) (url : string) (save_path : Py.Path)
    (s : State) (e data : string) :
  http_head w url = Raise e ->
  Py.mem (Py.lower (Py.suffix save_path)) [".pdf"; ".html"; ".htm"] = true ->
  http_get w url = Ok (mkResponse data None) ->
  ScraperV1.min_size <= String.length data ->
  ScraperV1.normal_download w url save_path s
  = (Ok true,
     mkState (<[save_path := data]> (files s))
             (trace s ++ [Head url; Get url; WriteFile save_path data])).
Proof.
  intros Hhead Hsuffix Hget Hsize.
  assert (Hdyn : Py.mem (Py.lower (Py.suffix save_path)) [".aspx"; ".php"] = false).
  { apply mem_eq in Hsuffix. simpl in Hsuffix.
    destruct Hsuffix as [<- | [<- | [<- | []]]]; reflexivity. }
  unfold ScraperV1.normal_download, ScraperV1.head_probe, ScraperV1.adjust_extension.
  unfold bindM at 1. unfold bindM at 1. unfold emit at 1. unfold try_except at 1.
  unfold bindM at 1. unfold lift at 1. rewrite Hhead.
  unfold ret at 1. unfold bindM at 1. cbn [fst snd].
  rewrite Hsuffix, Hdyn. cbn [negb]. unfold ret at 1.
  unfold bindM at 1. rewrite (fetch_complete _ _ _ _ data Hget).
  unfold ScraperV1.drop_error_page, st_size, bindM, ret. cbn [files trace].
  rewrite lookup_insert_eq. apply Nat.ltb_ge in Hsize. rewrite Hsize.
  rewrite <- !app_assoc. reflexivity.
Qed.

(** When the HEAD probe raises but the save path already ends in [.pdf],
    [.html] or [.htm] (in any letter case), the unbound [is_pdf] is never
    read: the GET is made and a body of at least 500 bytes is kept under
    the save path. *)
Theorem failed_probe_is_harmless_for_known_suffix (w : World) (url : string)
    (save_path : Py.Path) (disk : gmap Py.Path string) (e data : string) :
  In (Head url) (trace (snd (ScraperV1.download_file w url save_path (mkState disk [])))) ->
  http_head w url = Raise e ->
  Py.mem (Py.lower (Py.suffix save_path)) [".pdf"; ".html"; ".htm"] = true ->
  http_get w url = Ok (mkResponse data None) ->
  ScraperV1.min_size <= String.length data ->
  fst (ScraperV1.download_file w url save_path (mkState disk [])) = true
  /\ In (Get url) (trace (snd (ScraperV1.download_file w url save_path (mkState disk []))))
  /\ files (snd (ScraperV1.download_file w url save_path (mkState disk []))) !! save_path
     = Some data.
Proof.
  intros Hprobed Hhead Hsuffix Hget Hsize.
  unfold ScraperV1.download_file in *.
  destruct (download_file_cases w url save_path (mkState disk [])) as (evs & Q & [E | E]);
    rewrite E in *; cbn [fst snd files trace app] in *.
  - exfalso. exact (quiet_not_in (Head url) evs Q eq_refl Hprobed).
  - rewrite (normal_download_known_suffix _ _ _ _ e data Hhead Hsuffix Hget Hsize) in *.
    cbn [fst snd files trace]. repeat split.
    + rewrite in_app_iff. simpl. auto.
    + apply lookup_insert_eq.
Qed.

Lemma failed_probe_is_harmless_for_known_suffix_witness :
  fst (ScraperV1.download_file large_pdf_site notice_url notice_path (mkState ∅ []))
  = true.
Proof.
  destruct (failed_probe_is_harmless_for_known_suffix large_pdf_site notice_url
              notice_path ∅ "ConnectionError: HEAD not allowed" large_body)
    as (Htrue & _).
  - vm_compute. auto.
  - reflexivity.
  - reflexivity.
  - reflexivity.
  - apply Nat.leb_le. vm_compute. reflexivity.
  - exact Htrue.
Defined.

(** ** The folder a download touches *)

Lemma within_app (folder : Py.Path) (evs evs' : list event) :
  within folder evs -> within folder evs' -> within folder (evs ++ evs').
Proof. unfold within. intros H H'. apply Forall_app. split; assumption. Qed.

Lemma within_prints (folder : Py.Path) (evs : list event) :
  Forall (fun ev => event_folder ev = None) evs -> within folder evs.
Proof.
  unfold within. intros H. eapply Forall_impl; [ exact H | ].
  intros ev Hnone f Hf. congruence.
Qed.

Lemma with_suffix_parent (p q : Py.Path) (sfx : string) :
  Py.with_suffix p sfx = Some q -> Py.parent q = Py.parent p.
Proof.
  unfold Py.with_suffix. destruct (Py.is_empty (Py.name p)); [ discriminate | ].
  intros H. injection H as <-. apply parent_joinpath.
Qed.

Lemma adjust_extension_parent (save_path target : Py.Path) (content_type : string)
    (is_pdf : option bool) (s s' : State) :
  ScraperV1.adjust_extension save_path content_type is_pdf s = (Ok target, s') ->
  Py.parent target = Py.parent save_path.
Proof.
  unfold ScraperV1.adjust_extension, ScraperV1.with_suffix.
  unfold read_local, bindM, ret, raise.
  destruct (negb _); [ | destruct (Py.mem _ [".aspx"; ".php"]) ];
    destruct is_pdf as [[|]|]; cbv beta iota zeta;
    repeat match goal with
           | |- context [Py.with_suffix ?p ?x] =>
               let E := fresh "E" in
               destruct (Py.with_suffix p x) eqn:E;
               [ apply with_suffix_parent in E | ]
           | |- context [if ?c then _ else _] => destruct c
           end;
    intros H; inversion H; subst; auto.
Qed.

(** [m] changes the trace only by adding events within [folder]. *)
Lemma stays_ret {A} (folder : Py.Path) (a : A) : stays folder (ret a).
Proof.
  intros [disk tr]. exists (Ok a), disk, []. cbn [trace]. rewrite app_nil_r.
  split; [ reflexivity | constructor ].
Qed.

Lemma stays_lift {A} (folder : Py.Path) (r : result A) : stays folder (lift r).
Proof.
  intros [disk tr]. exists r, disk, []. cbn [trace]. rewrite app_nil_r.
  split; [ reflexivity | constructor ].
Qed.

Lemma stays_raise {A} (folder : Py.Path) (e : string) : stays folder (@raise A e).
Proof. exact (stays_lift folder (Raise e)). Qed.

Lemma stays_bind {A B} (folder : Py.Path) (m : M A) (k : A -> M B) :
  stays folder m -> (forall a, stays folder (k a)) -> stays folder (bindM m k).
Proof.
  intros Hm Hk s. destruct (Hm s) as (r & disk & evs & E & W).
  unfold bindM. rewrite E. destruct r as [a | e].
  - destruct (Hk a (mkState disk (trace s ++ evs))) as (r' & disk' & evs' & E' & W').
    rewrite E'. cbn [trace]. exists r', disk', (evs ++ evs').
    rewrite app_assoc. split; [ reflexivity | apply within_app; assumption ].
  - exists (Raise e), disk, evs. split; [ reflexivity | assumption ].
Qed.

Lemma stays_try {A} (folder : Py.Path) (m : M A) (handler : string -> M A) :
  stays folder m -> (forall e, stays folder (handler e)) ->
  stays folder (try_except m handler).
Proof.
  intros Hm Hh s. destruct (Hm s) as (r & disk & evs & E & W).
  unfold try_except. rewrite E. destruct r as [a | e].
  - exists (Ok a), disk, evs. split; [ reflexivity | assumption ].
  - destruct (Hh e (mkState disk (trace s ++ evs))) as (r' & disk' & evs' & E' & W').
    rewrite E'. cbn [trace]. exists r', disk', (evs ++ evs').
    rewrite app_assoc. split; [ reflexivity | apply within_app; assumption ].
Qed.

Lemma stays_emit (folder : Py.Path) (ev : event) :
  (forall f, event_folder ev = Some f -> f = folder) -> stays folder (emit ev).
Proof.
  intros Hev s. exists (Ok tt), (files s), [ev].
  split; [ reflexivity | repeat constructor; assumption ].
Qed.

Lemma stays_write_file (p : Py.Path) (data : string) :
  stays (Py.parent p) (write_file p data).
Proof.
  intros s. eexists _, _, _. split; [ reflexivity | ].
  repeat constructor. simpl. intros f Hf. congruence.
Qed.

Lemma stays_st_size (folder p : Py.Path) : stays folder (st_size p).
Proof.
  intros [disk tr]. unfold st_size. cbn [files trace].
  destruct (_ !! p); eexists _, disk, []; rewrite app_nil_r;
    (split; [ reflexivity | constructor ]).
Qed.

Lemma stays_read_text (folder p : Py.Path) : stays folder (read_text p).
Proof.
  intros [disk tr]. unfold read_text. cbn [files trace].
  destruct (_ !! p); eexists _, disk, []; rewrite app_nil_r;
    (split; [ reflexivity | constructor ]).
Qed.

Lemma stays_unlink (p : Py.Path) : stays (Py.parent p) (unlink p).
Proof.
  intros [disk tr]. unfold unlink. cbn [files trace].
  destruct (_ !! p).
  - eexists _, _, _. split; [ reflexivity | ].
    repeat constructor. simpl. intros f Hf. congruence.
  - eexists _, disk, []. rewrite app_nil_r. split; [ reflexivity | constructor ].
Qed.

Lemma stays_print (folder : Py.Path) (line : string) : stays folder (emit (Print line)).
Proof. apply stays_emit. discriminate. Qed.

Lemma stays_partner_branches (w : World) (url : string) (save_path : Py.Path) :
  stays (Py.parent save_path) (ScraperV1.india_ratings_branch w url save_path)
  /\ stays (Py.parent save_path) (ScraperV1.crisil_branch w url save_path).
Proof.
  split.
  - unfold ScraperV1.india_ratings_branch. destruct (_ && _); [ | apply stays_ret ].
    apply stays_bind; [ apply stays_print | intros _ ].
    apply stays_try.
    + apply stays_bind; [ apply stays_print | intros _ ].
      apply stays_bind; [ apply stays_emit; simpl; congruence | intros _ ].
      apply stays_bind; [ apply stays_lift | intros name ].
      apply stays_bind; [ apply stays_print | intros _ ]. apply stays_ret.
    + intros e. apply stays_bind; [ apply stays_print | intros _ ]. apply stays_ret.
  - unfold ScraperV1.crisil_branch. destruct (_ && _); [ | apply stays_ret ].
    apply stays_try.
    + apply stays_bind; [ apply stays_emit; simpl; congruence | intros _ ].
      apply stays_bind; [ apply stays_lift | intros name ].
      apply stays_bind; [ apply stays_print | intros _ ]. apply stays_ret.
    + intros e. apply stays_bind; [ apply stays_print | intros _ ]. apply stays_ret.
Qed.

Lemma stays_fetch_and_check (w : World) (url : string) (target : Py.Path) :
  stays (Py.parent target)
    (bindM (ScraperV1.fetch w url target) (fun _ =>
     bindM (ScraperV1.drop_error_page target) (fun r =>
     match r with
     | Some b => ret b
     | None => ret true
     end))).
Proof.
  apply stays_bind.
  - unfold ScraperV1.fetch.
    apply stays_bind; [ apply stays_emit; discriminate | intros _ ].
    apply stays_bind; [ apply stays_lift | intros response ].
    apply stays_bind; [ apply stays_write_file | intros _ ].
    destruct (broken response); [ apply stays_raise | apply stays_ret ].
  - intros _. apply stays_bind.
    + unfold ScraperV1.drop_error_page.
      apply stays_bind; [ apply stays_st_size | intros size ].
      destruct (Nat.ltb _ _); [ | apply stays_ret ].
      apply stays_try; [ | intros e; apply stays_ret ].
      apply stays_bind; [ apply stays_read_text | intros data ].
      destruct (Py.any_in _ _); [ | apply stays_ret ].
      apply stays_bind; [ apply stays_unlink | intros _ ]. apply stays_ret.
    + intros [b | ]; apply stays_ret.
Qed.

Lemma stays_normal_download (w : World) (url : string) (save_path : Py.Path) :
  stays (Py.parent save_path) (ScraperV1.normal_download w url save_path).
Proof.
  unfold ScraperV1.normal_download.
  apply stays_bind.
  - unfold ScraperV1.head_probe.
    apply stays_bind; [ apply stays_emit; discriminate | intros _ ].
    apply stays_try; [ | intros e; apply stays_ret ].
    apply stays_bind; [ apply stays_lift | intros ct ]. apply stays_ret.
  - intros probe s.
    destruct (adjust_extension_pure save_path (fst probe) (snd probe)) as (r & Eadjust).
    unfold bindM at 1. rewrite Eadjust. destruct r as [target | e].
    + rewrite <- (adjust_extension_parent _ _ _ _ _ _ (Eadjust s)).
      apply stays_fetch_and_check.
    + destruct s as [disk tr]. exists (Raise e), disk, []. cbn [trace].
      rewrite app_nil_r. split; [ reflexivity | constructor ].
Qed.

Lemma download_file_trace (w : World) (url : string) (save_path : Py.Path) (s : State) :
  exists evs,
    trace (snd (ScraperV1.download_file w url save_path s)) = trace s ++ evs
    /\ within (Py.parent save_path) evs.
Proof.
  assert (Hbody : stays (Py.parent save_path)
                    (ScraperV1.download_file_body w url save_path)).
  { unfold ScraperV1.download_file_body.
    destruct (stays_partner_branches w url save_path) as [Hindia Hcrisil].
    apply stays_bind; [ exact Hindia | intros [b | ]; [ apply stays_ret | ] ].
    apply stays_bind; [ exact Hcrisil | intros [b | ]; [ apply stays_ret | ] ].
    apply stays_normal_download. }
  unfold ScraperV1.download_file.
  destruct (Hbody s) as (r & disk' & evs & E & W).
  rewrite E. destruct r as [b | e]; cbn [snd trace].
  - exists evs. split; [ reflexivity | exact W ].
  - eexists. rewrite <- app_assoc. split; [ reflexivity | ].
    apply within_app; [ exact W | ]. apply within_prints. repeat constructor.
Qed.


(** Whatever the sites answer, [download_file] writes and removes files
    only in the folder of its save path, and hands only that folder to the
    partner-site scrapers. *)
Theorem download_file_stays_in_folder (w : World) (url : string) (save_path : Py.Path)
    (disk : gmap Py.Path string) :
  within (Py.parent save_path)
    (trace (snd (ScraperV1.download_file w url save_path (mkState disk [])))).
Proof.
  destruct (download_file_trace w url save_path (mkState disk [])) as (evs & E & W).
  rewrite E. exact W.
Qed.


(** ** The name a flagged link is saved under *)

Lemma rfind_dot_pdf (stem : string) :
  Py.rfind_char "." (stem +:+ ".pdf") = Some (String.length stem).
Proof.
  induction stem as [ | c stem IH ]; [ reflexivity | ].
  change (Py.rfind_char "." (String c (stem +:+ ".pdf")) = Some (S (String.length stem))).
  simpl. rewrite IH. reflexivity.
Qed.

Lemma drop_stem (stem rest : string) :
  Py.drop (String.length stem) (stem +:+ rest) = rest.
Proof.
  induction stem as [ | c stem IH ]; [ destruct rest; reflexivity | ].
  change (Py.drop (S (String.length stem)) (String c (stem +:+ rest)) = rest).
  simpl. exact IH.
Qed.

Lemma name_joinpath (folder : Py.Path) (filename : string) :
  Py.name (Py.joinpath folder filename) = filename.
Proof. unfold Py.name, Py.joinpath. apply last_last. Qed.

Lemma suffix_pdf (folder : Py.Path) (stem : string) :
  stem <> "" -> Py.suffix (Py.joinpath folder (stem +:+ ".pdf")) = ".pdf".
Proof.
  intros Hstem. unfold Py.suffix. rewrite name_joinpath, rfind_dot_pdf.
  destruct stem as [ | c stem ]; [ congruence | ].
  cbn [String.length]. rewrite append_length. cbn [String.length].
  replace (S (String.length stem) <? S (String.length stem) + 4 - 1)%nat with true
    by (symmetry; apply Nat.ltb_lt; lia).
  exact (drop_stem (String c stem) ".pdf").
Qed.

(** A link flagged [force_pdf] whose file name is more than the bare
    extension is saved under a name with the suffix [.pdf], and the
    extension adjustment of [download_file] keeps that name whatever the
    HEAD probe reported (also when it failed). *)
Theorem forced_pdf_keeps_its_name (company_folder : Py.Path)
    (download_stats : gmap string nat) (item : ScraperV1.DocumentLink)
    (content_type : string) (is_pdf : option bool) (s : State) :
  force_pdf item = Some true ->
  String.length ".pdf"
  < String.length (Py.name (ScraperV1.save_path company_folder download_stats item)) ->
  Py.suffix (ScraperV1.save_path company_folder download_stats item) = ".pdf"
  /\ ScraperV1.adjust_extension
       (ScraperV1.save_path company_folder download_stats item) content_type is_pdf s
     = (Ok (ScraperV1.save_path company_folder download_stats item), s).
Proof.
  intros Hflag Hlong.
  assert (Hext : ScraperV1.chosen_ext item = ".pdf").
  { unfold ScraperV1.chosen_ext. rewrite Hflag. simpl.
    pose proof (icra_rewrite_keeps_flag (category item) (url item)) as Hkeep.
    destruct (ScraperV1.icra_rewrite (category item) (url item) true) as [full_url force].
    simpl in Hkeep. subst force. reflexivity. }
  assert (Hsuffix : Py.suffix (ScraperV1.save_path company_folder download_stats item)
                    = ".pdf").
  { revert Hlong. unfold ScraperV1.save_path, ScraperV1.build_filename.
    rewrite Hext, name_joinpath, append_length. cbn [String.length].
    intros Hlong. apply suffix_pdf. intros Hstem. rewrite Hstem in Hlong.
    simpl in Hlong. lia. }
  split; [ exact Hsuffix | ].
  unfold ScraperV1.adjust_extension. rewrite Hsuffix. reflexivity.
Qed.

Lemma forced_pdf_keeps_its_name_witness :
  Py.name (ScraperV1.save_path ["TCS"] ScraperV1.download_stats0 quarterly_pdf)
  = "Quarterly_Result_PDF_-_Sep_2024.pdf"
  /\ ScraperV1.adjust_extension
       (ScraperV1.save_path ["TCS"] ScraperV1.download_stats0 quarterly_pdf)
       "text/html" None (mkState ∅ [])
     = (Ok (ScraperV1.save_path ["TCS"] ScraperV1.download_stats0 quarterly_pdf),
        mkState ∅ []).
Proof.
  split; [ reflexivity | ].
  apply (forced_pdf_keeps_its_name ["TCS"] ScraperV1.download_stats0 quarterly_pdf
           "text/html" None (mkState ∅ [])).
  - reflexivity.
  - vm_compute. lia.
Defined.

(** ** The slow scroll *)

Lemma slow_scroll_loop_ends (scroll_height step : Z) (turns : nat) :
  (0 < step)%Z ->
  forall (fuel : nat) (current : Z),
    turns <= fuel ->
    (scroll_height <= current + Z.of_nat turns * step)%Z ->
    (forall j, j < turns -> (current + Z.of_nat j * step < scroll_height)%Z) ->
    ScraperV1.slow_scroll_loop fuel scroll_height step current
    = Some (List.map (fun j => (current + Z.of_nat j * step)%Z) (seq 0 turns)).
Proof.
  intros Hstep. induction turns as [ | turns IH ]; intros fuel current Hfuel Hend Hbelow.
  - assert (Hdone : (current <? scroll_height)%Z = false) by (apply Z.ltb_ge; lia).
    destruct fuel; simpl; rewrite Hdone; reflexivity.
  - destruct fuel as [ | fuel ]; [ lia | ].
    assert (Hgo : (current <? scroll_height)%Z = true).
    { apply Z.ltb_lt. specialize (Hbelow 0 ltac:(lia)). lia. }
    simpl. rewrite Hgo.
    rewrite (IH fuel (current + step)%Z) by
      (try lia; intros j Hj; specialize (Hbelow (S j) ltac:(lia)); lia).
    simpl. f_equal. f_equal; [ lia | ].
    rewrite <- seq_shift, List.map_map. apply List.map_ext. intros j. lia.
Qed.

Lemma slow_scroll_loop_stuck (scroll_height current : Z) (fuel : nat) :
  (current < scroll_height)%Z ->
  ScraperV1.slow_scroll_loop fuel scroll_height 0 current = None.
Proof.
  intros Hbelow. apply Z.ltb_lt in Hbelow.
  induction fuel as [ | fuel IH ]; simpl; rewrite Hbelow; [ reflexivity | ].
  rewrite Z.add_0_r, IH. reflexivity.
Qed.

Lemma slow_scroll_parts (parts scroll_height : Z) :
  (0 < parts)%Z -> (parts <= scroll_height)%Z ->
  exists turns,
    Z.to_nat parts <= turns <= Z.to_nat (2 * parts - 1)
    /\ (forall fuel, turns <= fuel ->
        ScraperV1.slow_scroll_loop fuel scroll_height (scroll_height / parts) 0
        = Some (scroll_positions (scroll_height / parts) turns))
    /\ Forall (fun position => (0 <= position < scroll_height)%Z)
              (scroll_positions (scroll_height / parts) turns).
Proof.
  intros Hparts Hheight.
  set (step := (scroll_height / parts)%Z).
  assert (Hstep : (1 <= step)%Z).
  { unfold step. apply Z.div_le_lower_bound; lia. }
  assert (Hlow : (parts * step <= scroll_height)%Z).
  { unfold step. apply Z.mul_div_le. lia. }
  assert (Hhigh : (scroll_height < parts * step + parts)%Z).
  { unfold step. pose proof (Z.mod_pos_bound scroll_height parts Hparts).
    pose proof (Z.div_mod scroll_height parts ltac:(lia)). lia. }
  (* the number of turns: the least [n] with [scroll_height <= n * step] *)
  set (turns := Z.to_nat ((scroll_height + step - 1) / step)).
  assert (Hturns : (Z.of_nat turns = (scroll_height + step - 1) / step)%Z).
  { unfold turns. rewrite Z2Nat.id; [ reflexivity | ].
    apply Z.div_pos; lia. }
  assert (Hceil_low : (scroll_height <= Z.of_nat turns * step)%Z).
  { rewrite Hturns.
    pose proof (Z.mod_pos_bound (scroll_height + step - 1) step ltac:(lia)).
    pose proof (Z.div_mod (scroll_height + step - 1) step ltac:(lia)). nia. }
  assert (Hceil_high : (Z.of_nat turns * step < scroll_height + step)%Z).
  { rewrite Hturns.
    pose proof (Z.mul_div_le (scroll_height + step - 1) step ltac:(lia)). lia. }
  assert (Hbelow : forall j, j < turns -> (Z.of_nat j * step < scroll_height)%Z).
  { intros j Hj. assert ((Z.of_nat j + 1) * step <= Z.of_nat turns * step)%Z by nia. lia. }
  exists turns. split; [ | split ].
  - split.
    + assert (parts <= Z.of_nat turns)%Z by nia. lia.
    + assert (Z.of_nat turns <= 2 * parts - 1)%Z by nia. lia.
  - intros fuel Hfuel.
    rewrite (slow_scroll_loop_ends scroll_height step turns) by (try lia; intros j Hj; specialize (Hbelow j Hj); lia).
    reflexivity.
  - unfold scroll_positions. apply List.Forall_forall. intros position Hin.
    apply in_map_iff in Hin. destruct Hin as (j & <- & Hj). apply in_seq in Hj.
    specialize (Hbelow j ltac:(lia)). nia.
Qed.

(** The slow scroll of [scraperv1.py], by the height of the page: no
    scroll for a height of zero or less; for a height from 1 to 9 the step
    is zero and the loop never ends; from 10 on the loop ends after 10 to
    19 scrolls, at the multiples of the step, all inside the page. *)
Theorem slow_scroll_by_height (scroll_height : Z) :
  ((scroll_height <= 0)%Z -> forall fuel, ScraperV1.slow_scroll fuel scroll_height = Some [])
  /\ ((0 < scroll_height < 10)%Z ->
      forall fuel, ScraperV1.slow_scroll fuel scroll_height = None)
  /\ ((10 <= scroll_height)%Z ->
      exists turns,
        10 <= turns <= 19
        /\ (forall fuel, turns <= fuel ->
            ScraperV1.slow_scroll fuel scroll_height
            = Some (scroll_positions (scroll_height / 10) turns))
        /\ Forall (fun position => (0 <= position < scroll_height)%Z)
                  (scroll_positions (scroll_height / 10) turns)).
Proof.
  unfold ScraperV1.slow_scroll, ScraperV1.scroll_step. split; [ | split ].
  - intros Hflat fuel.
    assert (Hdone : (0 <? scroll_height)%Z = false) by (apply Z.ltb_ge; lia).
    destruct fuel; simpl; rewrite Hdone; reflexivity.
  - intros Hshort fuel.
    replace (0 <? scroll_height)%Z with true by (symmetry; apply Z.ltb_lt; lia).
    rewrite Z.div_small by lia. apply slow_scroll_loop_stuck. lia.
  - intros Htall.
    replace (0 <? scroll_height)%Z with true by (symmetry; apply Z.ltb_lt; lia).
    destruct (slow_scroll_parts 10 scroll_height ltac:(lia) Htall)
      as (turns & Hturns & Hrun & Hinside).
    exists turns. split; [ simpl in Hturns; lia | split; assumption ].
Qed.

(** The same loop in [scraper.py], whose step is an eighth of the height:
    it never ends for a height from 1 to 7, and from 8 on it ends after 8
    to 15 scrolls. *)
Theorem scraper_slow_scroll_by_height (scroll_height : Z) :
  ((scroll_height <= 0)%Z -> forall fuel, Scraper.slow_scroll fuel scroll_height = Some [])
  /\ ((0 < scroll_height < 8)%Z ->
      forall fuel, Scraper.slow_scroll fuel scroll_height = None)
  /\ ((8 <= scroll_height)%Z ->
      exists turns,
        8 <= turns <= 15
        /\ (forall fuel, turns <= fuel ->
            Scraper.slow_scroll fuel scroll_height
            = Some (scroll_positions (scroll_height / 8) turns))
        /\ Forall (fun position => (0 <= position < scroll_height)%Z)
                  (scroll_positions (scroll_height / 8) turns)).
Proof.
  unfold Scraper.slow_scroll, Scraper.scroll_step. split; [ | split ].
  - intros Hflat fuel.
    assert (Hdone : (0 <? scroll_height)%Z = false) by (apply Z.ltb_ge; lia).
    destruct fuel; simpl; rewrite Hdone; reflexivity.
  - intros Hshort fuel.
    replace (0 <? scroll_height)%Z with true by (symmetry; apply Z.ltb_lt; lia).
    rewrite Z.div_small by lia. apply slow_scroll_loop_stuck. lia.
  - intros Htall.
    replace (0 <? scroll_height)%Z with true by (symmetry; apply Z.ltb_lt; lia).
    destruct (slow_scroll_parts 8 scroll_height ltac:(lia) Htall)
      as (turns & Hturns & Hrun & Hinside).
    exists turns. split; [ simpl in Hturns; lia | split; assumption ].
Qed.

(** ** The quarterly result PDFs *)

Lemma collect_Forall {A B} (f : A -> result (option B)) (Q : B -> Prop)
    (E : string -> Prop) (l : list A) :
  (forall x, In x l -> match f x with
                       | Ok o => forall b, o = Some b -> Q b
                       | Raise e => E e
                       end) ->
  match collect f l with
  | Ok r => List.Forall Q r
  | Raise e => E e
  end.
Proof.
  induction l as [ | x l IH ]; intros Hf; [ constructor | ].
  cbn [collect]. pose proof (Hf x (or_introl eq_refl)) as Hx.
  pose proof (IH (fun y Hy => Hf y (or_intror Hy))) as Hl. clear IH.
  destruct (f x) as [o | e]; [ | exact Hx ].
  destruct (collect f l) as [r | e]; [ | exact Hl ].
  cbn. destruct o as [b | ]; [ constructor; auto | exact Hl ].
Qed.

Lemma collect_all_Forall {A B} (f : A -> result (list B)) (Q : B -> Prop)
    (E : string -> Prop) (l : list A) :
  (forall x, In x l -> match f x with
                       | Ok bs => List.Forall Q bs
                       | Raise e => E e
                       end) ->
  match ScraperV1.collect_all f l with
  | Ok r => List.Forall Q r
  | Raise e => E e
  end.
Proof.
  induction l as [ | x l IH ]; intros Hf; [ constructor | ].
  cbn [ScraperV1.collect_all]. pose proof (Hf x (or_introl eq_refl)) as Hx.
  pose proof (IH (fun y Hy => Hf y (or_intror Hy))) as Hl. clear IH.
  destruct (f x) as [bs | e]; [ | exact Hx ].
  destruct (ScraperV1.collect_all f l) as [r | e]; [ | exact Hl ].
  cbn. apply List.Forall_app. split; assumption.
Qed.

Lemma index_of_found (tag_eq : Bs4.Soup -> Bs4.handle -> Bs4.handle -> bool)
    (soup : Bs4.Soup) (cell : Bs4.handle) (cells : list Bs4.handle) :
  In cell cells -> exists i, ScraperV1.index_of tag_eq soup cell cells = Some i.
Proof.
  intros Hin. unfold ScraperV1.index_of.
  destruct (List.find _ (imap pair cells)) as [[i c] | ] eqn:Hfind.
  - exists i. reflexivity.
  - exfalso. apply list_elem_of_In, list_elem_of_lookup in Hin.
    destruct Hin as (i & Hi).
    assert (Hpair : In (i, cell) (imap pair cells)).
    { apply list_elem_of_In, elem_of_lookup_imap. exists i, cell. auto. }
    pose proof (find_none _ _ Hfind _ Hpair) as Hno. cbn [snd] in Hno.
    rewrite bool_decide_eq_true_2 in Hno by reflexivity. discriminate.
Qed.

Lemma raw_pdf_cell_record (urljoin : string -> string -> result string)
    (tag_eq : Bs4.Soup -> Bs4.handle -> Bs4.handle -> bool)
    (soup : Bs4.Soup) (base_url : string) (table row cell : Bs4.handle)
    (cells : list Bs4.handle) :
  In row (Bs4.find_all soup table ["tr"] false) ->
  In cell cells ->
  match ScraperV1.raw_pdf_cell urljoin tag_eq soup base_url table cells cell with
  | Ok o => forall doc, o = Some doc -> quarterly_record doc
  | Raise e => refused urljoin soup base_url e
  end.
Proof.
  intros Hrow Hcell. unfold ScraperV1.raw_pdf_cell.
  destruct (head (Bs4.find_all soup cell ["a"] true)) as [link | ] eqn:Hlink;
    [ | discriminate ].
  assert (Hin : In link (Bs4.find_all soup cell ["a"] true)).
  { destruct (Bs4.find_all soup cell ["a"] true); [ discriminate | ].
    injection Hlink as ->. left. reflexivity. }
  destruct (find_all_href soup cell link ["a"] Hin) as (href & Hhref).
  rewrite Hhref. cbn.
  destruct (urljoin base_url href) as [full_url | e] eqn:Hjoin;
    [ | exists link, href; auto ].
  destruct (Bs4.find_all soup table ["tr"] false) as [ | first_row rows ];
    [ destruct Hrow | ].
  destruct (index_of_found tag_eq soup cell cells Hcell) as (i & Hi).
  rewrite Hi. cbn. intros doc Hdoc. injection Hdoc as <-.
  repeat split. eexists. split; reflexivity.
Qed.

Lemma quarterly_scan_records (urljoin : string -> string -> result string)
    (tag_eq : Bs4.Soup -> Bs4.handle -> Bs4.handle -> bool)
    (soup : Bs4.Soup) (base_url : string) :
  match snd (ScraperV1.extract_quarterly_result_pdfs urljoin tag_eq soup base_url) with
  | Ok pdfs => List.Forall quarterly_record pdfs
  | Raise e => refused urljoin soup base_url e
  end.
Proof.
  unfold ScraperV1.extract_quarterly_result_pdfs.
  match goal with
  | |- context [ScraperV1.collect_all ?f ?l] =>
      pose proof (collect_all_Forall f quarterly_record (refused urljoin soup base_url) l)
        as Hrun;
      destruct (ScraperV1.collect_all f l) as [pdfs | e]
  end; apply Hrun; clear Hrun;
    intros table _; apply collect_all_Forall; intros row Hrow;
    unfold ScraperV1.raw_pdf_row;
    (destruct (Bs4.find_all soup row ["td"; "th"] false) as [ | first rest ] eqn:Hcells;
     [ constructor | ]);
    (destruct (Py.contains _ _); [ | constructor ]);
    apply collect_Forall; intros cell Hcell;
    apply (raw_pdf_cell_record urljoin tag_eq soup base_url table row cell);
    [ exact Hrow | right; exact Hcell | exact Hrow | right; exact Hcell ].
Qed.

(** The scanner of the quarterly result PDFs raises only when [urljoin]
    raises on the address of a link of the page (its list indexing and
    [cells.index] always succeed), so it returns when [urljoin] accepts
    every address; and every record it returns is filed under
    [quarterly_results], flagged [force_pdf] and named after its
    quarter. *)
Theorem quarterly_pdfs_are_flagged (urljoin : string -> string -> result string)
    (tag_eq : Bs4.Soup -> Bs4.handle -> Bs4.handle -> bool)
    (soup : Bs4.Soup) (base_url : string) :
  match snd (ScraperV1.extract_quarterly_result_pdfs urljoin tag_eq soup base_url) with
  | Ok pdfs => List.Forall quarterly_record pdfs
  | Raise e => refused urljoin soup base_url e
  end
  /\ ((forall href, exists full_url, urljoin base_url href = Ok full_url) ->
      exists pdfs,
        snd (ScraperV1.extract_quarterly_result_pdfs urljoin tag_eq soup base_url)
        = Ok pdfs).
Proof.
  pose proof (quarterly_scan_records urljoin tag_eq soup base_url) as Hrun.
  split; [ exact Hrun | ]. intros Htotal.
  destruct (snd (ScraperV1.extract_quarterly_result_pdfs urljoin tag_eq soup base_url))
    as [pdfs | e]; [ exists pdfs; reflexivity | ].
  destruct Hrun as (link & href & _ & Hraise).
  destruct (Htotal href) as (full_url & Hok). congruence.
Qed.

(** ** Where the quarterly PDFs and the concall links are saved *)

Lemma clean_filename_first (c : ascii) (s : string) :
  safe_char c = true ->
  exists rest, ScraperV1.clean_filename (String c s) = String c rest.
Proof.
  unfold safe_char. intros Hsafe. apply andb_true_iff in Hsafe.
  destruct Hsafe as [Hallowed Hblack]. apply negb_true_iff in Hallowed, Hblack.
  assert (Hslash : c <> "/"%char) by (intros ->; vm_compute in Hallowed; discriminate).
  assert (Hback : c <> "\"%char) by (intros ->; vm_compute in Hallowed; discriminate).
  unfold ScraperV1.clean_filename, Py.strip.
  cbn [Py.remove_chars]. rewrite Hallowed.
  cbn [Py.lstrip]. rewrite Hblack.
  assert (Hr : exists r, Py.rstrip (String c (Py.remove_chars ScraperV1.forbidden_char s))
                         = String c r).
  { cbn [Py.rstrip]. destruct (Py.rstrip _); rewrite ?Hblack; eexists; reflexivity. }
  destruct Hr as (r & ->).
  cbn [Py.sub_space_runs]. rewrite Hblack.
  cbn [Py.replace_char]. destruct (ascii_dec c "/"); [ contradiction | ].
  cbn [Py.replace_char]. destruct (ascii_dec c "\"); [ contradiction | ].
  cbn [Py.take]. eexists. reflexivity.
Qed.

Lemma build_filename_stem (item : ScraperV1.DocumentLink) (folder_key : string)
    (download_stats : gmap string nat) (ext : string) (c : ascii) (rest : string) :
  text item = String c rest ->
  safe_char c = true ->
  exists stem,
    stem <> "" /\ ScraperV1.build_filename item folder_key download_stats ext = stem +:+ ext.
Proof.
  intros Htext Hsafe. unfold ScraperV1.build_filename. rewrite Htext. cbn [Py.is_empty].
  destruct (clean_filename_first c rest Hsafe) as (cleaned & ->).
  destruct (ScraperV1.date_match _) as [m | ]; [ destruct (Py.contains m _) | ];
    eexists; (split; [ | reflexivity ]); discriminate.
Qed.

Lemma chosen_ext_forced (item : ScraperV1.DocumentLink) :
  force_pdf item = Some true -> ScraperV1.chosen_ext item = ".pdf".
Proof.
  intros Hflag. unfold ScraperV1.chosen_ext. rewrite Hflag. simpl.
  pose proof (icra_rewrite_keeps_flag (category item) (url item)) as Hkeep.
  destruct (ScraperV1.icra_rewrite (category item) (url item) true) as [full_url force].
  simpl in Hkeep. subst force. reflexivity.
Qed.

Lemma pdf_path_is_kept (save_path : Py.Path) (content_type : string)
    (is_pdf : option bool) (s : State) :
  Py.suffix save_path = ".pdf" ->
  ScraperV1.adjust_extension save_path content_type is_pdf s = (Ok save_path, s).
Proof. intros Hsuffix. unfold ScraperV1.adjust_extension. rewrite Hsuffix. reflexivity. Qed.

Lemma v1_destination_of_key (company_folder folder : Py.Path) (category : string) :
  ScraperV1.folders company_folder !! category = Some folder ->
  ScraperV1.destination company_folder category = folder.
Proof.
  intros Hkey. unfold ScraperV1.destination, ScraperV1.folder_key.
  rewrite bool_decide_eq_true_2 by (rewrite Hkey; eauto).
  rewrite Hkey. reflexivity.
Qed.

(** Every link the quarterly scanner returns is saved in the folder
    [quarterly_result_pdfs] under a name with the suffix [.pdf], and
    [download_file] keeps that name whatever the HEAD probe reported. *)
Theorem quarterly_pdfs_are_saved_as_pdf (urljoin : string -> string -> result string)
    (tag_eq : Bs4.Soup -> Bs4.handle -> Bs4.handle -> bool)
    (soup : Bs4.Soup) (base_url : string) (pdfs : list ScraperV1.DocumentLink)
    (doc : ScraperV1.DocumentLink) (company_folder : Py.Path)
    (download_stats : gmap string nat) :
  snd (ScraperV1.extract_quarterly_result_pdfs urljoin tag_eq soup base_url) = Ok pdfs ->
  In doc pdfs ->
  Py.parent (ScraperV1.save_path company_folder download_stats doc)
  = Py.joinpath company_folder "quarterly_result_pdfs"
  /\ Py.suffix (ScraperV1.save_path company_folder download_stats doc) = ".pdf"
  /\ forall content_type is_pdf s,
       ScraperV1.adjust_extension
         (ScraperV1.save_path company_folder download_stats doc) content_type is_pdf s
       = (Ok (ScraperV1.save_path company_folder download_stats doc), s).
Proof.
  intros Hrun Hdoc.
  pose proof (quarterly_scan_records urljoin tag_eq soup base_url) as Hall.
  rewrite Hrun in Hall. rewrite List.Forall_forall in Hall.
  destruct (Hall doc Hdoc) as (Hcategory & Hflag & _ & quarter_info & _ & Htext).
  assert (Hsuffix : Py.suffix (ScraperV1.save_path company_folder download_stats doc)
                    = ".pdf").
  { unfold ScraperV1.save_path. rewrite (chosen_ext_forced doc Hflag).
    destruct (build_filename_stem doc
                (ScraperV1.folder_key company_folder (category doc)) download_stats ".pdf"
                "Q" ("uarterly Result PDF - " +:+ quarter_info) Htext eq_refl)
      as (stem & Hstem & ->).
    apply suffix_pdf. exact Hstem. }
  split; [ | split ].
  - unfold ScraperV1.save_path. rewrite parent_joinpath, Hcategory.
    apply v1_destination_of_key. reflexivity.
  - exact Hsuffix.
  - intros content_type is_pdf s. apply pdf_path_is_kept. exact Hsuffix.
Qed.

Lemma quarterly_pdfs_are_saved_as_pdf_witness :
  Py.name (ScraperV1.save_path ["TCS"] ScraperV1.download_stats0
             (mkDoc "quarterly_results" "Quarterly Result PDF - Jun 2024" None
                    "/company/source/quarter/3365/6/2024/" (Some "Jun 2024") (Some true)))
  = "Quarterly_Result_PDF_-_Jun_2024.pdf"
  /\ Py.parent (ScraperV1.save_path ["TCS"] ScraperV1.download_stats0
                  (mkDoc "quarterly_results" "Quarterly Result PDF - Jun 2024" None
                         "/company/source/quarter/3365/6/2024/" (Some "Jun 2024") (Some true)))
     = ["TCS"; "quarterly_result_pdfs"].
Proof.
  split; [ reflexivity | ].
  apply (quarterly_pdfs_are_saved_as_pdf (fun _ href => Ok href) same_place quarters_page
           company_url
           [mkDoc "quarterly_results" "Quarterly Result PDF - Jun 2024" None
                  "/company/source/quarter/3365/6/2024/" (Some "Jun 2024") (Some true);
            mkDoc "quarterly_results" "Quarterly Result PDF - Sep 2024" None
                  "/company/source/quarter/3365/9/2024/" (Some "Sep 2024") (Some true)]
           _ ["TCS"] ScraperV1.download_stats0).
  - reflexivity.
  - left. reflexivity.
Defined.

(** ** The concall links *)

(** Every record of the concalls extractor comes from a [concall-link]
    element with a non-empty [href] and a visible text: it is filed under
    [concalls], its name is not empty and ends with the text of the link,
    its address is what [urljoin] made of the [href], and the document
    loop saves it in the folder [concalls].  The extractor raises only
    when [urljoin] raises on the [href] of an element of the page. *)
Theorem concall_links_go_to_concalls (urljoin : string -> string -> result string)
    (soup : Bs4.Soup) (base_url : string) (company_folder : Py.Path)
    (download_stats : gmap string nat) :
  match snd (ScraperV1.extract_concalls_comprehensive urljoin soup base_url) with
  | Ok records =>
      List.Forall
        (fun record =>
           category (fst record) = "concalls"
           /\ force_pdf (fst record) = None
           /\ text (fst record) <> ""
           /\ (exists el href link_text,
                 Bs4.get_attr soup el "href" = Some href /\ href <> ""
                 /\ link_text = Bs4.get_text_strip soup el /\ link_text <> ""
                 /\ urljoin base_url href = Ok (url (fst record))
                 /\ snd record = Py.lower link_text
                 /\ (text (fst record) = link_text
                     \/ exists q, quarter (fst record) = Some q
                                  /\ text (fst record) = q +:+ "_" +:+ link_text))
           /\ Py.parent (ScraperV1.save_path company_folder download_stats (fst record))
              = Py.joinpath company_folder "concalls")
        records
  | Raise e => refused urljoin soup base_url e
  end.
Proof.
  match goal with
  | |- match _ with Ok records => List.Forall ?Q records | Raise _ => _ end => set (good := Q)
  end.
  assert (Hitem : forall li,
             match ScraperV1.concall_item urljoin soup base_url li with
             | Ok records => List.Forall good records
             | Raise e => refused urljoin soup base_url e
             end).
  { intros li. unfold ScraperV1.concall_item. apply collect_Forall. intros el _.
    unfold ScraperV1.concall_record.
    destruct (Bs4.get_attr soup el "href") as [href | ] eqn:Hhref; [ | discriminate ].
    destruct (Py.is_empty href) eqn:Hempty; [ discriminate | ].
    destruct (Py.is_empty (Bs4.get_text_strip soup el)) eqn:Hblank; [ discriminate | ].
    cbn [orb]. cbn.
    destruct (urljoin base_url href) as [full_url | e] eqn:Hjoin;
      [ | exists el, href; auto ].
    intros record Hrecord. injection Hrecord as <-. unfold good.
    cbn [fst snd category force_pdf text url quarter].
    apply is_empty_false in Hempty, Hblank.
    assert (Hname : forall q, q +:+ "_" +:+ Bs4.get_text_strip soup el <> "").
    { intros q Hq. apply (f_equal String.length) in Hq.
      rewrite !append_length in Hq. simpl in Hq. lia. }
    repeat split.
    - destruct (Bs4.get_text_strip soup <$> Bs4.find soup li ["div"]) as [q | ];
        [ destruct (Py.is_empty q) | ]; auto.
    - exists el, href, (Bs4.get_text_strip soup el). repeat split; auto.
      destruct (Bs4.get_text_strip soup <$> Bs4.find soup li ["div"]) as [q | ];
        [ destruct (Py.is_empty q) | ]; auto.
      right. exists q. auto.
    - unfold ScraperV1.save_path. rewrite parent_joinpath. cbn [category].
      apply v1_destination_of_key. reflexivity. }
  unfold ScraperV1.extract_concalls_comprehensive.
  destruct (ScraperV1.concall_container soup) as [container | ]; [ | constructor ].
  destruct (head _) as [ul | ]; [ | constructor ].
  match goal with
  | |- context [ScraperV1.collect_all ?f ?l] =>
      pose proof (collect_all_Forall f good (refused urljoin soup base_url) l
                    (fun li _ => Hitem li)) as Hrun;
      destruct (ScraperV1.collect_all f l) as [records | e]
  end; exact Hrun.
Qed.

(** ** The folder of every link the loops consume *)

Lemma classified_categories (urljoin : string -> string -> result string)
    (soup : Bs4.Soup) (base_url : string) (docs : list ScraperV1.DocumentLink) :
  snd (ScraperV1.extract_documents_links urljoin soup base_url) = Ok docs ->
  List.Forall (fun d => In (category d) ["announcements"; "annual"; "credit_ratings"; "other"])
              docs.
Proof.
  intros Hdocs.
  pose proof (extract_documents_links_outcome urljoin soup base_url) as Hout.
  rewrite Hdocs in Hout. cbn [outcome] in Hout.
  apply List.Forall_forall. intros d Hd.
  destruct (Forall2_right _ _ _ _ Hout Hd) as ([cat a] & Hin & full_url & _ & ->).
  apply filter_In in Hin. destruct Hin as [Hin _]. cbn [link_doc category fst].
  unfold document_links, ScraperV1.section_links in Hin. apply in_flat_map in Hin.
  destruct Hin as (cs & Hcs & Hca). apply in_map_iff in Hca.
  destruct Hca as (a' & Heq & _). injection Heq as <- _.
  assert (Hall : Forall (fun cs => In (fst cs)
                           ["announcements"; "annual"; "credit_ratings"; "other"])
                        (snd (document_sections soup))).
  { unfold document_sections.
    destruct (ScraperV1.docs_heading soup); [ | constructor ].
    destruct (ScraperV1.best_container _ _ _ _ _); [ | constructor ].
    apply collect_sections_categories. }
  rewrite List.Forall_forall in Hall. exact (Hall cs Hcs).
Qed.

Lemma concall_categories (urljoin : string -> string -> result string)
    (soup : Bs4.Soup) (base_url : string) (records : list (ScraperV1.DocumentLink * string)) :
  snd (ScraperV1.extract_concalls_comprehensive urljoin soup base_url) = Ok records ->
  List.Forall (fun record => category (fst record) = "concalls") records.
Proof.
  unfold ScraperV1.extract_concalls_comprehensive.
  destruct (ScraperV1.concall_container soup) as [container | ];
    [ | intros H; injection H as <-; constructor ].
  destruct (head _) as [ul | ]; [ | intros H; injection H as <-; constructor ].
  match goal with
  | |- context [ScraperV1.collect_all ?f ?l] =>
      pose proof (collect_all_Forall f (fun record => category (fst record) = "concalls")
                    (fun _ => True) l) as Hrun;
      destruct (ScraperV1.collect_all f l) as [found | e]
  end; [ | discriminate ].
  intros H. injection H as <-. apply Hrun. clear Hrun.
  intros li _. unfold ScraperV1.concall_item. apply collect_Forall. intros el _.
  unfold ScraperV1.concall_record.
  destruct (Bs4.get_attr soup el "href") as [href | ]; [ | discriminate ].
  destruct (_ || _); [ discriminate | ]. cbn.
  destruct (urljoin base_url href); [ | exact I ].
  intros record Hrecord. injection Hrecord as <-. reflexivity.
Qed.

Lemma column_category_known (col_title : string) :
  In (Scraper.column_category col_title)
     ["announcements"; "annual"; "concalls"; "credit_ratings"; "other"].
Proof.
  unfold Scraper.column_category.
  repeat match goal with
         | |- context [if ?c then _ else _] => destruct c
         end; simpl; auto 6.
Qed.

Lemma column_categories (urljoin : string -> string -> result string)
    (soup : Bs4.Soup) (base_url : string) (docs : list ScraperV1.DocumentLink) :
  snd (Scraper.extract_documents_links urljoin soup base_url) = Ok docs ->
  List.Forall
    (fun d => In (category d)
                 ["announcements"; "annual"; "concalls"; "credit_ratings"; "other"])
    docs.
Proof.
  intros Hdocs.
  destruct (ScraperV1.docs_heading soup) as [heading | ] eqn:Hheading;
    [ destruct (Scraper.find_container 4 soup heading) as [container | ] eqn:Hcontainer | ].
  - pose proof (scraper_links_outcome urljoin soup base_url heading container
                  Hheading Hcontainer) as Hout.
    rewrite Hdocs in Hout. cbn [outcome] in Hout.
    apply List.Forall_forall. intros d Hd.
    destruct (Forall2_right _ _ _ _ Hout Hd) as ([cat a] & Hin & full_url & _ & ->).
    cbn [link_doc category fst].
    unfold Scraper.column_links in Hin. apply in_flat_map in Hin.
    destruct Hin as (tc & _ & Hca). apply in_map_iff in Hca.
    destruct Hca as (a' & Heq & _). injection Heq as <- _.
    apply column_category_known.
  - unfold Scraper.extract_documents_links in Hdocs. rewrite Hheading, Hcontainer in Hdocs.
    injection Hdocs as <-. constructor.
  - unfold Scraper.extract_documents_links in Hdocs. rewrite Hheading in Hdocs.
    injection Hdocs as <-. constructor.
Qed.

Lemma v0_destination_of_key (company_folder folder : Py.Path) (category : string) :
  Scraper.folders company_folder !! category = Some folder ->
  Scraper.destination company_folder category = folder.
Proof.
  intros Hkey. unfold Scraper.destination, Scraper.folder_key.
  rewrite bool_decide_eq_true_2 by (rewrite Hkey; eauto).
  rewrite Hkey. reflexivity.
Qed.

(** C1.  In [scraperv1.py] a link whose category is no key of the folder
    map is saved in the "other" folder, and whatever its category a link
    is saved in a folder of the map, in both scripts.  The links the two
    loops consume are those their extractors return, and each of these has
    a category that is a key of the map of its script: it is saved in the
    folder of its category.  So no link the loop of [scraper.py] consumes
    is without a folder of its own, and the fallback of that loop never
    decides where a link goes. *)
Theorem C1_unknown_category_folder (urljoin : string -> string -> result string)
    (tag_eq : Bs4.Soup -> Bs4.handle -> Bs4.handle -> bool)
    (company_folder : Py.Path) (download_stats : gmap string nat) :
  (forall item : ScraperV1.DocumentLink,
     ScraperV1.folders company_folder !! category item = None ->
     ScraperV1.folder_key company_folder (category item) = "other"
     /\ Py.parent (ScraperV1.save_path company_folder download_stats item)
        = Py.joinpath company_folder "other_documents")
  /\ (forall item : ScraperV1.DocumentLink,
        (exists key,
           ScraperV1.folders company_folder !! key
           = Some (Py.parent (ScraperV1.save_path company_folder download_stats item)))
        /\ (exists key,
              Scraper.folders company_folder !! key
              = Some (Py.parent (Scraper.save_path company_folder download_stats item))))
  /\ (forall soup concalls_soup quarters_soup base_url doc_links concall_links
             quarterly_pdfs item,
        snd (ScraperV1.extract_documents_links urljoin soup base_url) = Ok doc_links ->
        snd (ScraperV1.extract_concalls_comprehensive urljoin concalls_soup base_url)
        = Ok concall_links ->
        snd (ScraperV1.extract_quarterly_result_pdfs urljoin tag_eq quarters_soup base_url)
        = Ok quarterly_pdfs ->
        In item (doc_links ++ List.map fst concall_links ++ quarterly_pdfs) ->
        ScraperV1.folders company_folder !! category item
        = Some (Py.parent (ScraperV1.save_path company_folder download_stats item)))
  /\ (forall soup base_url doc_links item,
        snd (Scraper.extract_documents_links urljoin soup base_url) = Ok doc_links ->
        In item doc_links ->
        Scraper.folders company_folder !! category item
        = Some (Py.parent (Scraper.save_path company_folder download_stats item))).
Proof.
  split; [ | split; [ | split ] ].
  - intros item Hv1.
    assert (Hk1 : ScraperV1.folder_key company_folder (category item) = "other").
    { unfold ScraperV1.folder_key. rewrite Hv1.
      case_bool_decide as Hin; [ destruct Hin; discriminate | reflexivity ]. }
    split; [ exact Hk1 | ].
    unfold ScraperV1.save_path. rewrite parent_joinpath.
    pose proof (v1_destination_known company_folder (category item)) as Hd.
    rewrite Hk1, v1_folder_other in Hd. congruence.
  - intros item. split.
    + unfold ScraperV1.save_path. rewrite parent_joinpath.
      eexists. apply v1_destination_known.
    + unfold Scraper.save_path. rewrite parent_joinpath.
      eexists. apply v0_destination_known.
  - intros soup concalls_soup quarters_soup base_url doc_links concall_links quarterly_pdfs
           item Hdocs Hconcalls Hquarters Hin.
    assert (Hkey : exists folder, ScraperV1.folders company_folder !! category item
                                  = Some folder).
    { apply in_app_or in Hin. destruct Hin as [Hin | Hin].
      - pose proof (classified_categories urljoin soup base_url doc_links Hdocs) as Hall.
        rewrite List.Forall_forall in Hall. specialize (Hall item Hin). simpl in Hall.
        destruct Hall as [<- | [<- | [<- | [<- | []]]]]; eexists; reflexivity.
      - apply in_app_or in Hin. destruct Hin as [Hin | Hin].
        + apply in_map_iff in Hin. destruct Hin as (record & <- & Hin).
          pose proof (concall_categories urljoin concalls_soup base_url concall_links
                        Hconcalls) as Hall.
          rewrite List.Forall_forall in Hall. rewrite (Hall record Hin).
          eexists. reflexivity.
        + pose proof (quarterly_scan_records urljoin tag_eq quarters_soup base_url) as Hall.
          rewrite Hquarters in Hall. rewrite List.Forall_forall in Hall.
          destruct (Hall item Hin) as (-> & _). eexists. reflexivity. }
    destruct Hkey as (folder & Hfolder). rewrite Hfolder.
    unfold ScraperV1.save_path. rewrite parent_joinpath.
    rewrite (v1_destination_of_key company_folder folder _ Hfolder). reflexivity.
  - intros soup base_url doc_links item Hdocs Hin.
    assert (Hkey : exists folder, Scraper.folders company_folder !! category item
                                  = Some folder).
    { pose proof (column_categories urljoin soup base_url doc_links Hdocs) as Hall.
      rewrite List.Forall_forall in Hall. specialize (Hall item Hin). simpl in Hall.
      destruct Hall as [<- | [<- | [<- | [<- | [<- | []]]]]]; eexists; reflexivity. }
    destruct Hkey as (folder & Hfolder). rewrite Hfolder.
    unfold Scraper.save_path. rewrite parent_joinpath.
    rewrite (v0_destination_of_key company_folder folder _ Hfolder). reflexivity.
Qed.

Lemma C1_unknown_category_folder_witness :
  ScraperV1.folders ["TCS"] !! "annual"
  = Some (Py.parent
            (ScraperV1.save_path ["TCS"] ScraperV1.download_stats0
               (mkDoc "annual" "Financial Year 2024" (Some "https://www.bseindia.com/ar/2024.pdf")
                      "https://www.bseindia.com/ar/2024.pdf" None None)))
  /\ ScraperV1.folders ["TCS"] !! "quarterly_results"
     = Some (Py.parent
               (ScraperV1.save_path ["TCS"] ScraperV1.download_stats0
                  (mkDoc "quarterly_results" "Quarterly Result PDF - Jun 2024" None
                         "/company/source/quarter/3365/6/2024/" (Some "Jun 2024")
                         (Some true))))
  /\ Scraper.folders ["TCS"] !! "annual"
     = Some (Py.parent
               (Scraper.save_path ["TCS"] Scraper.download_stats0
                  (mkDoc "annual" "Show More" (Some "#") "#" None None))).
Proof.
  destruct (C1_unknown_category_folder (fun _ href => Ok href) same_place ["TCS"]
              ScraperV1.download_stats0) as (_ & _ & Hv1 & _).
  destruct (C1_unknown_category_folder (fun _ href => Ok href) same_place ["TCS"]
              Scraper.download_stats0) as (_ & _ & _ & Hv0).
  split; [ | split ].
  - eapply (Hv1 documents_page concalls_page quarters_page company_url _ _ _
              (mkDoc "annual" "Financial Year 2024"
                     (Some "https://www.bseindia.com/ar/2024.pdf")
                     "https://www.bseindia.com/ar/2024.pdf" None None));
      [ reflexivity | reflexivity | reflexivity | ].
    vm_compute. repeat (first [ left; reflexivity | right ]).
  - eapply (Hv1 documents_page concalls_page quarters_page company_url _ _ _
              (mkDoc "quarterly_results" "Quarterly Result PDF - Jun 2024" None
                     "/company/source/quarter/3365/6/2024/" (Some "Jun 2024") (Some true)));
      [ reflexivity | reflexivity | reflexivity | ].
    vm_compute. repeat (first [ left; reflexivity | right ]).
  - eapply (Hv0 documents_page company_url _
              (mkDoc "annual" "Show More" (Some "#") "#" None None)); [ reflexivity | ].
    vm_compute. repeat (first [ left; reflexivity | right ]).
Defined.

(** A link of a category without a folder, which no extractor returns,
    would be saved in "other_documents" by [scraperv1.py]; the fallback
    line of [scraper.py] names "announcements" instead. *)
Example fallback_lines :
  ScraperV1.folders ["TCS"] !! category unfiled_link = None
  /\ Py.parent (ScraperV1.save_path ["TCS"] ScraperV1.download_stats0 unfiled_link)
     = ["TCS"; "other_documents"]
  /\ Scraper.folder_key ["TCS"] (category unfiled_link) = "announcements".
Proof. repeat split. Qed.

(** ** The suffix of a downloaded file *)

Lemma rfind_dot_html (stem : string) :
  Py.rfind_char "." (stem +:+ ".html") = Some (String.length stem).
Proof.
  induction stem as [ | c stem IH ]; [ reflexivity | ].
  change (Py.rfind_char "." (String c (stem +:+ ".html")) = Some (S (String.length stem))).
  simpl. rewrite IH. reflexivity.
Qed.

Lemma suffix_html (folder : Py.Path) (stem : string) :
  stem <> "" -> Py.suffix (Py.joinpath folder (stem +:+ ".html")) = ".html".
Proof.
  intros Hstem. unfold Py.suffix. rewrite name_joinpath, rfind_dot_html.
  destruct stem as [ | c stem ]; [ congruence | ].
  cbn [String.length]. rewrite append_length. cbn [String.length].
  replace (S (String.length stem) <? S (String.length stem) + 5 - 1)%nat with true
    by (symmetry; apply Nat.ltb_lt; lia).
  exact (drop_stem (String c stem) ".html").
Qed.

Lemma drop_length (k : nat) (s : string) :
  String.length (Py.drop k s) = String.length s - k.
Proof.
  revert s. induction k as [ | k IH ]; intros [ | c s ]; simpl; try lia. apply IH.
Qed.

Lemma take_whole (k : nat) (s : string) : String.length s <= k -> Py.take k s = s.
Proof.
  revert s. induction k as [ | k IH ]; intros [ | c s ] Hk; simpl in *; try reflexivity;
    try lia.
  f_equal. apply IH. lia.
Qed.

Lemma take_nonempty (k : nat) (s : string) : s <> "" -> k <> 0 -> Py.take k s <> "".
Proof. destruct k, s; simpl; congruence. Qed.

Lemma stem_nonempty (p : Py.Path) :
  Py.name p <> "" ->
  Py.take (String.length (Py.name p) - String.length (Py.suffix p)) (Py.name p) <> "".
Proof.
  intros Hname. unfold Py.suffix.
  destruct (Py.rfind_char "." (Py.name p)) as [[ | i] | ];
    try (cbn [String.length]; rewrite Nat.sub_0_r, take_whole by lia; exact Hname).
  destruct (Nat.ltb (S i) (String.length (Py.name p) - 1)) eqn:Hdot.
  - apply Nat.ltb_lt in Hdot. rewrite drop_length. apply take_nonempty; [ exact Hname | lia ].
  - cbn [String.length]. rewrite Nat.sub_0_r, take_whole by lia. exact Hname.
Qed.

Lemma suffix_with_suffix (p q : Py.Path) (ext : string) :
  Py.with_suffix p ext = Some q -> ext = ".pdf" \/ ext = ".html" -> Py.suffix q = ext.
Proof.
  unfold Py.with_suffix. destruct (Py.is_empty (Py.name p)) eqn:Hname; [ discriminate | ].
  apply is_empty_false in Hname. intros Hq Hext. injection Hq as <-.
  destruct Hext as [-> | ->]; [ apply suffix_pdf | apply suffix_html ];
    apply stem_nonempty; exact Hname.
Qed.

Lemma adjust_extension_suffix (save_path target : Py.Path) (content_type : string)
    (is_pdf : option bool) (s s' : State) :
  ScraperV1.adjust_extension save_path content_type is_pdf s = (Ok target, s') ->
  Py.mem (Py.lower (Py.suffix target)) page_suffixes = false.
Proof.
  unfold ScraperV1.adjust_extension, ScraperV1.with_suffix.
  unfold read_local, bindM, ret, raise.
  destruct (Py.mem (Py.lower (Py.suffix save_path)) [".pdf"; ".html"; ".htm"]) eqn:Hknown;
    cbn [negb].
  - apply mem_eq in Hknown.
    assert (Hpage : Py.mem (Py.lower (Py.suffix save_path)) [".aspx"; ".php"] = false
                    /\ Py.mem (Py.lower (Py.suffix save_path)) page_suffixes = false).
    { destruct Hknown as [<- | [<- | [<- | []]]]; split; reflexivity. }
    destruct Hpage as [-> Hpage]. intros H. injection H as <- _. exact Hpage.
  - destruct is_pdf as [[ | ] | ]; cbv beta iota zeta; try discriminate.
    + destruct (Py.with_suffix save_path ".pdf") as [q | ] eqn:Hq; [ | discriminate ].
      intros H. injection H as <- _.
      rewrite (suffix_with_suffix _ _ _ Hq) by auto. reflexivity.
    + destruct (Py.contains "text/html" content_type
                || Py.mem (Py.lower (Py.suffix save_path)) [".aspx"; ".php"; ""]) eqn:Hpage.
      * destruct (Py.with_suffix save_path ".html") as [q | ] eqn:Hq; [ | discriminate ].
        intros H. injection H as <- _.
        rewrite (suffix_with_suffix _ _ _ Hq) by auto. reflexivity.
      * apply orb_false_iff in Hpage. destruct Hpage as [_ Hpage].
        intros H. injection H as <- _. exact Hpage.
Qed.

Lemma emits_lift {A} (P : event -> Prop) (r : result A) : emits P (lift r).
Proof.
  intros [disk tr]. exists r, disk, []. cbn [trace]. rewrite app_nil_r.
  split; [ reflexivity | constructor ].
Qed.

Lemma emits_ret {A} (P : event -> Prop) (a : A) : emits P (ret a).
Proof. exact (emits_lift P (Ok a)). Qed.

Lemma emits_raise {A} (P : event -> Prop) (e : string) : emits P (@raise A e).
Proof. exact (emits_lift P (Raise e)). Qed.

Lemma emits_bind {A B} (P : event -> Prop) (m : M A) (k : A -> M B) :
  emits P m -> (forall a, emits P (k a)) -> emits P (bindM m k).
Proof.
  intros Hm Hk s. destruct (Hm s) as (r & disk & evs & E & W).
  unfold bindM. rewrite E. destruct r as [a | e].
  - destruct (Hk a (mkState disk (trace s ++ evs))) as (r' & disk' & evs' & E' & W').
    rewrite E'. cbn [trace]. exists r', disk', (evs ++ evs').
    rewrite app_assoc. split; [ reflexivity | apply List.Forall_app; split; assumption ].
  - exists (Raise e), disk, evs. split; [ reflexivity | assumption ].
Qed.

Lemma emits_try {A} (P : event -> Prop) (m : M A) (handler : string -> M A) :
  emits P m -> (forall e, emits P (handler e)) -> emits P (try_except m handler).
Proof.
  intros Hm Hh s. destruct (Hm s) as (r & disk & evs & E & W).
  unfold try_except. rewrite E. destruct r as [a | e].
  - exists (Ok a), disk, evs. split; [ reflexivity | assumption ].
  - destruct (Hh e (mkState disk (trace s ++ evs))) as (r' & disk' & evs' & E' & W').
    rewrite E'. cbn [trace]. exists r', disk', (evs ++ evs').
    rewrite app_assoc. split; [ reflexivity | apply List.Forall_app; split; assumption ].
Qed.

Lemma emits_emit (P : event -> Prop) (ev : event) : P ev -> emits P (emit ev).
Proof.
  intros Hev s. exists (Ok tt), (files s), [ev].
  split; [ reflexivity | repeat constructor; assumption ].
Qed.

Lemma emits_write_file (P : event -> Prop) (p : Py.Path) (data : string) :
  P (WriteFile p data) -> emits P (write_file p data).
Proof.
  intros Hev s. eexists _, _, _. split; [ reflexivity | ].
  repeat constructor. exact Hev.
Qed.

Lemma emits_st_size (P : event -> Prop) (p : Py.Path) : emits P (st_size p).
Proof.
  intros [disk tr]. unfold st_size. cbn [files trace].
  destruct (_ !! p); eexists _, disk, []; rewrite app_nil_r;
    (split; [ reflexivity | constructor ]).
Qed.

Lemma emits_read_text (P : event -> Prop) (p : Py.Path) : emits P (read_text p).
Proof.
  intros [disk tr]. unfold read_text. cbn [files trace].
  destruct (_ !! p); eexists _, disk, []; rewrite app_nil_r;
    (split; [ reflexivity | constructor ]).
Qed.

Lemma emits_unlink (P : event -> Prop) (p : Py.Path) : P (Unlink p) -> emits P (unlink p).
Proof.
  intros Hev [disk tr]. unfold unlink. cbn [files trace].
  destruct (_ !! p).
  - eexists _, _, _. split; [ reflexivity | ]. repeat constructor. exact Hev.
  - eexists _, disk, []. rewrite app_nil_r. split; [ reflexivity | constructor ].
Qed.

Lemma download_file_body_writes (w : World) (url : string) (save_path : Py.Path) :
  emits writes_no_page (ScraperV1.download_file_body w url save_path).
Proof.
  unfold ScraperV1.download_file_body.
  apply emits_bind.
  { unfold ScraperV1.india_ratings_branch. destruct (_ && _); [ | apply emits_ret ].
    apply emits_bind; [ apply emits_emit; exact I | intros _ ].
    apply emits_try.
    - apply emits_bind; [ apply emits_emit; exact I | intros _ ].
      apply emits_bind; [ apply emits_emit; exact I | intros _ ].
      apply emits_bind; [ apply emits_lift | intros name ].
      apply emits_bind; [ apply emits_emit; exact I | intros _ ]. apply emits_ret.
    - intros e. apply emits_bind; [ apply emits_emit; exact I | intros _ ].
      apply emits_ret. }
  intros [b | ]; [ apply emits_ret | ].
  apply emits_bind.
  { unfold ScraperV1.crisil_branch. destruct (_ && _); [ | apply emits_ret ].
    apply emits_try.
    - apply emits_bind; [ apply emits_emit; exact I | intros _ ].
      apply emits_bind; [ apply emits_lift | intros name ].
      apply emits_bind; [ apply emits_emit; exact I | intros _ ]. apply emits_ret.
    - intros e. apply emits_bind; [ apply emits_emit; exact I | intros _ ].
      apply emits_ret. }
  intros [b | ]; [ apply emits_ret | ].
  unfold ScraperV1.normal_download.
  apply emits_bind.
  { unfold ScraperV1.head_probe.
    apply emits_bind; [ apply emits_emit; exact I | intros _ ].
    apply emits_try; [ | intros e; apply emits_ret ].
    apply emits_bind; [ apply emits_lift | intros ct ]. apply emits_ret. }
  intros probe s.
  destruct (adjust_extension_pure save_path (fst probe) (snd probe)) as (r & Eadjust).
  unfold bindM at 1. rewrite Eadjust. destruct r as [target | e].
  - pose proof (adjust_extension_suffix _ _ _ _ _ _ (Eadjust s)) as Hsuffix.
    revert s. apply emits_bind.
    + unfold ScraperV1.fetch.
      apply emits_bind; [ apply emits_emit; exact I | intros _ ].
      apply emits_bind; [ apply emits_lift | intros response ].
      apply emits_bind; [ apply emits_write_file; exact Hsuffix | intros _ ].
      destruct (broken response); [ apply emits_raise | apply emits_ret ].
    + intros _. apply emits_bind.
      * unfold ScraperV1.drop_error_page.
        apply emits_bind; [ apply emits_st_size | intros size ].
        destruct (Nat.ltb _ _); [ | apply emits_ret ].
        apply emits_try; [ | intros e; apply emits_ret ].
        apply emits_bind; [ apply emits_read_text | intros data ].
        destruct (Py.any_in _ _); [ | apply emits_ret ].
        apply emits_bind; [ apply emits_unlink; exact I | intros _ ]. apply emits_ret.
      * intros [b | ]; apply emits_ret.
  - destruct s as [disk tr]. exists (Raise e), disk, []. cbn [trace].
    rewrite app_nil_r. split; [ reflexivity | constructor ].
Qed.

(** Whatever the sites answer, a file that [download_file] writes never
    has the suffix [.aspx] or [.php] (in any case of letters) and never
    lacks a suffix: such save paths are renamed to [.pdf] or [.html]
    before the download, or the download fails before it writes. *)
Theorem download_file_writes_no_page_suffix (w : World) (url : string)
    (save_path : Py.Path) (disk : gmap Py.Path string) (p : Py.Path) (data : string) :
  In (WriteFile p data)
     (trace (snd (ScraperV1.download_file w url save_path (mkState disk [])))) ->
  Py.mem (Py.lower (Py.suffix p)) page_suffixes = false.
Proof.
  unfold ScraperV1.download_file.
  destruct (download_file_body_writes w url save_path (mkState disk []))
    as (r & disk' & evs & E & Hall).
  rewrite E. cbn [trace app] in *. rewrite List.Forall_forall in Hall.
  destruct r as [b | e]; cbn [snd trace]; intros Hin.
  - exact (Hall _ Hin).
  - apply in_app_or in Hin. destruct Hin as [Hin | [Hin | []]]; [ | discriminate ].
    exact (Hall _ Hin).
Qed.

Lemma download_file_writes_no_page_suffix_witness :
  Py.suffix outcome_path = ".aspx"
  /\ Py.mem (Py.lower (Py.suffix ["TCS"; "announcements"; "Outcome_of_Board_Meeting.html"]))
            page_suffixes = false.
Proof.
  split; [ reflexivity | ].
  apply (download_file_writes_no_page_suffix not_found_site notice_url outcome_path ∅
           ["TCS"; "announcements"; "Outcome_of_Board_Meeting.html"]
           "<h1>404 Not Found</h1>").
  vm_compute. do 2 right. left. reflexivity.
Defined.

(** ** Cleaning a name twice *)

Lemma safe_char_parts (c : ascii) :
  safe_char c = true -> ScraperV1.forbidden_char c = false /\ Py.isspace c = false.
Proof.
  unfold safe_char. intros H. apply andb_true_iff in H. destruct H as [Ha Hb].
  apply negb_true_iff in Ha, Hb. auto.
Qed.

Lemma remove_chars_safe (s : string) :
  Py.string_forallb safe_char s = true -> Py.remove_chars ScraperV1.forbidden_char s = s.
Proof.
  induction s as [ | c s IH ]; [ reflexivity | ].
  rewrite forall_cons. intros H. apply andb_true_iff in H. destruct H as [Hc Hs].
  destruct (safe_char_parts c Hc) as [Hallowed _].
  cbn [Py.remove_chars]. rewrite Hallowed, (IH Hs). reflexivity.
Qed.

Lemma lstrip_safe (s : string) : Py.string_forallb safe_char s = true -> Py.lstrip s = s.
Proof.
  destruct s as [ | c s ]; [ reflexivity | ].
  rewrite forall_cons. intros H. apply andb_true_iff in H. destruct H as [Hc _].
  destruct (safe_char_parts c Hc) as [_ Hblack]. cbn [Py.lstrip]. rewrite Hblack. reflexivity.
Qed.

Lemma rstrip_safe (s : string) : Py.string_forallb safe_char s = true -> Py.rstrip s = s.
Proof.
  induction s as [ | c s IH ]; [ reflexivity | ].
  rewrite forall_cons. intros H. apply andb_true_iff in H. destruct H as [Hc Hs].
  destruct (safe_char_parts c Hc) as [_ Hblack].
  cbn [Py.rstrip]. rewrite (IH Hs). destruct s; rewrite ?Hblack; reflexivity.
Qed.

Lemma sub_space_runs_safe (in_run : bool) (s : string) :
  Py.string_forallb safe_char s = true -> Py.sub_space_runs "_" in_run s = s.
Proof.
  revert in_run. induction s as [ | c s IH ]; intros in_run; [ reflexivity | ].
  rewrite forall_cons. intros H. apply andb_true_iff in H. destruct H as [Hc Hs].
  destruct (safe_char_parts c Hc) as [_ Hblack].
  cbn [Py.sub_space_runs]. rewrite Hblack, (IH false Hs). reflexivity.
Qed.

Lemma replace_char_safe (c : ascii) (s : string) :
  ScraperV1.forbidden_char c = true ->
  Py.string_forallb safe_char s = true -> Py.replace_char c "_" s = s.
Proof.
  intros Hc. induction s as [ | a s IH ]; [ reflexivity | ].
  rewrite forall_cons. intros H. apply andb_true_iff in H. destruct H as [Ha Hs].
  destruct (safe_char_parts a Ha) as [Hallowed _].
  cbn [Py.replace_char]. destruct (ascii_dec a c) as [-> | _]; [ congruence | ].
  rewrite (IH Hs). reflexivity.
Qed.

Lemma clean_filename_safe_chars (text : string) :
  Py.string_forallb safe_char (ScraperV1.clean_filename text) = true.
Proof.
  unfold ScraperV1.clean_filename.
  apply forall_take. apply forall_replace_char; [ reflexivity | ].
  apply forall_replace_char; [ reflexivity | ].
  apply forall_sub_space_runs. unfold Py.strip.
  apply forall_rstrip, forall_lstrip, forall_remove_chars.
Qed.

(** Cleaning is idempotent: a cleaned name is left as it is when it is
    cleaned again. *)
Theorem clean_filename_idempotent (text : string) :
  ScraperV1.clean_filename (ScraperV1.clean_filename text) = ScraperV1.clean_filename text.
Proof.
  pose proof (clean_filename_safe_chars text) as Hsafe.
  assert (Hshort : String.length (ScraperV1.clean_filename text) <= 150)
    by (unfold ScraperV1.clean_filename; apply take_length).
  set (name := ScraperV1.clean_filename text) in *.
  unfold ScraperV1.clean_filename, Py.strip.
  rewrite (remove_chars_safe name Hsafe), (lstrip_safe name Hsafe), (rstrip_safe name Hsafe).
  rewrite (sub_space_runs_safe false name Hsafe).
  rewrite (replace_char_safe "/" name eq_refl Hsafe).
  rewrite (replace_char_safe "\" name eq_refl Hsafe).
  apply take_whole. exact Hshort.
Qed.

(** ** The date in a file name *)

Lemma startswith_append (s p x : string) :
  Py.startswith s p = true -> Py.startswith (s +:+ x) p = true.
Proof.
  revert s. induction p as [ | a p IH ]; intros s;
    [ intros _; destruct s; [ change ("" +:+ x) with x; destruct x | ]; reflexivity | ].
  destruct s as [ | b s ]; [ discriminate | ].
  change (String b s +:+ x) with (String b (s +:+ x)). cbn [Py.startswith].
  destruct (ascii_dec a b); [ apply IH | discriminate ].
Qed.

Lemma startswith_self (m x : string) : Py.startswith (m +:+ x) m = true.
Proof.
  induction m as [ | a m IH ]; [ change ("" +:+ x) with x; destruct x; reflexivity | ].
  change (String a m +:+ x) with (String a (m +:+ x)). cbn [Py.startswith].
  destruct (ascii_dec a a); [ exact IH | contradiction ].
Qed.

Lemma contains_unfold (sub s : string) :
  Py.contains sub s
  = Py.startswith s sub
    || match s with EmptyString => false | String _ s' => Py.contains sub s' end.
Proof. destruct s; reflexivity. Qed.

Lemma contains_append_l (m a b : string) :
  Py.contains m a = true -> Py.contains m (a +:+ b) = true.
Proof.
  induction a as [ | c a IH ]; rewrite (contains_unfold m); intros H.
  - rewrite orb_false_r in H. rewrite contains_unfold.
    rewrite (startswith_append "" m b H). reflexivity.
  - change (String c a +:+ b) with (String c (a +:+ b)). rewrite contains_unfold.
    apply orb_true_iff in H. destruct H as [H | H].
    + pose proof (startswith_append (String c a) m b H) as H'.
      change (String c a +:+ b) with (String c (a +:+ b)) in H'. rewrite H'. reflexivity.
    + rewrite (IH H). apply orb_true_r.
Qed.

Lemma contains_append_r (m a b : string) :
  Py.contains m b = true -> Py.contains m (a +:+ b) = true.
Proof.
  intros H. induction a as [ | c a IH ]; [ exact H | ].
  change (String c a +:+ b) with (String c (a +:+ b)). rewrite contains_unfold.
  rewrite IH. apply orb_true_r.
Qed.

Lemma contains_self (m : string) : Py.contains m m = true.
Proof.
  rewrite contains_unfold. pose proof (startswith_self m "") as H.
  rewrite append_empty_r in H. rewrite H. reflexivity.
Qed.

(** When the text of a link holds a year, a financial year or a quarter
    ([20dd], [19dd], [FYdd], [Qd]), the first such mark is part of the
    name of the saved file, also when the cleaned text was cut short. *)
Theorem file_name_keeps_the_date (item : ScraperV1.DocumentLink) (folder_key : string)
    (download_stats : gmap string nat) (ext mark : string) :
  ScraperV1.date_match (text item) = Some mark ->
  Py.contains mark (ScraperV1.build_filename item folder_key download_stats ext) = true.
Proof.
  intros Hmark. unfold ScraperV1.build_filename. rewrite Hmark.
  apply contains_append_l. cbv zeta.
  match goal with
  | |- context [if Py.contains mark ?name then _ else _] =>
      destruct (Py.contains mark name) eqn:Hin
  end; [ exact Hin | ].
  apply contains_append_r, contains_append_r, contains_self.
Qed.

Lemma file_name_keeps_the_date_witness :
  ScraperV1.date_match "Annual report for the financial year ended March 2024" = Some "2024"
  /\ Py.contains "2024"
       (ScraperV1.build_filename
          (mkDoc "annual" "Annual report for the financial year ended March 2024" None
                 "https://www.bseindia.com/ar/2024.pdf" None None)
          "annual" ScraperV1.download_stats0 ".pdf") = true.
Proof.
  split; [ reflexivity | ].
  apply (file_name_keeps_the_date
           (mkDoc "annual" "Annual report for the financial year ended March 2024" None
                  "https://www.bseindia.com/ar/2024.pdf" None None)
           "annual" ScraperV1.download_stats0 ".pdf" "2024").
  reflexivity.
Defined.

(** ** The counters of the document loop *)

Lemma download_item_stats (w : World) (company_folder : Py.Path)
    (download_stats : gmap string nat) (s : State) (item : ScraperV1.DocumentLink) :
  fst (ScraperV1.download_item w company_folder (download_stats, s) item) = download_stats
  \/ fst (ScraperV1.download_item w company_folder (download_stats, s) item)
     = <[category item := default 0 (download_stats !! category item) + 1]> download_stats.
Proof.
  unfold ScraperV1.download_item. destruct (bool_decide _); [ left; reflexivity | ].
  destruct (ScraperV1.download_file _ _ _ _) as [[ | ] s']; [ right | left ]; reflexivity.
Qed.

Lemma download_loop_stats (w : World) (company_folder : Py.Path)
    (links : list ScraperV1.DocumentLink) (download_stats : gmap string nat) (s : State) :
  (forall key, is_Some (download_stats !! key) ->
     is_Some (fst (fold_left (ScraperV1.download_item w company_folder) links
                             (download_stats, s)) !! key))
  /\ (forall c,
        default 0 (fst (fold_left (ScraperV1.download_item w company_folder) links
                                  (download_stats, s)) !! c)
        <= default 0 (download_stats !! c) + links_in c links).
Proof.
  revert download_stats s. induction links as [ | item links IH ]; intros download_stats s.
  - split; [ auto | intros c; cbn; lia ].
  - cbn [fold_left].
    destruct (ScraperV1.download_item w company_folder (download_stats, s) item)
      as [stats' s'] eqn:Hitem.
    pose proof (download_item_stats w company_folder download_stats s item) as Hstats.
    rewrite Hitem in Hstats. cbn [fst] in Hstats.
    destruct (IH stats' s') as [Hkeys Hcounts]. split.
    + intros key Hkey. apply Hkeys.
      destruct Hstats as [-> | ->]; [ exact Hkey | ].
      destruct (decide (category item = key)) as [<- | Hother].
      * rewrite lookup_insert_eq. eauto.
      * rewrite lookup_insert_ne by exact Hother. exact Hkey.
    + intros c. specialize (Hcounts c).
      assert (Hstep : default 0 (stats' !! c)
                      <= default 0 (download_stats !! c)
                         + (if String.eqb (category item) c then 1 else 0)).
      { destruct Hstats as [-> | ->]; [ lia | ].
        destruct (String.eqb_spec (category item) c) as [<- | Hother].
        - rewrite lookup_insert_eq. cbn. lia.
        - rewrite lookup_insert_ne by exact Hother. lia. }
      unfold links_in in *. cbn [List.filter].
      destruct (String.eqb (category item) c); cbn [length]; lia.
Qed.

(** After the document loop every counter the summary reads is still
    there, and no counter exceeds the number of links of its category. *)
Theorem download_counters_are_bounded (w : World) (company_folder : Py.Path)
    (all_doc_links : list ScraperV1.DocumentLink) (s : State) :
  (forall key,
     In key ["annual"; "concalls"; "announcements"; "credit_ratings";
             "quarterly_results"; "other"] ->
     is_Some (fst (ScraperV1.download_documents w company_folder all_doc_links s) !! key))
  /\ (forall c,
        default 0 (fst (ScraperV1.download_documents w company_folder all_doc_links s) !! c)
        <= links_in c all_doc_links).
Proof.
  unfold ScraperV1.download_documents.
  destruct (download_loop_stats w company_folder all_doc_links ScraperV1.download_stats0 s)
    as [Hkeys Hcounts].
  split.
  - intros key Hkey. apply Hkeys.
    repeat (destruct Hkey as [<- | Hkey]; [ vm_compute; eauto | ]). destruct Hkey.
  - intros c. specialize (Hcounts c).
    assert (Hzero : default 0 (ScraperV1.download_stats0 !! c) = 0).
    { unfold ScraperV1.download_stats0.
      destruct (list_to_map _ !! c) as [n | ] eqn:Hc; [ | reflexivity ].
      apply (elem_of_list_to_map_2 (M := gmap string)) in Hc.
      repeat (apply elem_of_cons in Hc; destruct Hc as [Hc | Hc];
              [ injection Hc as _ ->; reflexivity | ]).
      apply elem_of_nil in Hc. destruct Hc. }
    lia.
Qed.

(** ** Links that are already on disk *)

(** When the save path of every link exists already, the document loop
    makes no request, writes and prints nothing and counts nothing. *)
Theorem existing_files_are_skipped (w : World) (company_folder : Py.Path)
    (all_doc_links : list ScraperV1.DocumentLink) (s : State) :
  (forall item, In item all_doc_links ->
     is_Some (files s !! ScraperV1.save_path company_folder ScraperV1.download_stats0 item)) ->
  ScraperV1.download_documents w company_folder all_doc_links s
  = (ScraperV1.download_stats0, s).
Proof.
  unfold ScraperV1.download_documents. generalize ScraperV1.download_stats0 as download_stats.
  intros download_stats. induction all_doc_links as [ | item links IH ]; intros Hexist;
    [ reflexivity | ].
  cbn [fold_left].
  assert (Hskip : ScraperV1.download_item w company_folder (download_stats, s) item
                  = (download_stats, s)).
  { unfold ScraperV1.download_item.
    rewrite bool_decide_eq_true_2 by (apply Hexist; left; reflexivity). reflexivity. }
  rewrite Hskip. apply IH. intros item' Hin. apply Hexist. right. exact Hin.
Qed.

Lemma existing_files_are_skipped_witness :
  ScraperV1.download_documents not_found_site ["TCS"] [quarterly_pdf]
    (mkState {[ ScraperV1.save_path ["TCS"] ScraperV1.download_stats0 quarterly_pdf
                := "%PDF-1.7" ]} [])
  = (ScraperV1.download_stats0,
     mkState {[ ScraperV1.save_path ["TCS"] ScraperV1.download_stats0 quarterly_pdf
                := "%PDF-1.7" ]} []).
Proof.
  apply (existing_files_are_skipped not_found_site ["TCS"] [quarterly_pdf]).
  intros item [<- | []]. cbn [files]. rewrite lookup_singleton_eq. eauto.
Defined.

(** ** The URL that is fetched *)

Lemma digits_prefix_digits (s : string) :
  Py.string_forallb Py.isdigit (ScraperV1.digits_prefix s) = true.
Proof.
  induction s as [ | c s IH ]; [ reflexivity | ].
  cbn [ScraperV1.digits_prefix]. destruct (Py.isdigit c) eqn:Hc; [ | reflexivity ].
  rewrite forall_cons, Hc, IH. reflexivity.
Qed.

Lemma digits_prefix_split (s : string) :
  exists rest, s = ScraperV1.digits_prefix s +:+ rest /\ no_digit_first rest.
Proof.
  induction s as [ | c s (rest & Hs & Hrest) ]; [ exists ""; split; [ reflexivity | exact I ] | ].
  cbn [ScraperV1.digits_prefix]. destruct (Py.isdigit c) eqn:Hc.
  - exists rest. change (String c ?a +:+ rest) with (String c (a +:+ rest)).
    rewrite <- Hs. split; [ reflexivity | exact Hrest ].
  - exists (String c s). split; [ reflexivity | exact Hc ].
Qed.

Lemma digits_prefix_app (id rest : string) :
  Py.string_forallb Py.isdigit id = true -> no_digit_first rest ->
  ScraperV1.digits_prefix (id +:+ rest) = id.
Proof.
  intros Hid Hrest. induction id as [ | c id IH ].
  - change ("" +:+ rest) with rest. destruct rest as [ | c rest ]; [ reflexivity | ].
    cbn [ScraperV1.digits_prefix]. cbn in Hrest. rewrite Hrest. reflexivity.
  - rewrite forall_cons in Hid. apply andb_true_iff in Hid. destruct Hid as [Hc Hid].
    change (String c id +:+ rest) with (String c (id +:+ rest)).
    cbn [ScraperV1.digits_prefix]. rewrite Hc, (IH Hid). reflexivity.
Qed.

Lemma icra_id_here_match (s id : string) :
  ScraperV1.icra_id_here s = Some id <-> id_match s id.
Proof.
  split.
  - destruct s as [ | c rest ]; [ discriminate | ]. cbn [ScraperV1.icra_id_here].
    destruct (Py.mem (String c "") ["?"; "&"]) eqn:Hsep; [ | discriminate ].
    destruct (Py.startswith rest "Id=") eqn:Hstart; [ | discriminate ].
    cbn [andb]. destruct (Py.is_empty _) eqn:Hempty; [ discriminate | ].
    intros H. injection H as <-.
    destruct rest as [ | a [ | b [ | d rest ] ] ]; try discriminate;
      cbn [Py.startswith] in Hstart;
      repeat match type of Hstart with
             | (if ascii_dec ?x ?y then _ else _) = true =>
                 destruct (ascii_dec x y) as [<- | ]; [ | discriminate ]
             end; try discriminate.
    cbn [Py.drop] in *.
    destruct (digits_prefix_split rest) as (tail & Hrest & Htail).
    exists c, tail. split; [ | split; [ | split; [ | split ] ] ].
    + change ("Id=" +:+ ?x) with (String "I" (String "d" (String "=" x))).
      rewrite <- Hrest. reflexivity.
    + apply mem_eq in Hsep. destruct Hsep as [H | [H | []]]; injection H as <-; auto.
    + apply is_empty_false, Hempty.
    + apply digits_prefix_digits.
    + exact Htail.
  - intros (sep & rest & -> & Hsep & Hne & Hdigits & Hrest).
    cbn [ScraperV1.icra_id_here].
    change ("Id=" +:+ ?x) with (String "I" (String "d" (String "=" x))).
    assert (Hmem : Py.mem (String sep "") ["?"; "&"] = true)
      by (destruct Hsep as [-> | ->]; reflexivity).
    rewrite Hmem. cbn [Py.startswith Py.drop andb].
    repeat match goal with
           | |- context [ascii_dec ?x ?x] => destruct (ascii_dec x x); [ | contradiction ]
           end.
    assert (Hnil : forall x, Py.startswith x "" = true) by (intros []; reflexivity).
    rewrite Hnil, (digits_prefix_app id rest Hdigits Hrest).
    apply is_empty_false in Hne. rewrite Hne. reflexivity.
Qed.

Lemma icra_id_first (s id : string) : first_id s id -> ScraperV1.icra_id s = Some id.
Proof.
  intros (before & after & -> & Hmatch & Hleft).
  induction before as [ | c before IH ].
  - change ("" +:+ after) with after.
    pose proof Hmatch as Hhere. apply icra_id_here_match in Hhere.
    destruct after as [ | c after ]; [ discriminate | ].
    cbn [ScraperV1.icra_id]. rewrite Hhere. reflexivity.
  - change (String c before +:+ after) with (String c (before +:+ after)).
    cbn [ScraperV1.icra_id].
    destruct (ScraperV1.icra_id_here (String c (before +:+ after))) as [id' | ] eqn:Hhere.
    + exfalso. apply icra_id_here_match in Hhere.
      apply (Hleft "" (String c before) id'); [ reflexivity | discriminate | exact Hhere ].
    + apply IH. intros b1 b2 id' Hsplit Hb2.
      apply (Hleft (String c b1) b2 id'); [ rewrite Hsplit; reflexivity | exact Hb2 ].
Qed.

Lemma icra_id_none (s : string) : no_id s -> ScraperV1.icra_id s = None.
Proof.
  induction s as [ | c s IH ]; intros Hno; [ reflexivity | ].
  cbn [ScraperV1.icra_id].
  destruct (ScraperV1.icra_id_here (String c s)) as [id | ] eqn:Hhere.
  - exfalso. apply icra_id_here_match in Hhere. exact (Hno "" (String c s) id eq_refl Hhere).
  - apply IH. intros before after id Hsplit.
    apply (Hno (String c before) after id). rewrite Hsplit. reflexivity.
Qed.

(** The URL the loop fetches for a link is the link's own, and its
    extension is decided from that URL, with one exception: a
    credit-rating link to an ICRA rationale page whose query holds a
    numeric [Id].  That link is fetched from ICRA's PDF endpoint for the
    id of the leftmost [Id] of the query and is saved as [.pdf]; a link
    to such a page without an [Id] in its query is fetched as it is. *)
Theorem fetched_url_is_the_link_or_icra_pdf (item : ScraperV1.DocumentLink) :
  (~ is_icra_rationale item ->
   ScraperV1.fetch_url item = url item
   /\ ScraperV1.chosen_ext item
      = ScraperV1.decide_ext (default false (force_pdf item)) (url item))
  /\ (forall id,
        is_icra_rationale item ->
        first_id ("?" +:+ Py.query (Py.urlparse (url item))) id ->
        ScraperV1.fetch_url item
        = "https://www.icra.in/Rating/GetRationalReportFilePdf?Id=" +:+ id
        /\ ScraperV1.chosen_ext item = ".pdf")
  /\ (is_icra_rationale item ->
      no_id ("?" +:+ Py.query (Py.urlparse (url item))) ->
      ScraperV1.fetch_url item = url item
      /\ ScraperV1.chosen_ext item
         = ScraperV1.decide_ext (default false (force_pdf item)) (url item)).
Proof.
  unfold is_icra_rationale, ScraperV1.fetch_url, ScraperV1.chosen_ext, ScraperV1.icra_rewrite.
  split; [ | split ].
  - intros Hnot.
    destruct (String.eqb_spec (category item) "credit_ratings") as [Hcategory | _];
      [ | split; reflexivity ].
    destruct (Py.contains _ (url item)) eqn:Hicra; [ | split; reflexivity ].
    exfalso. apply Hnot. split; [ exact Hcategory | reflexivity ].
  - intros id [Hcategory Hicra] Hid.
    rewrite Hcategory, Hicra, (icra_id_first _ _ Hid). split; reflexivity.
  - intros [Hcategory Hicra] Hno.
    rewrite Hcategory, Hicra, (icra_id_none _ Hno). split; reflexivity.
Qed.

Lemma fetched_url_is_the_link_or_icra_pdf_witness :
  ScraperV1.fetch_url icra_rationale
  = "https://www.icra.in/Rating/GetRationalReportFilePdf?Id=12345"
  /\ ScraperV1.chosen_ext icra_rationale = ".pdf".
Proof.
  apply (fetched_url_is_the_link_or_icra_pdf icra_rationale).
  - split; reflexivity.
  - exists "", "?Id=12345". split; [ reflexivity | ]. split.
    + exists "?"%char, "". repeat split; auto; discriminate.
    + intros b1 b2 id' Hsplit Hb2. destruct b1, b2; try discriminate. contradiction.
Defined.

(** ** The partner-site scrapers: the Markdown body *)

Lemma contains_lstrip (m s : string) :
  Py.contains m (Py.lstrip s) = true -> Py.contains m s = true.
Proof.
  induction s as [ | c s IH ]; [ auto | ].
  cbn [Py.lstrip]. destruct (Py.isspace c); [ | auto ].
  intros H. rewrite contains_unfold, (IH H). apply orb_true_r.
Qed.

Lemma startswith_rstrip (m s : string) :
  Py.startswith (Py.rstrip s) m = true -> Py.startswith s m = true.
Proof.
  revert m. induction s as [ | c s IH ]; intros m; [ auto | ].
  cbn [Py.rstrip]. destruct (Py.rstrip s) as [ | d r ] eqn:Hr.
  - destruct (Py.isspace c).
    + destruct m; [ reflexivity | discriminate ].
    + destruct m as [ | a m ]; [ reflexivity | ]. cbn [Py.startswith].
      destruct (ascii_dec a c); [ | discriminate ].
      destruct m; [ destruct s; reflexivity | discriminate ].
  - destruct m as [ | a m ]; [ reflexivity | ]. cbn [Py.startswith].
    destruct (ascii_dec a c); [ apply IH | discriminate ].
Qed.

Lemma contains_rstrip (m s : string) :
  Py.contains m (Py.rstrip s) = true -> Py.contains m s = true.
Proof.
  induction s as [ | c s IH ]; [ auto | ].
  intros H. rewrite contains_unfold in H. apply orb_true_iff in H.
  rewrite contains_unfold. destruct H as [H | H].
  - rewrite (startswith_rstrip m (String c s) H). reflexivity.
  - assert (Htail : Py.contains m (Py.rstrip s) = true).
    { revert H. cbn [Py.rstrip]. destruct (Py.rstrip s) as [ | d r ].
      - destruct (Py.isspace c); [ discriminate | ].
        intros H. rewrite contains_unfold in H. rewrite orb_false_r in H.
        rewrite contains_unfold, H. reflexivity.
      - auto. }
    rewrite (IH Htail). apply orb_true_r.
Qed.

Lemma collapse_newlines_run (run : nat) (s : string) :
  run <= 2 ->
  Py.contains blank_lines (Py.collapse_newlines run s) = false
  /\ (1 <= run ->
      Py.startswith (Py.collapse_newlines run s) (String Py.newline (String Py.newline ""))
      = false)
  /\ (2 <= run ->
      Py.startswith (Py.collapse_newlines run s) (String Py.newline "") = false).
Proof.
  revert run. induction s as [ | c s IH ]; intros run Hrun.
  - repeat split; reflexivity.
  - cbn [Py.collapse_newlines]. destruct (ascii_dec c Py.newline) as [-> | Hother].
    + destruct (Nat.ltb run 2) eqn:Hless.
      * apply Nat.ltb_lt in Hless. destruct (IH (S run) ltac:(lia)) as (Hnone & Hone & Htwo).
        repeat split.
        -- rewrite contains_unfold, Hnone, orb_false_r. unfold blank_lines.
           cbn [Py.startswith]. destruct (ascii_dec Py.newline Py.newline); [ | contradiction ].
           apply Hone. lia.
        -- intros Hge. cbn [Py.startswith].
           destruct (ascii_dec Py.newline Py.newline); [ | contradiction ].
           apply Htwo. lia.
        -- intros Hge. lia.
      * apply Nat.ltb_ge in Hless. apply IH. exact Hrun.
    + destruct (IH 0 ltac:(lia)) as (Hnone & _ & _).
      assert (Hstart : forall rest,
                 Py.startswith (String c (Py.collapse_newlines 0 s))
                               (String Py.newline rest) = false).
      { intros rest. cbn [Py.startswith].
        destruct (ascii_dec Py.newline c); [ congruence | reflexivity ]. }
      repeat split.
      * rewrite contains_unfold, Hnone, orb_false_r. apply Hstart.
      * intros _. apply Hstart.
      * intros _. apply Hstart.
Qed.

Lemma strip_strip (s : string) : Py.strip (Py.strip s) = Py.strip s.
Proof.
  unfold Py.strip.
  assert (Hr : forall t, Py.rstrip (Py.rstrip t) = Py.rstrip t).
  { induction t as [ | c t IH ]; [ reflexivity | ].
    cbn [Py.rstrip]. destruct (Py.rstrip t) as [ | d r ] eqn:Ht.
    - destruct (Py.isspace c) eqn:Hc; [ reflexivity | ].
      cbn [Py.rstrip]. rewrite Hc. reflexivity.
    - cbn [Py.rstrip] in *. rewrite IH. reflexivity. }
  assert (Hl : forall t, Py.lstrip (Py.rstrip (Py.lstrip t)) = Py.rstrip (Py.lstrip t)).
  { induction t as [ | c t IH ]; [ reflexivity | ].
    cbn [Py.lstrip]. destruct (Py.isspace c) eqn:Hc; [ exact IH | ].
    cbn [Py.rstrip]. destruct (Py.rstrip t); rewrite ?Hc; cbn [Py.lstrip]; rewrite Hc;
      reflexivity. }
  rewrite Hl. apply Hr.
Qed.

Lemma append_assoc (a b c : string) : (a +:+ b) +:+ c = a +:+ (b +:+ c).
Proof.
  induction a as [ | x a IH ]; [ reflexivity | ].
  change (String x ((a +:+ b) +:+ c) = String x (a +:+ (b +:+ c))). f_equal. exact IH.
Qed.

Lemma concat_last (sep x : string) (l : list string) :
  exists before, String.concat sep (l ++ [x]) = before +:+ x.
Proof.
  induction l as [ | a l IH ]; [ exists ""; reflexivity | ].
  destruct IH as (before & Hbefore).
  exists (a +:+ sep +:+ before).
  change ((a :: l) ++ [x]) with (a :: (l ++ [x])). cbn [String.concat].
  destruct (l ++ [x]) as [ | b rest ] eqn:Hl; [ destruct l; discriminate | ].
  rewrite Hbefore, !append_assoc. reflexivity.
Qed.

Lemma endswith_append (a b : string) : Py.endswith (a +:+ b) b = true.
Proof.
  unfold Py.endswith. rewrite append_length.
  replace (String.length a + String.length b - String.length b) with (String.length a)
    by lia.
  rewrite drop_stem, String.eqb_refl. apply Nat.leb_le. lia.
Qed.

(** The Markdown body both partner scrapers write never has three line
    feeds in a row and has no white space at either end; the CRISIL file
    is the title line, an empty line and this body, and the India Ratings
    file ends with it. *)
Theorem markdown_body_is_tidy (converted page_title : string)
    (metadata : option string * option string) :
  Py.contains blank_lines (CrisilScraper.tidy converted) = false
  /\ Py.strip (CrisilScraper.tidy converted) = CrisilScraper.tidy converted
  /\ CrisilScraper.markdown page_title converted
     = "# " +:+ page_title +:+ String Py.newline (String Py.newline "")
       +:+ CrisilScraper.tidy converted
  /\ Py.endswith (IndiaRatingsScraper.convert_to_markdown converted page_title metadata)
                 (CrisilScraper.tidy converted) = true.
Proof.
  split; [ | split; [ | split ] ].
  - unfold CrisilScraper.tidy, Py.strip.
    destruct (Py.contains blank_lines (Py.rstrip (Py.lstrip (Py.collapse_newlines 0 converted))))
      eqn:Hin; [ | reflexivity ].
    apply contains_rstrip, contains_lstrip in Hin.
    destruct (collapse_newlines_run 0 converted ltac:(lia)) as (Hnone & _).
    congruence.
  - apply strip_strip.
  - reflexivity.
  - unfold IndiaRatingsScraper.convert_to_markdown. cbv zeta. rewrite app_assoc.
    destruct (concat_last (String Py.newline "") (CrisilScraper.tidy converted)
                (["# " +:+ page_title; ""]
                 ++ match metadata with
                    | (None, None) => []
                    | (date, category) =>
                        match date with Some d => ["**Date:** " +:+ d] | None => [] end
                        ++ match category with
                           | Some c => ["**Category:** " +:+ c]
                           | None => []
                           end
                        ++ [""; "---"; ""]
                    end)) as (before & ->).
    apply endswith_append.
Qed.

(** ** The partner-site scrapers: the names of the files *)

Lemma split_char_parts (sep : ascii) (s : string) :
  List.Forall (fun part => Py.string_forallb (fun c => negb (Ascii.eqb c sep)) part = true)
              (Py.split_char sep s).
Proof.
  induction s as [ | c s IH ]; [ repeat constructor | ].
  cbn [Py.split_char]. destruct (ascii_dec c sep) as [-> | Hother].
  - constructor; [ reflexivity | exact IH ].
  - assert (Hc : negb (Ascii.eqb c sep) = true)
      by (apply negb_true_iff, Ascii.eqb_neq; exact Hother).
    destruct (Py.split_char sep s) as [ | w ws ].
    + repeat constructor. rewrite forall_cons, Hc. reflexivity.
    + inversion IH as [ | ? ? Hw Hws ]; subst. constructor; [ | exact Hws ].
      rewrite forall_cons, Hc, Hw. reflexivity.
Qed.

Lemma Forall_last {A} (P : A -> Prop) (l : list A) (d : A) :
  List.Forall P l -> P d -> P (List.last l d).
Proof.
  intros Hall Hd. induction Hall as [ | x l Hx Hl IH ]; [ exact Hd | ].
  destruct l; [ exact Hx | exact IH ].
Qed.

Lemma press_id_no_slash (url : string) :
  no_slash (IndiaRatingsScraper.press_id url) = true.
Proof.
  unfold IndiaRatingsScraper.press_id, no_slash.
  apply (Forall_last (fun part => Py.string_forallb _ part = true));
    [ apply split_char_parts | reflexivity ].
Qed.

Lemma stem_no_slash (s : string) :
  no_slash (Py.stem (Py.path_of_string s)) = true.
Proof.
  assert (Hname : no_slash (Py.name (Py.path_of_string s)) = true).
  { unfold Py.name, Py.path_of_string, no_slash.
    apply (Forall_last (fun part => Py.string_forallb _ part = true)); [ | reflexivity ].
    apply List.Forall_forall. intros part Hin. apply filter_In in Hin.
    destruct Hin as [Hin _].
    pose proof (split_char_parts "/" s) as Hall. rewrite List.Forall_forall in Hall.
    exact (Hall part Hin). }
  unfold Py.stem. destruct (Py.rfind_char "." _) as [[ | i] | ]; try exact Hname.
  destruct (Nat.ltb _ _); [ | exact Hname ].
  unfold no_slash in *. apply forall_take. exact Hname.
Qed.

Lemma slug_no_slash (url : string) :
  CrisilScraper.slug url <> "" /\ no_slash (CrisilScraper.slug url) = true.
Proof.
  unfold CrisilScraper.slug.
  destruct (Py.is_empty _) eqn:Hempty.
  - split; [ discriminate | reflexivity ].
  - split; [ apply is_empty_false, Hempty | apply stem_no_slash ].
Qed.

Lemma find_char_append (c : ascii) (a b : string) :
  Py.find_char c a = None ->
  Py.find_char c (a +:+ String c b) = Some (String.length a).
Proof.
  induction a as [ | x a IH ].
  - intros _. change ("" +:+ String c b) with (String c b). cbn [Py.find_char String.length].
    destruct (ascii_dec c c); [ reflexivity | contradiction ].
  - change (String x a +:+ String c b) with (String x (a +:+ String c b)).
    cbn [Py.find_char]. destruct (ascii_dec x c); [ discriminate | ].
    destruct (Py.find_char c a); [ discriminate | ]. intros _.
    rewrite IH by reflexivity. reflexivity.
Qed.

Lemma take_stem (a b : string) : Py.take (String.length a) (a +:+ b) = a.
Proof.
  induction a as [ | x a IH ]; [ change ("" +:+ b) with b; destruct b; reflexivity | ].
  change (String x a +:+ b) with (String x (a +:+ b)). cbn [String.length Py.take].
  rewrite IH. reflexivity.
Qed.

(** The files of the two partner scrapers are named from the URL: the
    CRISIL slug is never empty and ignores the query string, and neither
    the slug nor the India Ratings press id holds a slash, so the three
    files of a page are three different direct children of the output
    folder. *)
Theorem partner_files_are_named_from_the_url (url : string) :
  CrisilScraper.slug url <> ""
  /\ (forall query, Py.find_char "?" url = None ->
        CrisilScraper.slug (url +:+ "?" +:+ query) = CrisilScraper.slug url)
  /\ List.Forall (fun name => no_slash name = true) (CrisilScraper.output_names url)
  /\ List.Forall (fun name => no_slash name = true) (IndiaRatingsScraper.output_names url)
  /\ List.NoDup (CrisilScraper.output_names url)
  /\ List.NoDup (IndiaRatingsScraper.output_names url).
Proof.
  destruct (slug_no_slash url) as [Hslug Hflat].
  pose proof (press_id_no_slash url) as Hid.
  split; [ exact Hslug | split; [ | split; [ | split; [ | split ] ] ] ].
  - intros query Hquery. unfold CrisilScraper.slug, Py.split_once.
    change (url +:+ "?" +:+ query) with (url +:+ String "?" query).
    rewrite (find_char_append "?" url query Hquery), Hquery. cbn [fst].
    rewrite take_stem. reflexivity.
  - unfold CrisilScraper.output_names, no_slash in *.
    repeat constructor; apply forall_append; auto.
  - unfold IndiaRatingsScraper.output_names, no_slash in *.
    repeat constructor; apply forall_append; auto; apply forall_append; auto.
  - unfold CrisilScraper.output_names.
    repeat constructor; cbn [In]; try tauto;
      intros H; repeat destruct H as [H | H]; try contradiction;
      apply (f_equal String.length) in H; rewrite !append_length in H; cbn in H; lia.
  - unfold IndiaRatingsScraper.output_names.
    repeat constructor; cbn [In]; try tauto;
      intros H; repeat destruct H as [H | H]; try contradiction;
      apply (f_equal String.length) in H; rewrite !append_length in H; cbn in H; lia.
Qed.

(** ** The key metrics *)

Lemma drop_duplicates_spec (rows seen : list (string * string)) :
  List.NoDup (ScraperV1.drop_duplicates seen rows)
  /\ forall row, In row (ScraperV1.drop_duplicates seen rows)
                 <-> In row rows /\ ~ In row seen.
Proof.
  revert seen. induction rows as [ | r rows IH ]; intros seen.
  - split; [ constructor | ]. intros row. cbn. tauto.
  - cbn [ScraperV1.drop_duplicates]. case_bool_decide as Hseen.
    + apply list_elem_of_In in Hseen. destruct (IH seen) as [Hnodup Hin]. split; [ exact Hnodup | ].
      intros row. rewrite Hin. cbn [In]. split; [ tauto | ].
      intros [[<- | Hrow] Hnew]; [ contradiction | tauto ].
    + rewrite list_elem_of_In in Hseen. destruct (IH (r :: seen)) as [Hnodup Hin]. split.
      * constructor; [ | exact Hnodup ]. rewrite Hin. cbn [In]. tauto.
      * intros row. cbn [In]. rewrite Hin. cbn [In].
        destruct (decide (r = row)) as [<- | Hother]; tauto.
Qed.

Lemma metric_of_item_filled (soup : Bs4.Soup) (li : Bs4.handle) (name value : string) :
  ScraperV1.metric_of_item soup li = Some (name, value) -> name <> "" /\ value <> "".
Proof.
  unfold ScraperV1.metric_of_item. cbv zeta.
  match goal with
  | |- context [match ?found with Some _ => _ | None => _ end = _] =>
      destruct found as [[n v] | ]
  end; [ | discriminate ].
  destruct (negb (Py.is_empty n) && negb (Py.is_empty v)) eqn:Hfilled; [ | discriminate ].
  intros H. injection H as <- <-.
  apply andb_true_iff in Hfilled. destruct Hfilled as [Hn Hv].
  apply negb_true_iff in Hn, Hv. split; apply is_empty_false; assumption.
Qed.

Lemma key_metrics_filled (soup : Bs4.Soup) (name value : string) :
  In (name, value) (ScraperV1.key_metrics soup) -> name <> "" /\ value <> "".
Proof.
  unfold ScraperV1.key_metrics. destruct (List.find _ _) as [ul | ]; [ | intros [] ].
  intros Hin. apply list_elem_of_In, list_elem_of_omap in Hin.
  destruct Hin as (li & _ & Hli). exact (metric_of_item_filled soup li name value Hli).
Qed.

(** The key metrics file: a page without the metrics block gets no file;
    otherwise one file, [key_metrics.csv], is written, and its rows are
    the metrics found, each once, every one with a name and a value that
    are not empty. *)
Theorem key_metrics_rows_are_clean (w : World) (soup : Bs4.Soup)
    (company_folder : Py.Path) (s : State) :
  (ScraperV1.key_metrics soup = [] ->
   ScraperV1.extract_key_metrics w soup company_folder s = (Ok tt, s))
  /\ (ScraperV1.key_metrics soup <> [] ->
      written (trace (snd (ScraperV1.extract_key_metrics w soup company_folder s)))
      = written (trace s) ++ [Py.joinpath company_folder "key_metrics.csv"]
      /\ files (snd (ScraperV1.extract_key_metrics w soup company_folder s))
         !! Py.joinpath company_folder "key_metrics.csv"
         = Some (to_csv w (ScraperV1.metrics_frame (ScraperV1.key_metrics soup))))
  /\ List.NoDup (data (ScraperV1.metrics_frame (ScraperV1.key_metrics soup)))
  /\ (forall row,
        In row (data (ScraperV1.metrics_frame (ScraperV1.key_metrics soup)))
        <-> exists name value,
              row = [name; value] /\ In (name, value) (ScraperV1.key_metrics soup))
  /\ (forall name value,
        In (name, value) (ScraperV1.key_metrics soup) -> name <> "" /\ value <> "").
Proof.
  destruct (drop_duplicates_spec (ScraperV1.key_metrics soup) []) as [Hnodup Hin].
  split; [ | split; [ | split; [ | split ] ] ].
  - intros Hnone. unfold ScraperV1.extract_key_metrics. rewrite Hnone. reflexivity.
  - intros Hsome. unfold ScraperV1.extract_key_metrics.
    destruct (ScraperV1.key_metrics soup) as [ | m ms ]; [ congruence | ].
    unfold bindM, write_file, emit. cbn [snd trace files]. split.
    + rewrite <- app_assoc, written_app. reflexivity.
    + apply lookup_insert_eq.
  - unfold ScraperV1.metrics_frame. cbn [data].
    apply Finite.Injective_map_NoDup; [ | exact Hnodup ].
    intros [a b] [c d] H. cbn in H. congruence.
  - intros row. unfold ScraperV1.metrics_frame. cbn [data]. rewrite in_map_iff. split.
    + intros ([name value] & <- & Hrow). exists name, value. split; [ reflexivity | ].
      apply Hin in Hrow. tauto.
    + intros (name & value & -> & Hrow). exists (name, value). split; [ reflexivity | ].
      apply Hin. cbn. tauto.
  - apply key_metrics_filled.
Qed.

(** ** The document loop of [scraper.py] *)



(** ** The heading of a table *)

Lemma find_previous_name (soup : Bs4.Soup) (h prev : Bs4.handle) (names : list string) :
  ScraperV1.find_previous soup h names = Some prev ->
  exists n, Bs4.tag_name soup prev = Some n /\ In n names.
Proof.
  unfold ScraperV1.find_previous. intros Hfind. apply find_some in Hfind.
  destruct Hfind as [_ Hname]. destruct (Bs4.tag_name soup prev) as [n | ]; [ | discriminate ].
  exists n. split; [ reflexivity | apply mem_eq, Hname ].
Qed.

Lemma section_heading_loop_short (soup : Bs4.Soup) (hops : nat) (element : Bs4.handle)
    (section : string) :
  ScraperV1.extract_section_heading_loop hops soup element = Some section ->
  section <> "" /\ String.length section < 50
  /\ exists heading n,
       Bs4.tag_name soup heading = Some n /\ In n ["h2"; "h3"; "h4"; "h5"]
       /\ Bs4.get_text_strip soup heading = section.
Proof.
  revert element. induction hops as [ | hops IH ]; intros element; [ discriminate | ].
  cbn [ScraperV1.extract_section_heading_loop].
  destruct (ScraperV1.find_previous soup element ["h2"; "h3"; "h4"; "h5"]) as [prev | ]
    eqn:Hprev.
  - destruct (negb (Py.is_empty (Bs4.get_text_strip soup prev))
              && Nat.ltb (String.length (Bs4.get_text_strip soup prev)) 50) eqn:Hfit.
    + intros H. injection H as <-. apply andb_true_iff in Hfit. destruct Hfit as [Hfull Hshort].
      apply negb_true_iff, is_empty_false in Hfull. apply Nat.ltb_lt in Hshort.
      destruct (find_previous_name soup element prev _ Hprev) as (n & Hn & Hin).
      split; [ exact Hfull | split; [ exact Hshort | ] ]. exists prev, n. auto.
    + destruct (Bs4.parent soup element) as [up | ]; [ apply IH | discriminate ].
  - destruct (Bs4.parent soup element) as [up | ]; [ apply IH | discriminate ].
Qed.

(** The heading found for a table is the text of an [h2] to [h5] element,
    is not empty and has fewer than 50 characters: a longer heading is
    never used as the name of a table. *)
Theorem section_heading_is_short (soup : Bs4.Soup) (element : Bs4.handle)
    (section : string) :
  ScraperV1.extract_section_heading soup element = Some section ->
  section <> "" /\ String.length section < 50
  /\ exists heading n,
       Bs4.tag_name soup heading = Some n /\ In n ["h2"; "h3"; "h4"; "h5"]
       /\ Bs4.get_text_strip soup heading = section.
Proof.
  intros Hfound. apply (section_heading_loop_short soup 10 element section). exact Hfound.
Qed.

Lemma section_heading_is_short_witness :
  ScraperV1.extract_section_heading ratios_page (Bs4.Node [0; 1]) = Some "Ratios"
  /\ String.length "Ratios" < 50.
Proof.
  split; [ reflexivity | ].
  apply (section_heading_is_short ratios_page (Bs4.Node [0; 1]) "Ratios"). reflexivity.
Defined.

(** ** Tables that do not parse *)

Lemma table_step_same (w : World) (soup : Bs4.Soup) (company_folder : Py.Path)
    (st st' : list (string * (nat * nat)) * State) (it : nat * Bs4.handle) :
  same_tables st st' ->
  same_tables (ScraperV1.table_step w soup company_folder st it)
              (ScraperV1.table_step w soup company_folder st' it).
Proof.
  destruct st as [saved s], st' as [saved' s'], it as [idx table].
  unfold same_tables. cbn [fst snd]. intros (-> & Hfiles & Hwritten).
  unfold ScraperV1.table_step. destruct (read_html w table) as [df | e].
  - destruct (_ || _); cbn [fst snd files trace]; [ auto | ].
    rewrite Hfiles, !written_app, Hwritten. auto.
  - cbn [fst snd files trace]. rewrite !written_app, Hwritten. auto.
Qed.

Lemma table_step_failed (w : World) (soup : Bs4.Soup) (company_folder : Py.Path)
    (st : list (string * (nat * nat)) * State) (it : nat * Bs4.handle) :
  parses w it = false ->
  same_tables (ScraperV1.table_step w soup company_folder st it) st.
Proof.
  destruct st as [saved s], it as [idx table]. unfold parses, ScraperV1.table_step.
  cbn [snd]. destruct (read_html w table) as [df | e]; [ discriminate | ]. intros _.
  unfold same_tables. cbn [fst snd files trace]. rewrite written_app, app_nil_r. auto.
Qed.

(** A table that [read_html] cannot parse costs a printed line and nothing
    else: the index of saved tables, the files on disk and the files
    written, in their order, are those of the run over the tables that do
    parse, each with the position it had. *)
Theorem unparsed_tables_are_skipped (w : World) (soup : Bs4.Soup)
    (company_folder : Py.Path) (all_tables : list Bs4.handle) (s : State) :
  same_tables
    (ScraperV1.extract_tables w soup company_folder all_tables s)
    (fold_left (ScraperV1.table_step w soup company_folder)
       (List.filter (parses w) (imap pair all_tables)) ([], s)).
Proof.
  unfold ScraperV1.extract_tables.
  assert (Hloop : forall items st st',
             same_tables st st' ->
             same_tables
               (fold_left (ScraperV1.table_step w soup company_folder) items st)
               (fold_left (ScraperV1.table_step w soup company_folder)
                          (List.filter (parses w) items) st')).
  { induction items as [ | it items IH ]; intros st st' Hsame; [ exact Hsame | ].
    cbn [fold_left List.filter]. destruct (parses w it) eqn:Hparses.
    - cbn [fold_left]. apply IH, table_step_same, Hsame.
    - apply IH.
      destruct (table_step_failed w soup company_folder st it Hparses) as (H1 & H2 & H3).
      destruct Hsame as (H1' & H2' & H3'). unfold same_tables. repeat split; congruence. }
  apply Hloop. unfold same_tables. auto.
Qed.

(** ** Where the notes are saved *)

Lemma has_safe_cons (c : ascii) (s : string) :
  has_safe_char (String c s) = safe_char c || has_safe_char s.
Proof. reflexivity. Qed.

Lemma has_safe_append_r (a b : string) :
  has_safe_char b = true -> has_safe_char (a +:+ b) = true.
Proof.
  intros Hb. induction a as [ | c a IH ]; [ exact Hb | ].
  change (String c a +:+ b) with (String c (a +:+ b)).
  rewrite has_safe_cons, IH. apply orb_true_r.
Qed.

Lemma has_safe_nonempty (s : string) : has_safe_char s = true -> s <> "".
Proof. destruct s; [ discriminate | discriminate ]. Qed.

Lemma has_safe_remove_chars (s : string) :
  has_safe_char s = true ->
  has_safe_char (Py.remove_chars ScraperV1.forbidden_char s) = true.
Proof.
  induction s as [ | c s IH ]; [ auto | ].
  rewrite has_safe_cons. cbn [Py.remove_chars]. unfold safe_char.
  destruct (ScraperV1.forbidden_char c) eqn:Hc; cbn [negb andb orb]; [ exact IH | ].
  rewrite has_safe_cons. unfold safe_char. rewrite Hc. cbn [negb andb].
  destruct (negb (Py.isspace c)); cbn [orb]; auto.
Qed.

Lemma has_safe_lstrip (s : string) :
  has_safe_char s = true -> has_safe_char (Py.lstrip s) = true.
Proof.
  induction s as [ | c s IH ]; [ auto | ].
  cbn [Py.lstrip]. destruct (Py.isspace c) eqn:Hc; [ | auto ].
  rewrite has_safe_cons. unfold safe_char. rewrite Hc, andb_false_r. exact IH.
Qed.

Lemma has_safe_rstrip (s : string) :
  has_safe_char s = true -> has_safe_char (Py.rstrip s) = true.
Proof.
  induction s as [ | c s IH ]; [ auto | ].
  rewrite has_safe_cons. cbn [Py.rstrip]. intros H.
  destruct (Py.rstrip s) as [ | d r ] eqn:Hr.
  - destruct (has_safe_char s) eqn:Hs; [ specialize (IH eq_refl); discriminate | ].
    rewrite orb_false_r in H. pose proof H as Hsafe. unfold safe_char in H.
    apply andb_true_iff in H. destruct H as [_ Hb]. apply negb_true_iff in Hb. rewrite Hb.
    rewrite has_safe_cons, Hsafe. reflexivity.
  - rewrite has_safe_cons. apply orb_true_iff in H. destruct H as [H | H].
    + rewrite H. reflexivity.
    + rewrite (IH H). apply orb_true_r.
Qed.

Lemma has_safe_sub_space_runs (in_run : bool) (s : string) :
  has_safe_char s = true -> has_safe_char (Py.sub_space_runs "_" in_run s) = true.
Proof.
  revert in_run. induction s as [ | c s IH ]; intros in_run; [ auto | ].
  rewrite has_safe_cons. cbn [Py.sub_space_runs].
  destruct (Py.isspace c) eqn:Hc.
  - unfold safe_char. rewrite Hc, andb_false_r. cbn [orb].
    intros H. apply has_safe_append_r, IH, H.
  - intros H. rewrite has_safe_cons. apply orb_true_iff in H.
    destruct H as [H | H]; [ rewrite H; reflexivity | ].
    rewrite (IH false H). apply orb_true_r.
Qed.

Lemma has_safe_replace_char (c : ascii) (s : string) :
  ScraperV1.forbidden_char c = true ->
  has_safe_char s = true -> has_safe_char (Py.replace_char c "_" s) = true.
Proof.
  intros Hc. induction s as [ | a s IH ]; [ auto | ].
  rewrite has_safe_cons. cbn [Py.replace_char].
  destruct (ascii_dec a c) as [-> | Hother].
  - unfold safe_char. rewrite Hc. cbn [negb andb orb].
    intros H. apply has_safe_append_r, IH, H.
  - intros H. rewrite has_safe_cons. apply orb_true_iff in H.
    destruct H as [H | H]; [ rewrite H; reflexivity | ].
    rewrite (IH H). apply orb_true_r.
Qed.

Lemma clean_filename_nonempty (text : string) :
  has_safe_char text = true -> ScraperV1.clean_filename text <> "".
Proof.
  intros Hsafe. unfold ScraperV1.clean_filename, Py.strip.
  apply take_nonempty; [ | discriminate ].
  apply has_safe_nonempty.
  apply has_safe_replace_char; [ reflexivity | ].
  apply has_safe_replace_char; [ reflexivity | ].
  apply has_safe_sub_space_runs, has_safe_rstrip, has_safe_lstrip, has_safe_remove_chars.
  exact Hsafe.
Qed.

Lemma notes_path_event (company_folder : Py.Path) (title text : string) :
  notes_event company_folder
    (WriteFile (ScraperV1.notes_path (Py.joinpath company_folder "concall_notes") title) text).
Proof.
  unfold notes_event, ScraperV1.notes_path. rewrite parent_joinpath, name_joinpath.
  split; [ reflexivity | ]. eexists. split; [ reflexivity | ]. split; [ | split ].
  - apply clean_filename_nonempty, has_safe_append_r. reflexivity.
  - unfold ScraperV1.clean_filename. apply take_length.
  - apply clean_filename_safe_chars.
Qed.

Lemma notes_turn_events (company_folder : Py.Path) (idx : nat) (t : ScraperV1.Turn) :
  emits (notes_event company_folder)
        (ScraperV1.notes_turn (Py.joinpath company_folder "concall_notes") idx t).
Proof.
  unfold ScraperV1.notes_turn.
  apply emits_try.
  - apply emits_bind; [ apply emits_lift | intros n ].
    destruct (Nat.leb n idx); [ apply emits_ret | ].
    apply emits_bind; [ apply emits_emit; exact I | intros _ ].
    apply emits_bind; [ apply emits_lift | intros _ ].
    apply emits_bind.
    { apply emits_try; [ apply emits_lift | intros e ].
      apply emits_bind; [ apply emits_emit; exact I | intros _ ]. apply emits_lift. }
    intros _. destruct (dialog t) as [dlg | e].
    + apply emits_bind; [ apply emits_lift | intros text ].
      apply emits_bind; [ | intros _; apply emits_ret ].
      destruct (Py.is_empty text); [ apply emits_emit; exact I | ].
      apply emits_bind; [ apply emits_write_file, notes_path_event | intros _ ].
      apply emits_emit. exact I.
    + apply emits_bind; [ apply emits_emit; exact I | intros _ ]. apply emits_ret.
  - intros e. apply emits_bind; [ apply emits_emit; exact I | intros _ ]. apply emits_ret.
Qed.

Lemma notes_turn_never_raises_run (notes_folder : Py.Path) (idx : nat)
    (t : ScraperV1.Turn) (s : State) :
  exists go_on s', ScraperV1.notes_turn notes_folder idx t s = (Ok go_on, s').
Proof.
  unfold ScraperV1.notes_turn, try_except.
  match goal with
  | |- context [match ?body s with _ => _ end] => destruct (body s) as [[go_on | e] s']
  end.
  - exists go_on, s'. reflexivity.
  - unfold bindM, emit, ret. eexists _, _. reflexivity.
Qed.

(** Whatever the browser does, [extract_concall_notes] never raises, and
    besides printing it only writes Markdown files directly inside the
    folder [concall_notes], each under a name that is not empty, is at
    most 150 characters before the [.md] and holds no forbidden character
    and no white space. *)
Theorem notes_are_saved_in_their_folder (located : result nat)
    (browser : nat -> ScraperV1.Turn) (company_folder : Py.Path)
    (disk : gmap Py.Path string) :
  exists disk' evs,
    ScraperV1.extract_concall_notes located browser company_folder (mkState disk [])
    = (Ok tt, mkState disk' evs)
    /\ List.Forall (notes_event company_folder) evs.
Proof.
  assert (Hloop : forall todo idx,
             forall s, exists disk' evs,
               ScraperV1.notes_loop (Py.joinpath company_folder "concall_notes")
                                    browser idx todo s
               = (Ok tt, mkState disk' (trace s ++ evs))
               /\ List.Forall (notes_event company_folder) evs).
  { induction todo as [ | todo IH ]; intros idx s.
    - exists (files s), []. rewrite app_nil_r. destruct s. split; [ reflexivity | constructor ].
    - cbn [ScraperV1.notes_loop]. unfold bindM.
      destruct (notes_turn_events company_folder idx (browser idx) s)
        as (r & disk1 & evs1 & E1 & H1).
      destruct (notes_turn_never_raises_run
                  (Py.joinpath company_folder "concall_notes") idx (browser idx) s)
        as (go_on & s1 & E1').
      rewrite E1' in E1. injection E1 as <- ->. rewrite E1'.
      destruct go_on.
      + destruct (IH (S idx) (mkState disk1 (trace s ++ evs1))) as (disk2 & evs2 & E2 & H2).
        rewrite E2. cbn [trace]. exists disk2, (evs1 ++ evs2). rewrite app_assoc.
        split; [ reflexivity | apply List.Forall_app; split; assumption ].
      + exists disk1, evs1. split; [ reflexivity | exact H1 ]. }
  unfold ScraperV1.extract_concall_notes, bindM, emit. cbn [files trace app].
  destruct located as [n | e].
  - destruct (Hloop n 0 (mkState disk [Print "  [Concalls] Extracting Notes from modal/offcanvas..."; Print ("  [Concalls] Found " +:+ Py.str_of_nat n +:+ " 'Notes' buttons (button.concall-link)")]))
      as (disk' & evs & E & Hall).
    exists disk'. eexists. cbn [trace app] in E. split; [ exact E | ].
    repeat constructor. exact Hall.
  - eexists _, _. split; [ reflexivity | repeat constructor ].
Qed.

(** ** The login *)

Lemma run_commands_sent (steps : list (command * result unit)) (c : command) :
  In c (fst (run_commands steps)) -> In c (List.map fst steps).
Proof.
  induction steps as [ | [c' [[] | e]] rest IH ]; cbn [run_commands List.map fst In].
  - auto.
  - destruct (run_commands rest) as [cs err]. cbn [fst In] in *. intros [H | H]; auto.
  - cbn [fst In]. intros [H | []]. auto.
Qed.

Lemma run_commands_done (steps : list (command * result unit)) :
  snd (run_commands steps) = None ->
  List.Forall (fun step => snd step = Ok tt) steps
  /\ fst (run_commands steps) = List.map fst steps.
Proof.
  induction steps as [ | [c' [[] | e]] rest IH ]; cbn [run_commands List.map fst snd].
  - intros _. split; [ constructor | reflexivity ].
  - destruct (run_commands rest) as [cs err]. cbn [fst snd] in *. intros H.
    destruct (IH H) as [Hall Hcs]. split; [ constructor; auto | congruence ].
  - discriminate.
Qed.

(** The login is careful in three ways.  Without both credentials the
    browser is not asked anything and the result is [False].  The result
    is [True] only when every step worked and the browser ended on a URL
    without "login" in it.  And whatever happens, the user name and the
    password are typed nowhere but into the fields [id_username] and
    [id_password]. *)
Theorem login_is_careful (username password : option string)
    (b : ScraperV1.LoginBrowser) :
  (unset username || unset password = true ->
   fst (fst (login_to_screener username password b)) = []
   /\ snd (login_to_screener username password b) = false)
  /\ (snd (login_to_screener username password b) = true ->
      List.Forall (fun step => snd step = Ok tt)
                  (login_steps (default "" username) (default "" password) b)
      /\ exists url, current_url b = Ok url /\ Py.contains "login" (Py.lower url) = false)
  /\ (forall field text,
        In (SendKeys field text) (fst (fst (login_to_screener username password b))) ->
        (field = "id_username" /\ username = Some text)
        \/ (field = "id_password" /\ password = Some text)).
Proof.
  unfold login_to_screener. split; [ | split ].
  - intros Hunset. rewrite Hunset. auto.
  - destruct (unset username || unset password); [ discriminate | ].
    destruct (run_commands _) as [cs [e | ]] eqn:Hrun; [ discriminate | ].
    pose proof (run_commands_done _ (f_equal snd Hrun)) as [Hall _].
    destruct (current_url b) as [url | e]; [ | discriminate ].
    destruct (Py.contains "login" (Py.lower url)) eqn:Hurl; [ discriminate | ].
    intros _. split; [ exact Hall | ]. exists url. auto.
  - intros field text.
    destruct (unset username || unset password) eqn:Hunset; [ intros [] | ].
    apply orb_false_iff in Hunset. destruct Hunset as [Huser Hpass].
    destruct username as [user | ]; [ | discriminate ].
    destruct password as [pass | ]; [ | discriminate ].
    change (default "" (Some user)) with user.
    change (default "" (Some pass)) with pass.
    assert (Hsent : In (SendKeys field text)
                       (fst (run_commands (login_steps user pass b))) ->
                    (field = "id_username" /\ Some user = Some text)
                    \/ (field = "id_password" /\ Some pass = Some text)).
    { intros Hin. apply run_commands_sent in Hin. cbn in Hin.
      repeat (destruct Hin as [Hin | Hin]; try discriminate); try contradiction;
        injection Hin as <- <-; auto. }
    destruct (run_commands (login_steps user pass b)) as [cs [e | ]]; cbn [fst] in *.
    + exact Hsent.
    + assert (Hmore : In (SendKeys field text) (cs ++ [ReadUrl]) ->
                      In (SendKeys field text) cs).
      { intros Hin. apply in_app_or in Hin.
        destruct Hin as [Hin | [Hin | []]]; [ exact Hin | discriminate ]. }
      destruct (current_url b) as [url | e]; [ destruct (negb _) | ]; cbn [fst];
        intros Hin; apply Hsent, Hmore, Hin.
Qed.

Example login_on_a_welcoming_browser :
  login_to_screener (Some "analyst@example.com") (Some "s3cret") welcoming_browser
  = (List.map fst (login_steps "analyst@example.com" "s3cret" welcoming_browser) ++ [ReadUrl],
     ["Login successful!"], true).
Proof. reflexivity. Qed.

(** ** The class test of the concalls container *)

Lemma starts_word_split (r : string) :
  Py.starts_word r = true -> exists w ws, Py.split_ws r = w :: ws.
Proof.
  destruct r as [ | c r ]; [ discriminate | ]. cbn [Py.starts_word Py.split_ws].
  intros Hc. apply negb_true_iff in Hc. rewrite Hc.
  destruct (Py.starts_word r); [ destruct (Py.split_ws r) | ]; eauto.
Qed.

Lemma startswith_nil (s : string) : Py.startswith s "" = true.
Proof. destruct s; reflexivity. Qed.

Lemma startswith_space (r m : string) :
  no_space m = true -> m <> "" -> Py.starts_word r = false -> Py.startswith r m = false.
Proof.
  intros Hm Hne Hr. destruct m as [ | a m ]; [ congruence | ].
  destruct r as [ | c r ]; [ reflexivity | ]. cbn [Py.startswith].
  destruct (ascii_dec a c) as [-> | ]; [ | reflexivity ].
  unfold no_space in Hm. rewrite forall_cons in Hm. cbn [Py.starts_word] in Hr.
  destruct (Py.isspace c); discriminate.
Qed.

(** The words of [String c r] joined again, for a [c] that is not white
    space: [c], followed by a rest that holds what the joined words of
    [r] hold and starts as [r] starts. *)
Lemma join_step (c : ascii) (r : string) :
  Py.isspace c = false ->
  exists rest,
    String.concat " " (Py.split_ws (String c r)) = String c rest
    /\ (forall n, no_space n = true -> n <> "" ->
          Py.contains n rest = Py.contains n (String.concat " " (Py.split_ws r)))
    /\ (Py.starts_word r = true -> rest = String.concat " " (Py.split_ws r))
    /\ (Py.starts_word r = false -> Py.starts_word rest = false).
Proof.
  intros Hc. cbn [Py.split_ws]. rewrite Hc.
  destruct (Py.starts_word r) eqn:Hr.
  - destruct (starts_word_split r Hr) as (w & ws & ->).
    exists (String.concat " " (w :: ws)). split; [ | split; [ | split ] ]; auto;
      [ | discriminate ].
    cbn [String.concat]. destruct ws; reflexivity.
  - destruct (Py.split_ws r) as [ | w ws ] eqn:Hwords.
    + exists "". repeat split; auto; discriminate.
    + exists (String " " (String.concat " " (w :: ws))). split; [ | split; [ | split ] ].
      * reflexivity.
      * intros n Hn Hne. rewrite (contains_unfold n (String _ _)).
        rewrite (startswith_space (String " " _) n Hn Hne eq_refl). reflexivity.
      * discriminate.
      * reflexivity.
Qed.

Lemma startswith_joined (r m : string) :
  no_space m = true -> Py.starts_word r = true ->
  Py.startswith (String.concat " " (Py.split_ws r)) m = Py.startswith r m.
Proof.
  revert m. induction r as [ | c r IH ]; intros m Hm Hr; [ discriminate | ].
  pose proof Hr as Hc. cbn [Py.starts_word] in Hc. apply negb_true_iff in Hc.
  destruct (join_step c r Hc) as (rest & -> & _ & Hword & Hgap).
  destruct m as [ | a m ]; [ reflexivity | ]. cbn [Py.startswith].
  destruct (ascii_dec a c) as [-> | ]; [ | reflexivity ].
  unfold no_space in Hm. rewrite forall_cons in Hm. apply andb_true_iff in Hm.
  destruct Hm as [_ Hm]. destruct (Py.starts_word r) eqn:Hstart.
  - rewrite (Hword eq_refl). apply IH; [ exact Hm | reflexivity ].
  - destruct m as [ | b m ]; [ rewrite !startswith_nil; reflexivity | ].
    rewrite (startswith_space rest (String b m) Hm ltac:(discriminate) (Hgap eq_refl)).
    rewrite (startswith_space r (String b m) Hm ltac:(discriminate) Hstart). reflexivity.
Qed.

Lemma contains_joined (r n : string) :
  no_space n = true -> n <> "" ->
  Py.contains n (String.concat " " (Py.split_ws r)) = Py.contains n r.
Proof.
  intros Hn Hne. induction r as [ | c r IH ]; [ reflexivity | ].
  destruct (Py.isspace c) eqn:Hc.
  - cbn [Py.split_ws]. rewrite Hc, IH. rewrite (contains_unfold n (String c r)).
    rewrite (startswith_space (String c r) n Hn Hne) by (cbn; rewrite Hc; reflexivity).
    reflexivity.
  - pose proof (startswith_joined (String c r) n Hn) as Hstart.
    cbn [Py.starts_word] in Hstart. rewrite Hc in Hstart. specialize (Hstart eq_refl).
    destruct (join_step c r Hc) as (rest & Hjoin & Hrest & _).
    rewrite Hjoin in *. rewrite (contains_unfold n (String c rest)), Hstart.
    rewrite (Hrest n Hn Hne), IH. rewrite (contains_unfold n (String c r)). reflexivity.
Qed.

Lemma contains_concat (sep n w : string) (words : list string) :
  In w words -> Py.contains n w = true -> Py.contains n (String.concat sep words) = true.
Proof.
  intros Hin Hw. induction words as [ | x words IH ]; [ destruct Hin | ].
  cbn [String.concat]. destruct words as [ | y words ].
  - destruct Hin as [-> | []]. exact Hw.
  - destruct Hin as [-> | Hin].
    + apply contains_append_l. exact Hw.
    + apply contains_append_r, contains_append_r, IH, Hin.
Qed.

Lemma contains_nonempty (n s : string) : n <> "" -> Py.contains n s = true -> s <> "".
Proof.
  intros Hne H ->. destruct n; [ congruence | discriminate ].
Qed.

(** A [div] passes the class test of the concalls container exactly when
    its [class] attribute, as it is written in the page, holds both
    "documents" and "concalls": as two classes in any order, or inside
    longer class names. *)
Theorem concalls_container_class (soup : Bs4.Soup) (h : Bs4.handle) :
  Bs4.class_matches ScraperV1.documents_concalls (Bs4.class_list soup h)
  = match Bs4.get_attr soup h "class" with
    | Some value => Py.contains "documents" value && Py.contains "concalls" value
    | None => false
    end.
Proof.
  unfold Bs4.class_list. destruct (Bs4.get_attr soup h "class") as [value | ];
    [ | reflexivity ].
  cbn [fmap option_fmap option_map Bs4.class_matches].
  set (joined := String.concat " " (Py.split_ws value)).
  assert (Hjoined : ScraperV1.documents_concalls (Some joined)
                    = Py.contains "documents" value && Py.contains "concalls" value).
  { unfold ScraperV1.documents_concalls, joined.
    rewrite !contains_joined by (try reflexivity; discriminate).
    destruct (Py.contains "documents" value) eqn:Hd;
      [ | rewrite andb_false_r; reflexivity ].
    rewrite <- (contains_joined value "documents") in Hd by (try reflexivity; discriminate).
    apply (contains_nonempty "documents") in Hd; [ | discriminate ].
    apply is_empty_false in Hd. rewrite Hd. reflexivity. }
  rewrite Hjoined.
  destruct (existsb _ (Py.split_ws value)) eqn:Hword; [ | reflexivity ].
  apply existsb_exists in Hword. destruct Hword as (w & Hin & Hw).
  unfold ScraperV1.documents_concalls in Hw.
  apply andb_true_iff in Hw. destruct Hw as [Hw Hk].
  apply andb_true_iff in Hw. destruct Hw as [_ Hd].
  rewrite <- Hjoined. unfold ScraperV1.documents_concalls, joined.
  rewrite (contains_concat " " "documents" w _ Hin Hd).
  rewrite (contains_concat " " "concalls" w _ Hin Hk).
  pose proof (contains_concat " " "documents" w _ Hin Hd) as Hfull.
  apply (contains_nonempty "documents") in Hfull; [ | discriminate ].
  apply is_empty_false in Hfull. rewrite Hfull. reflexivity.
Qed.

(** ** No link twice *)

Lemma PageElement_forall_ind (P : Bs4.PageElement -> Prop) :
  (forall s, P (Bs4.NavigableString s)) ->
  (forall s, P (Bs4.Comment s)) ->
  (forall n a cs, List.Forall P cs -> P (Bs4.Tag n a cs)) ->
  forall e, P e.
Proof.
  intros Hs Hc Ht. fix IH 1. intros [s | s | n a cs]; [ apply Hs | apply Hc | ].
  apply Ht. induction cs as [ | c cs IHcs ]; constructor; [ apply IH | exact IHcs ].
Qed.

Lemma below_length (det : list Bs4.ref) (p q : Bs4.ref) :
  below det p q -> length p < length q.
Proof.
  intros (s & Hs & -> & _). rewrite length_app. destruct s; [ congruence | simpl; lia ].
Qed.

Lemma below_step (det : list Bs4.ref) (p q : Bs4.ref) (i : nat) :
  p ++ [i] ∉ det -> below det (p ++ [i]) q -> below det p q.
Proof.
  intros Hi (s & Hs & -> & Hfree). exists (i :: s). split; [ discriminate | ].
  split; [ rewrite <- app_assoc; reflexivity | ].
  intros s1 s2 Hsplit Hne. destruct s1 as [ | j s1 ]; [ congruence | ].
  injection Hsplit as <- ->. destruct s1 as [ | k s1 ]; [ exact Hi | ].
  replace (p ++ i :: k :: s1) with ((p ++ [i]) ++ k :: s1)
    by (rewrite <- app_assoc; reflexivity).
  apply (Hfree (k :: s1) s2); [ reflexivity | discriminate ].
Qed.

Lemma descendants_at_below (det : list Bs4.ref) (e : Bs4.PageElement) :
  forall p,
    (forall q, q ∈ Bs4.descendants_at det p e -> below det p q)
    /\ NoDup (Bs4.descendants_at det p e).
Proof.
  induction e as [s | s | n a cs Hcs] using PageElement_forall_ind; intros p;
    try (split; [ intros q Hq; inversion Hq | constructor ]).
  cbn [Bs4.descendants_at].
  match goal with
  | |- context [?f 0 cs] => set (go := f)
  end.
  assert (Hgo : forall i,
             (forall q, q ∈ go i cs ->
                exists j, i <= j /\ (q = p ++ [j] \/ below det (p ++ [j]) q)
                          /\ p ++ [j] ∉ det)
             /\ NoDup (go i cs)).
  { induction Hcs as [ | c cs Hc Hcs IH ]; intros i.
    - split; [ intros q Hq; inversion Hq | constructor ].
    - destruct (IH (S i)) as [Hrest Hnodup]. destruct (Hc (p ++ [i])) as [Hchild Hchild_nodup].
      cbn [go]. fold go.
      assert (Hhead : forall q,
                 q ∈ (if Bs4.is_detached det (p ++ [i]) then []
                      else (p ++ [i]) :: Bs4.descendants_at det (p ++ [i]) c) ->
                 (q = p ++ [i] \/ below det (p ++ [i]) q) /\ p ++ [i] ∉ det).
      { intros q Hq. unfold Bs4.is_detached in Hq. case_bool_decide as Hdet;
          [ inversion Hq | ].
        apply elem_of_cons in Hq. destruct Hq as [-> | Hq]; auto. }
      split.
      + intros q Hq. apply elem_of_app in Hq. destruct Hq as [Hq | Hq].
        * exists i. destruct (Hhead q Hq) as [Hq' Hfree]. auto.
        * destruct (Hrest q Hq) as (j & Hj & Hq' & Hfree). exists j. split; [ lia | auto ].
      + apply NoDup_app. split; [ | split; [ | exact Hnodup ] ].
        * unfold Bs4.is_detached. case_bool_decide; [ constructor | ].
          apply NoDup_cons. split; [ | exact Hchild_nodup ].
          intros Hin. apply Hchild, below_length in Hin. lia.
        * intros q Hq Hq2. destruct (Hhead q Hq) as [Hq' _].
          destruct (Hrest q Hq2) as (j & Hj & Hq2' & _).
          assert (Hpre : forall k, (q = p ++ [k] \/ below det (p ++ [k]) q) ->
                                   exists s, q = p ++ k :: s).
          { intros k [-> | (s & _ & -> & _)]; [ exists []; reflexivity | ].
            exists s. rewrite <- app_assoc. reflexivity. }
          destruct (Hpre i Hq') as (s & Hs). destruct (Hpre j Hq2') as (s' & Hs').
          rewrite Hs in Hs'. apply app_inv_head in Hs'. injection Hs' as Hij _. lia. }
  destruct (Hgo 0) as [Hmem Hnodup]. split; [ | exact Hnodup ].
  intros q Hq. destruct (Hmem q Hq) as (j & _ & [-> | Hbelow] & Hfree).
  - exists [j]. split; [ discriminate | split; [ reflexivity | ] ].
    intros s1 s2 Hsplit Hne. destruct s1 as [ | k s1 ]; [ congruence | ].
    injection Hsplit as <- Hrest. destruct s1; [ exact Hfree | discriminate ].
  - exact (below_step det p q j Hfree Hbelow).
Qed.

Lemma NoDup_flat_map {A B} (f : A -> list B) (l : list A) :
  NoDup l ->
  (forall x, x ∈ l -> NoDup (f x)) ->
  (forall x y q, x ∈ l -> y ∈ l -> q ∈ f x -> q ∈ f y -> x = y) ->
  NoDup (flat_map f l).
Proof.
  induction l as [ | a l IH ]; intros Hl Hf Hdisjoint; [ constructor | ].
  apply NoDup_cons in Hl. destruct Hl as [Ha Hl]. cbn [flat_map].
  apply NoDup_app. split; [ apply Hf; left | split ].
  - intros q Hq Hq'. apply list_elem_of_In, in_flat_map in Hq'.
    destruct Hq' as (y & Hy & Hqy). apply list_elem_of_In in Hy, Hqy.
    assert (a = y) by (apply (Hdisjoint a y q); [ left | right | | ]; assumption).
    subst y. contradiction.
  - apply IH; [ exact Hl | intros x Hx; apply Hf; right; exact Hx | ].
    intros x y q Hx Hy. apply Hdisjoint; right; assumption.
Qed.

Lemma listing_spec (soup : Bs4.Soup) (p : Bs4.ref) :
  (forall q, q ∈ listing soup p -> q = p \/ below (Bs4.detached soup) p q)
  /\ NoDup (listing soup p).
Proof.
  unfold listing. destruct (Bs4.element soup p) as [e | ].
  - destruct (descendants_at_below (Bs4.detached soup) e p) as [Hmem Hnodup]. split.
    + intros q Hq. apply elem_of_cons in Hq. destruct Hq as [-> | Hq]; auto.
    + apply NoDup_cons. split; [ | exact Hnodup ].
      intros Hin. apply Hmem, below_length in Hin. lia.
  - split; [ | apply NoDup_singleton ].
    intros q Hq. apply list_elem_of_singleton in Hq. auto.
Qed.

Lemma listings_disjoint (soup : Bs4.Soup) (p p' q : Bs4.ref) :
  p ∈ Bs4.detached soup -> p' ∈ Bs4.detached soup ->
  q ∈ listing soup p -> q ∈ listing soup p' -> p = p'.
Proof.
  intros Hp Hp' Hq Hq'.
  destruct (listing_spec soup p) as [Hmem _]. destruct (listing_spec soup p') as [Hmem' _].
  assert (Hpath : forall a b, a ∈ Bs4.detached soup -> b ∈ Bs4.detached soup ->
                    (q = a \/ below (Bs4.detached soup) a q) ->
                    (q = b \/ below (Bs4.detached soup) b q) ->
                    length a <= length b -> a = b).
  { intros a b Ha Hb Hqa Hqb Hlen.
    destruct Hqb as [-> | (t & Ht & -> & _)].
    - destruct Hqa as [-> | (s & Hs & -> & Hfree)]; [ reflexivity | ].
      exfalso. apply (Hfree s []); [ rewrite app_nil_r; reflexivity | exact Hs | exact Hb ].
    - destruct Hqa as [<- | (s & Hs & Heq & Hfree)].
      + rewrite length_app in Hlen. destruct t; [ congruence | simpl in Hlen; lia ].
      + apply app_eq_inv in Heq. destruct Heq as [(k & -> & ->) | (k & -> & ->)].
        * destruct k as [ | x k ]; [ rewrite app_nil_r; reflexivity | ].
          exfalso. apply (Hfree (x :: k) t eq_refl); [ discriminate | exact Hb ].
        * rewrite length_app in Hlen. destruct k; [ rewrite app_nil_r; reflexivity | ].
          simpl in Hlen. lia. }
  destruct (Nat.le_ge_cases (length p) (length p')) as [Hle | Hge].
  - apply Hpath; auto.
  - symmetry. apply Hpath; auto.
Qed.

Lemma listings_NoDup (soup : Bs4.Soup) :
  NoDup (Bs4.detached soup) -> NoDup (flat_map (listing soup) (Bs4.detached soup)).
Proof.
  intros Hdet. apply NoDup_flat_map; [ exact Hdet | | ].
  - intros p _. apply listing_spec.
  - intros p p' q Hp Hp'. apply listings_disjoint; assumption.
Qed.

Lemma concat_alter_append {A} (p : A) (w : nat) (rows : list (list A)) :
  w < length rows ->
  concat (alter (fun l => l ++ [p]) w rows) ≡ₚ p :: concat rows.
Proof.
  revert w. induction rows as [ | row rows IH ]; intros w Hw; [ simpl in Hw; lia | ].
  destruct w as [ | w ]; cbn [alter list_alter concat].
  - rewrite <- app_assoc. cbn [app]. rewrite <- Permutation_middle. reflexivity.
  - rewrite IH by (simpl in Hw; lia). rewrite <- Permutation_middle. reflexivity.
Qed.

Lemma alter_out_of_range {A} (f : A -> A) (w : nat) (rows : list A) :
  length rows <= w -> alter f w rows = rows.
Proof.
  revert w. induction rows as [ | row rows IH ]; intros w Hw; [ reflexivity | ].
  destruct w as [ | w ]; [ simpl in Hw; lia | ].
  cbn [alter list_alter]. f_equal. apply IH. simpl in Hw. lia.
Qed.

Lemma concat_filter {A} (f : A -> bool) (rows : list (list A)) :
  concat (List.map (List.filter f) rows) = List.filter f (concat rows).
Proof.
  induction rows as [ | row rows IH ]; [ reflexivity | ].
  cbn [List.map concat]. rewrite IH, List.filter_app. reflexivity.
Qed.

Lemma append_invariant (soup : Bs4.Soup) (wrapper node : Bs4.handle) :
  NoDup (Bs4.detached soup) ->
  NoDup (Bs4.detached (Bs4.append soup wrapper node))
  /\ length (Bs4.wrappers (Bs4.append soup wrapper node)) = length (Bs4.wrappers soup).
Proof.
  intros Hdet. destruct wrapper as [ r | w ], node as [ p | v ];
    try (split; [ exact Hdet | reflexivity ]).
  unfold Bs4.append, Bs4.detached in *. cbn [Bs4.wrappers].
  set (removed := List.map (List.filter (fun q => negb (bool_decide (q = p))))
                           (Bs4.wrappers soup)).
  assert (Hremoved : NoDup (concat removed) /\ p ∉ concat removed).
  { unfold removed. rewrite concat_filter. split.
    - apply NoDup_ListNoDup, List.NoDup_filter, NoDup_ListNoDup, Hdet.
    - intros Hin. apply list_elem_of_In, filter_In in Hin. destruct Hin as [_ Hin].
      rewrite bool_decide_eq_true_2 in Hin by reflexivity. discriminate. }
  destruct Hremoved as [Hnodup Hfresh].
  split; [ | unfold removed; rewrite length_alter, length_map; reflexivity ].
  destruct (decide (w < length removed)) as [Hw | Hw].
  - rewrite (concat_alter_append p w removed Hw). apply NoDup_cons. auto.
  - rewrite alter_out_of_range by lia. exact Hnodup.
Qed.

Lemma fold_append_invariant (wrapper : Bs4.handle) (nodes : list Bs4.handle)
    (soup : Bs4.Soup) :
  NoDup (Bs4.detached soup) ->
  NoDup (Bs4.detached (fold_left (fun s node => Bs4.append s wrapper node) nodes soup))
  /\ length (Bs4.wrappers (fold_left (fun s node => Bs4.append s wrapper node) nodes soup))
     = length (Bs4.wrappers soup).
Proof.
  revert soup. induction nodes as [ | node nodes IH ]; intros soup Hdet;
    [ split; [ exact Hdet | reflexivity ] | ].
  cbn [fold_left]. destruct (append_invariant soup wrapper node Hdet) as [Hdet' Hlen].
  destruct (IH _ Hdet') as [Hdet'' Hlen']. split; [ exact Hdet'' | congruence ].
Qed.

Lemma collect_section_invariant (st : Bs4.Soup * list (string * Bs4.handle))
    (heading_tag : Bs4.handle) :
  sections_invariant st -> sections_invariant (ScraperV1.collect_section st heading_tag).
Proof.
  destruct st as [soup sections]. intros [Hdet Hsections]. cbn [fst snd] in *.
  unfold ScraperV1.collect_section.
  destruct (ScraperV1.heading_category _) as [category | ]; [ | split; assumption ].
  destruct (ScraperV1.section_nodes soup heading_tag) as [ | node nodes ];
    [ split; assumption | ].
  unfold Bs4.new_tag.
  set (fresh := Bs4.mkSoup (Bs4.top soup) (Bs4.wrappers soup ++ [[]])).
  assert (Hfresh : NoDup (Bs4.detached fresh)).
  { unfold fresh, Bs4.detached in *. cbn [Bs4.wrappers].
    rewrite concat_app. cbn [concat]. rewrite !app_nil_r. exact Hdet. }
  destruct (fold_append_invariant (Bs4.NewTag (length (Bs4.wrappers soup)))
              (node :: nodes) fresh Hfresh) as [Hdet' Hlen].
  split; cbn [fst snd].
  - exact Hdet'.
  - rewrite Hlen. unfold fresh. cbn [Bs4.wrappers].
    rewrite length_app, List.map_app, Hsections. cbn [length List.map snd].
    rewrite Nat.add_1_r, seq_S, fmap_app. reflexivity.
Qed.

Lemma collect_sections_invariant (soup : Bs4.Soup) (container : Bs4.handle) :
  Bs4.wrappers soup = [] -> sections_invariant (ScraperV1.collect_sections soup container).
Proof.
  intros Hfresh. unfold ScraperV1.collect_sections.
  assert (Hloop : forall headings st,
             sections_invariant st ->
             sections_invariant (fold_left ScraperV1.collect_section headings st)).
  { induction headings as [ | h headings IH ]; intros st Hst; [ exact Hst | ].
    cbn [fold_left]. apply IH, collect_section_invariant, Hst. }
  apply Hloop. unfold sections_invariant, Bs4.detached. cbn [fst snd]. rewrite Hfresh.
  split; [ constructor | reflexivity ].
Qed.

Lemma flat_map_rows {A B} (G : list A -> list B) (rows before : list (list A)) :
  flat_map (fun w => G (default [] ((before ++ rows) !! w)))
           (seq (length before) (length rows))
  = flat_map G rows.
Proof.
  revert before. induction rows as [ | row rows IH ]; intros before; [ reflexivity | ].
  cbn [length seq flat_map]. rewrite list_lookup_middle by reflexivity. cbn [default].
  f_equal. specialize (IH (before ++ [row])).
  rewrite <- app_assoc, length_app in IH. cbn [app length] in IH.
  rewrite Nat.add_1_r in IH. exact IH.
Qed.

Lemma flat_map_concat {A B C} (f : A -> list B) (g : list B -> list C)
    (rows : list (list A)) :
  g [] = [] -> (forall a b, g (a ++ b) = g a ++ g b) ->
  flat_map (fun row => g (flat_map f row)) rows = g (flat_map f (concat rows)).
Proof.
  intros Hnil Happ. induction rows as [ | row rows IH ]; [ symmetry; exact Hnil | ].
  cbn [flat_map concat]. rewrite IH, flat_map_app, Happ. reflexivity.
Qed.

Lemma section_links_handles (soup : Bs4.Soup) (sections : list (string * Bs4.handle)) :
  List.map snd (ScraperV1.section_links soup sections)
  = flat_map (fun h => Bs4.find_all soup h ["a"] true) (List.map snd sections).
Proof.
  unfold ScraperV1.section_links. induction sections as [ | cs sections IH ];
    [ reflexivity | ].
  cbn [flat_map List.map]. rewrite List.map_app, List.map_map, IH. cbn [snd].
  rewrite List.map_id. reflexivity.
Qed.

Lemma section_links_NoDup (soup : Bs4.Soup) (sections : list (string * Bs4.handle)) :
  sections_invariant (soup, sections) ->
  NoDup (List.map snd (ScraperV1.section_links soup sections)).
Proof.
  intros [Hdet Hsections]. cbn [fst snd] in *.
  rewrite section_links_handles, Hsections.
  set (keep := fun d : Bs4.handle =>
                 match Bs4.tag_name soup d with
                 | Some n => Py.mem n ["a"] && (negb true || Bs4.is_some (Bs4.get_attr soup d "href"))
                 | None => false
                 end).
  set (G := fun members : list Bs4.ref =>
              List.filter keep (Bs4.Node <$> flat_map (listing soup) members)).
  assert (Hrows : flat_map (fun h => Bs4.find_all soup h ["a"] true)
                           (Bs4.NewTag <$> seq 0 (length (Bs4.wrappers soup)))
                  = flat_map G (Bs4.wrappers soup)).
  { rewrite <- (flat_map_rows G (Bs4.wrappers soup) []). cbn [app length].
    generalize (seq 0 (length (Bs4.wrappers soup))). intros ws.
    induction ws as [ | w ws IH ]; [ reflexivity | ].
    cbn [fmap list_fmap flat_map]. f_equal. exact IH. }
  rewrite Hrows.
  assert (Hall : flat_map G (Bs4.wrappers soup)
                 = List.filter keep (Bs4.Node <$> flat_map (listing soup) (Bs4.detached soup))).
  { unfold G, Bs4.detached.
    apply (flat_map_concat (listing soup) (fun l => List.filter keep (Bs4.Node <$> l)));
      [ reflexivity | ].
    intros a b. rewrite fmap_app, List.filter_app. reflexivity. }
  rewrite Hall. apply NoDup_ListNoDup, List.NoDup_filter, NoDup_ListNoDup.
  apply NoDup_fmap_2; [ intros a b H; congruence | ].
  apply listings_NoDup, Hdet.
Qed.

Lemma document_links_NoDup (html : list Bs4.PageElement) :
  NoDup (List.map snd (document_links (Bs4.BeautifulSoup html))).
Proof.
  unfold document_links. apply section_links_NoDup. unfold document_sections.
  destruct (ScraperV1.docs_heading _) as [heading | ];
    [ destruct (ScraperV1.best_container _ _ _ _ _) as [container | ] | ].
  - rewrite <- surjective_pairing. apply collect_sections_invariant. reflexivity.
  - split; [ constructor | reflexivity ].
  - split; [ constructor | reflexivity ].
Qed.

Lemma NoDup_map_filter {A B} (f : A -> B) (keep : A -> bool) (l : list A) :
  List.NoDup (List.map f l) -> List.NoDup (List.map f (List.filter keep l)).
Proof.
  induction l as [ | x l IH ]; intros Hl; [ constructor | ].
  cbn [List.map] in Hl. inversion Hl as [ | ? ? Hx Hrest ]; subst.
  cbn [List.filter]. destruct (keep x); [ | apply IH, Hrest ].
  cbn [List.map]. constructor; [ | apply IH, Hrest ].
  intros Hin. apply Hx. apply in_map_iff in Hin. destruct Hin as (y & Hy & Hin).
  apply filter_In in Hin. apply in_map_iff. exists y. tauto.
Qed.

(** On a freshly parsed page the classifier reads no link element twice,
    however the sub-headings are nested: what it comes to is what reading
    a list of links comes to in which every [a] element occurs at most
    once, so no link has two records. *)
Theorem no_link_is_read_twice (urljoin : string -> string -> result string)
    (html : list Bs4.PageElement) (base_url : string) :
  exists links,
    List.NoDup (List.map snd links)
    /\ outcome urljoin (fst (document_sections (Bs4.BeautifulSoup html))) base_url links
         (snd (ScraperV1.extract_documents_links urljoin (Bs4.BeautifulSoup html) base_url)).
Proof.
  exists (List.filter (fun ca => kept (fst (document_sections (Bs4.BeautifulSoup html)))
                                       (snd ca))
                      (document_links (Bs4.BeautifulSoup html))).
  split; [ | apply extract_documents_links_outcome ].
  apply NoDup_map_filter, NoDup_ListNoDup, document_links_NoDup.
Qed.

(** ** What the classifier takes out of the page *)

Lemma in_following {A} `{EqDecision A} (x y : A) (l : list A) :
  In y (Bs4.following x l) -> In y l.
Proof.
  induction l as [ | z l IH ]; [ auto | ].
  cbn [Bs4.following]. destruct (decide (z = x)); intros H; [ right; exact H | ].
  right. apply IH, H.
Qed.

Lemma in_take_while {A} (f : A -> bool) (y : A) (l : list A) :
  In y (take_while f l) -> In y l.
Proof.
  induction l as [ | z l IH ]; [ auto | ].
  cbn [take_while]. destruct (f z); [ | intros [] ].
  intros [-> | H]; [ left; reflexivity | right; apply IH, H ].
Qed.

Lemma contents_below_root (soup : Bs4.Soup) (par : Bs4.handle) (p : Bs4.ref) :
  moved_below_root soup -> In (Bs4.Node p) (Bs4.contents soup par) -> p <> [].
Proof.
  intros Hmoved. destruct par as [pp | w]; cbn [Bs4.contents].
  - destruct (Bs4.element soup pp) as [e | ]; [ | intros [] ].
    intros Hin. apply list_elem_of_In, list_elem_of_fmap in Hin.
    destruct Hin as (q & Hq & Hin). injection Hq as ->.
    destruct e as [ s | s | n a cs ]; cbn [Bs4.children_at] in Hin;
      try (inversion Hin; fail).
    apply list_elem_of_In, filter_In in Hin. destruct Hin as [Hin _].
    apply in_map_iff in Hin. destruct Hin as (i & <- & _). destruct pp; discriminate.
  - intros Hin. apply list_elem_of_In, list_elem_of_fmap in Hin.
    destruct Hin as (q & Hq & Hin). injection Hq as ->.
    apply Hmoved. unfold Bs4.detached.
    destruct (Bs4.wrappers soup !! w) as [row | ] eqn:Hrow; [ | inversion Hin ].
    cbn [default] in Hin. apply list_elem_of_In, in_concat. exists row.
    split; [ apply list_elem_of_In, list_elem_of_lookup; eauto | apply list_elem_of_In, Hin ].
Qed.

Lemma section_nodes_below_root (soup : Bs4.Soup) (heading_tag : Bs4.handle) (p : Bs4.ref) :
  moved_below_root soup ->
  In (Bs4.Node p) (ScraperV1.section_nodes soup heading_tag) -> p <> [].
Proof.
  intros Hmoved Hin. unfold ScraperV1.section_nodes in Hin. apply in_take_while in Hin.
  unfold Bs4.next_siblings in Hin.
  destruct (Bs4.parent soup heading_tag) as [par | ]; [ | destruct Hin ].
  apply in_following in Hin. exact (contents_below_root soup par p Hmoved Hin).
Qed.

Lemma append_moved (soup : Bs4.Soup) (wrapper node : Bs4.handle) (q : Bs4.ref) :
  q ∈ Bs4.detached (Bs4.append soup wrapper node) ->
  q ∈ Bs4.detached soup \/ node = Bs4.Node q.
Proof.
  destruct wrapper as [ r | w ], node as [ p | v ]; auto.
  unfold Bs4.append, Bs4.detached. cbn [Bs4.wrappers].
  set (removed := List.map (List.filter (fun q => negb (bool_decide (q = p))))
                           (Bs4.wrappers soup)).
  intros Hq.
  assert (Hq' : q = p \/ q ∈ concat removed).
  { destruct (decide (w < length removed)) as [Hw | Hw].
    - rewrite (concat_alter_append p w removed Hw) in Hq. apply elem_of_cons in Hq. exact Hq.
    - rewrite alter_out_of_range in Hq by lia. auto. }
  destruct Hq' as [-> | Hq']; [ right; reflexivity | left ].
  unfold removed in Hq'. rewrite concat_filter in Hq'.
  apply list_elem_of_In, filter_In in Hq'. apply list_elem_of_In. tauto.
Qed.

Lemma collect_section_moved (st : Bs4.Soup * list (string * Bs4.handle))
    (heading_tag : Bs4.handle) :
  moved_below_root (fst st) ->
  moved_below_root (fst (ScraperV1.collect_section st heading_tag)).
Proof.
  destruct st as [soup sections]. cbn [fst]. intros Hmoved.
  unfold ScraperV1.collect_section.
  destruct (ScraperV1.heading_category _) as [category | ]; [ | exact Hmoved ].
  pose proof (fun p => section_nodes_below_root soup heading_tag p Hmoved) as Hnodes.
  destruct (ScraperV1.section_nodes soup heading_tag) as [ | node nodes ]; [ exact Hmoved | ].
  unfold Bs4.new_tag. cbn [fst].
  set (fresh := Bs4.mkSoup (Bs4.top soup) (Bs4.wrappers soup ++ [[]])).
  assert (Hfresh : moved_below_root fresh).
  { intros p Hp. apply Hmoved. unfold fresh, Bs4.detached in *. cbn [Bs4.wrappers] in Hp.
    rewrite concat_app in Hp. cbn [concat] in Hp. rewrite !app_nil_r in Hp. exact Hp. }
  revert Hnodes Hfresh. generalize (node :: nodes) as moved, fresh as start.
  induction moved as [ | m moved IH ]; intros start Hnodes Hstart; [ exact Hstart | ].
  cbn [fold_left]. apply IH; [ intros p Hp; apply Hnodes; right; exact Hp | ].
  intros p Hp. apply append_moved in Hp. destruct Hp as [Hp | ->].
  - apply Hstart, Hp.
  - apply Hnodes. left. reflexivity.
Qed.

Lemma document_sections_moved (html : list Bs4.PageElement) :
  moved_below_root (fst (document_sections (Bs4.BeautifulSoup html))).
Proof.
  assert (Hstart : moved_below_root (Bs4.BeautifulSoup html)) by (intros p Hp; inversion Hp).
  unfold document_sections.
  destruct (ScraperV1.docs_heading _) as [heading | ]; [ | exact Hstart ].
  destruct (ScraperV1.best_container _ _ _ _ _) as [container | ]; [ | exact Hstart ].
  unfold ScraperV1.collect_sections.
  generalize (Bs4.find_all (Bs4.BeautifulSoup html) container ["h3"; "h4"] false) as headings.
  assert (Hloop : forall headings st,
             moved_below_root (fst st) ->
             moved_below_root (fst (fold_left ScraperV1.collect_section headings st))).
  { induction headings as [ | h headings IH ]; intros st Hst; [ exact Hst | ].
    cbn [fold_left]. apply IH, collect_section_moved, Hst. }
  intros headings. apply Hloop. exact Hstart.
Qed.

Lemma section_links_moved (soup : Bs4.Soup) (sections : list (string * Bs4.handle))
    (ca : string * Bs4.handle) :
  sections_invariant (soup, sections) ->
  In ca (ScraperV1.section_links soup sections) ->
  exists p q, snd ca = Bs4.Node q /\ p ∈ Bs4.detached soup /\ q ∈ listing soup p.
Proof.
  intros [_ Hsections] Hin. cbn [fst snd] in Hsections.
  unfold ScraperV1.section_links in Hin. apply in_flat_map in Hin.
  destruct Hin as (cs & Hcs & Hin). apply in_map_iff in Hin. destruct Hin as (a & <- & Ha).
  cbn [snd].
  assert (Hwrapper : exists w, snd cs = Bs4.NewTag w).
  { assert (Hsnd : In (snd cs) (List.map snd sections)) by (apply in_map; exact Hcs).
    rewrite Hsections in Hsnd. apply list_elem_of_In, list_elem_of_fmap in Hsnd.
    destruct Hsnd as (w & Hw & _). eauto. }
  destruct Hwrapper as (w & Hw). rewrite Hw in Ha.
  unfold Bs4.find_all in Ha. apply filter_In in Ha. destruct Ha as [Ha _].
  cbn [Bs4.descendants] in Ha. apply list_elem_of_In, list_elem_of_fmap in Ha.
  destruct Ha as (q & -> & Hq). apply list_elem_of_In, in_flat_map in Hq.
  destruct Hq as (p & Hp & Hq). exists p, q. split; [ reflexivity | ].
  split; [ | apply list_elem_of_In; exact Hq ].
  unfold Bs4.detached. destruct (Bs4.wrappers soup !! w) as [row | ] eqn:Hrow;
    [ | destruct Hp ].
  apply list_elem_of_In, in_concat. exists row.
  split; [ apply list_elem_of_In, list_elem_of_lookup; eauto | exact Hp ].
Qed.

(** The classifier takes what it reads out of the page: after it has run
    on a freshly parsed page, none of the links of its sections is among
    the descendants of the page any more, so a later [soup.find_all] does
    not find them. *)
Theorem classified_links_leave_the_page (html : list Bs4.PageElement)
    (ca : string * Bs4.handle) :
  In ca (document_links (Bs4.BeautifulSoup html)) ->
  List.Forall (fun d => d <> snd ca)
    (Bs4.descendants (fst (document_sections (Bs4.BeautifulSoup html))) (Bs4.Node [])).
Proof.
  intros Hin. unfold document_links in Hin.
  set (soup := fst (document_sections (Bs4.BeautifulSoup html))) in *.
  assert (Hinv : sections_invariant (soup, snd (document_sections (Bs4.BeautifulSoup html)))).
  { unfold soup. rewrite <- surjective_pairing. unfold document_sections.
    destruct (ScraperV1.docs_heading _) as [heading | ];
      [ destruct (ScraperV1.best_container _ _ _ _ _) as [container | ] | ].
    - apply collect_sections_invariant. reflexivity.
    - split; [ constructor | reflexivity ].
    - split; [ constructor | reflexivity ]. }
  destruct (section_links_moved soup _ ca Hinv Hin) as (p & q & Hca & Hp & Hq).
  pose proof (document_sections_moved html p Hp) as Hroot. fold soup in Hroot.
  apply List.Forall_forall. intros d Hd Heq. rewrite Hca in Heq. subst d.
  cbn [Bs4.descendants] in Hd.
  destruct (Bs4.element soup []) as [e | ]; [ | destruct Hd ].
  apply list_elem_of_In, list_elem_of_fmap in Hd. destruct Hd as (q' & Hq' & Hd).
  injection Hq' as <-.
  destruct (descendants_at_below (Bs4.detached soup) e []) as [Hbelow _].
  destruct (Hbelow q Hd) as (s & _ & Hs & Hfree). cbn [app] in Hs. subst s.
  destruct (listing_spec soup p) as [Hlisting _].
  destruct (Hlisting q Hq) as [-> | (s & _ & -> & _)].
  - apply (Hfree p []); [ rewrite app_nil_r; reflexivity | exact Hroot | exact Hp ].
  - apply (Hfree p s); [ reflexivity | exact Hroot | exact Hp ].
Qed.

Lemma classified_links_leave_the_page_witness :
  Bs4.get_attr documents_page (Bs4.Node [0; 0; 0; 1; 0; 1; 0; 0]) "href"
  = Some "https://www.bseindia.com/a/1.pdf"
  /\ List.Forall (fun d => d <> Bs4.Node [0; 0; 0; 1; 0; 1; 0; 0])
       (Bs4.descendants (fst (document_sections documents_page)) (Bs4.Node [])).
Proof.
  split; [ reflexivity | ].
  apply (classified_links_leave_the_page
           (Bs4.top documents_page) ("announcements", Bs4.Node [0; 0; 0; 1; 0; 1; 0; 0])).
  vm_compute. left. reflexivity.
Defined.
